(** * project_reporter: validation of projects and cost aggregation

    A shallow embedding of [project_reporter/project.py] (the [Project]
    class and its format checkers), of [compute_costs] and [summarize]
    from [project_reporter/main.py], of [project_reporter/replicon.py] (the
    spreadsheet handler, [read_replicon] and [reformat_replicon]) and of
    [add_opacity] and [get_colors] from [project_reporter/utilities.py].

    Conventions of the embedding:
    - a Python exception is a value of [exn]; a function that may raise
      returns a [result];
    - a float is an IEEE 754 binary64 number, represented by the
      specification floats of the standard library ([spec_float]) with the
      binary64 parameters;
    - a Pandas data frame is an ordered header together with its rows, a row
      being a finite map from column labels to cells; a label without an
      entry in a row is a missing value. *)

From Stdlib Require Import ZArith String Ascii List Lia.
From Stdlib.Floats Require Import SpecFloat.
From stdpp Require Import base option list gmap strings sorting.

Open Scope string_scope.
Open Scope list_scope.

(** ** Floats and cells *)

(** binary64 *)
Definition float64 : Type := spec_float.
Definition f64_prec : Z := 53.
Definition f64_emax : Z := 1024.

Definition fadd : float64 -> float64 -> float64 := SFadd f64_prec f64_emax.
Definition fmul : float64 -> float64 -> float64 := SFmul f64_prec f64_emax.
Definition fdiv : float64 -> float64 -> float64 := SFdiv f64_prec f64_emax.
(** Python's [==] and [>=] on floats. *)
Definition feqb : float64 -> float64 -> bool := SFeqb.
Definition fgeb (x y : float64) : bool := SFleb y x.
Definition fzero : float64 := S754_zero false.
(** Conversion of a Python integer, rounding to nearest even. *)
Definition float_of_Z (z : Z) : float64 :=
  binary_normalize f64_prec f64_emax z 0 false.
Definition fisnan (x : float64) : bool :=
  match x with S754_nan => true | _ => false end.

#[global] Instance float64_eq_dec : EqDecision float64.
Proof. unfold float64. solve_decision. Defined.

Definition float64_enc (x : float64) : bool + bool + unit + bool * positive * Z :=
  match x with
  | S754_zero s => inl (inl (inl s))
  | S754_infinity s => inl (inl (inr s))
  | S754_nan => inl (inr tt)
  | S754_finite s m e => inr (s, m, e)
  end.
Definition float64_dec (y : bool + bool + unit + bool * positive * Z) : float64 :=
  match y with
  | inl (inl (inl s)) => S754_zero s
  | inl (inl (inr s)) => S754_infinity s
  | inl (inr _) => S754_nan
  | inr (s, m, e) => S754_finite s m e
  end.

#[global] Instance float64_countable : Countable float64.
Proof.
  apply (inj_countable' float64_enc float64_dec).
  intros []; reflexivity.
Defined.

(** The values a cell of a data frame holds. [SNone] is a missing value
    ([None] or [NaT]); a missing float is the float NaN. *)
Inductive scalar :=
| SStr (s : string)
| SFloat (x : float64)
| SInt (z : Z)
| SDate (d : Z)
| SNone.

#[global] Instance scalar_eq_dec : EqDecision scalar.
Proof. solve_decision. Defined.

Definition scalar_enc (c : scalar) : string + float64 + Z + Z + unit :=
  match c with
  | SStr s => inl (inl (inl (inl s)))
  | SFloat x => inl (inl (inl (inr x)))
  | SInt z => inl (inl (inr z))
  | SDate d => inl (inr d)
  | SNone => inr tt
  end.
Definition scalar_dec (y : string + float64 + Z + Z + unit) : scalar :=
  match y with
  | inl (inl (inl (inl s))) => SStr s
  | inl (inl (inl (inr x))) => SFloat x
  | inl (inl (inr z)) => SInt z
  | inl (inr d) => SDate d
  | inr _ => SNone
  end.

#[global] Instance scalar_countable : Countable scalar.
Proof.
  apply (inj_countable' scalar_enc scalar_dec).
  intros []; reflexivity.
Defined.

(** Python numbers as they reach the constructor: the [budget] read from a
    YAML file is an [int] or a [float]. *)
Inductive number :=
| NInt (z : Z)
| NFloat (x : float64).

Definition number_to_float (n : number) : float64 :=
  match n with
  | NInt z => float_of_Z z
  | NFloat x => x
  end.

(** ** Data frames *)

(** The header, in order, and the rows.  The cells of a frame are addressed
    by label, so a header is taken to list each label once. *)
Record DataFrame := mkDataFrame {
  columns : list string;
  rows : list (gmap string scalar)
}.

(** The cell of a row under a label; no entry is a missing value. *)
Definition cell (r : gmap string scalar) (c : string) : scalar :=
  default SNone (r !! c).

(** A row built from its labels and a function giving each cell. *)
Definition new_row (cols : list string) (g : string -> scalar) : gmap string scalar :=
  list_to_map ((fun c => (c, g c)) <$> cols).

(** The objects passed to the constructor. *)
Inductive PyVal :=
| VNone
| VStr (s : string)
| VNum (n : number)
| VFrame (f : DataFrame).

(** ** Exceptions and the error monad *)

(** What a [voluptuous.Invalid] reports. *)
Inductive invalid_reason :=
| ExpectedStr
| ExpectedDataFrame
| ValueTooSmall
| NotNonempty
| WrongHeader (expect_cols : gset string)
| NaNsFound
| NonNumericalValue (v : scalar)
| BudgetMismatch (b : float64) (budget : PyVal)
| UnknownTasks (D : gset scalar)
| UnknownWorkers (D : gset scalar).

Inductive exn :=
| Invalid (r : invalid_reason)
| AttributeError (attr : string)
| NameError (name : string)
| TypeError
| KeyError (label : string)
| IndexError
| MergeError
| ValueError (msg : string).

Inductive result (A : Type) :=
| Ok (a : A)
| Err (e : exn).
Arguments Ok {A} a.
Arguments Err {A} e.

#[global] Instance result_ret : MRet result := fun A a => Ok a.
#[global] Instance result_bind : MBind result := fun A B k m =>
  match m with
  | Ok a => k a
  | Err e => Err e
  end.

(** A [for] loop whose body may raise. *)
Fixpoint for_each {A : Type} (body : A -> result unit) (l : list A) : result unit :=
  match l with
  | [] => Ok tt
  | x :: l' => _ ← body x; for_each body l'
  end.

(** [f[c].values]; an unknown label raises [KeyError]. *)
Definition getitem (f : DataFrame) (c : string) : result (list scalar) :=
  if decide (c ∈ columns f)
  then Ok ((fun r => cell r c) <$> rows f)
  else Err (KeyError c).

(** Subscripting an argument of the constructor. *)
Definition py_getitem (v : PyVal) (c : string) : result (list scalar) :=
  match v with
  | VFrame f => getitem f c
  | _ => Err TypeError
  end.

(** [v.copy()]: of the objects here only a data frame has the method. *)
Definition py_copy (v : PyVal) : result PyVal :=
  match v with
  | VFrame f => Ok (VFrame f)
  | _ => Err (AttributeError "copy")
  end.

(** [pandas.isnull] on a cell. *)
Definition isnull (v : scalar) : bool :=
  match v with
  | SNone => true
  | SFloat x => fisnan x
  | _ => false
  end.

(** [isinstance(v, float)]; a NumPy float64 is a [float]. *)
Definition isinstance_float (v : scalar) : bool :=
  match v with
  | SFloat _ => true
  | _ => false
  end.

Definition scalar_to_float (v : scalar) : option float64 :=
  match v with
  | SFloat x => Some x
  | SInt z => Some (float_of_Z z)
  | _ => None
  end.

(** [Series.sum()] of a numeric column: NaN is skipped and the empty sum is
    zero.  The additions are taken from left to right. *)
Definition float_sum (l : list float64) : float64 :=
  fold_left fadd (List.filter (fun x => negb (fisnan x)) l) fzero.

Definition Series_sum (l : list scalar) : result float64 :=
  match mapM scalar_to_float l with
  | Some xs => Ok (float_sum xs)
  | None => Err TypeError
  end.

(** [s.iat[0]] *)
Definition iat0 (l : list scalar) : result scalar :=
  match l with
  | v :: _ => Ok v
  | [] => Err IndexError
  end.

(** ** Format checkers ([project.py]) *)

(** [check_str = vt.Schema(str)]: an instance test, nothing more. *)
Definition check_str (v : PyVal) : result string :=
  match v with
  | VStr s => Ok s
  | _ => Err (Invalid ExpectedStr)
  end.

(** [check_pos = vt.Schema(vt.Range(min=0))] *)
Definition check_pos (v : PyVal) : result number :=
  match v with
  | VNum (NInt z) =>
      if (0 <=? z)%Z then Ok (NInt z) else Err (Invalid ValueTooSmall)
  | VNum (NFloat x) =>
      if fgeb x fzero then Ok (NFloat x) else Err (Invalid ValueTooSmall)
  | _ => Err (Invalid ValueTooSmall)
  end.

(** [check_df_instance = vt.Schema(pd.DataFrame)] *)
Definition check_df_instance (v : PyVal) : result DataFrame :=
  match v with
  | VFrame f => Ok f
  | _ => Err (Invalid ExpectedDataFrame)
  end.

(** [f.empty] *)
Definition df_empty (f : DataFrame) : bool :=
  match columns f, rows f with
  | _ :: _, _ :: _ => false
  | _, _ => true
  end.

(** [df_nonempty]; defined in the module, called by none of the checkers. *)
Definition df_nonempty (f : DataFrame) : result DataFrame :=
  if df_empty f then Err (Invalid NotNonempty) else Ok f.

Definition check_df_header (f : DataFrame) (expect_cols : list string) : result DataFrame :=
  if decide ((list_to_set (columns f) : gset string) = list_to_set expect_cols)
  then Ok f
  else Err (Invalid (WrongHeader (list_to_set expect_cols))).

(** [f[col].isnull().sum()] *)
Definition isnull_sum (l : list scalar) : nat :=
  length (List.filter isnull l).

Definition df_no_nans (f : DataFrame) : result DataFrame :=
  _ ← for_each (fun col =>
         vs ← getitem f col;
         if decide (isnull_sum vs = 0) then Ok tt else Err (Invalid NaNsFound))
       (columns f);
  Ok f.

Definition check_df_no_nans : DataFrame -> result DataFrame := df_no_nans.

Definition check_df (f : PyVal) (expect_cols : list string) : result DataFrame :=
  f ← check_df_instance f;
  f ← check_df_header f expect_cols;
  f ← check_df_no_nans f;
  Ok f.

(** [b != budget] for the float [b]; a data frame on the right gives a frame
    of booleans, whose truth value raises. *)
Definition float_ne (b : float64) (budget : PyVal) : result bool :=
  match budget with
  | VNum n => Ok (negb (feqb b (number_to_float n)))
  | VFrame _ => Err (ValueError "The truth value of a DataFrame is ambiguous")
  | _ => Ok true
  end.

Definition check_tasks_df (f : PyVal) (budget : PyVal) : result DataFrame :=
  f ← check_df f ["task"; "budget"];
  (* Check data types *)
  vs ← getitem f "budget";
  _ ← for_each (fun v =>
         if isinstance_float v then Ok tt
         else Err (Invalid (NonNumericalValue v))) vs;
  (* Check budget not exceeded *)
  b ← Series_sum vs;
  ne ← float_ne b budget;
  if ne : bool then Err (Invalid (BudgetMismatch b budget))
  else Ok f.

Definition check_workers_df (f : PyVal) : result DataFrame :=
  f ← check_df f ["worker"; "rate"];
  (* Check data types *)
  vs ← getitem f "rate";
  _ ← for_each (fun v =>
         if isinstance_float v then Ok tt
         else Err (Invalid (NonNumericalValue v))) vs;
  Ok f.

(** The copy is taken before the test for [None], and the message for a
    non-float duration names the variable [name], which is bound nowhere. *)
Definition check_timesheet_df (timesheet_df tasks_df workers_df : PyVal)
  : result (option DataFrame) :=
  f ← py_copy timesheet_df;
  match f with
  | VNone => Ok None
  | _ =>
    f ← check_df f ["date"; "task"; "worker"; "duration"];
    (* Check data types *)
    vs ← getitem f "duration";
    _ ← for_each (fun v =>
           if isinstance_float v then Ok tt
           else Err (NameError "name")) vs;
    (* Check tasks *)
    ts ← getitem f "task";
    tt' ← py_getitem tasks_df "task";
    let D : gset scalar := list_to_set ts ∖ list_to_set tt' in
    if decide (D = ∅) then
      (* Check workers *)
      ws ← getitem f "worker";
      ww ← py_getitem workers_df "worker";
      let D : gset scalar := list_to_set ws ∖ list_to_set ww in
      if decide (D = ∅) then Ok (Some f)
      else Err (Invalid (UnknownWorkers D))
    else Err (Invalid (UnknownTasks D))
  end.

(** ** The Project class *)

Record Project := mkProject {
  name : string;
  description : string;
  client : string;
  budget : number;
  currency : string;
  tasks_df : DataFrame;
  workers_df : DataFrame;
  timesheet_df : option DataFrame
}.

(** [Project.__init__] *)
Definition Project_init
    (name description client budget currency tasks_df workers_df timesheet_df : PyVal)
  : result Project :=
  name' ← check_str name;
  description' ← check_str description;
  client' ← check_str client;
  budget' ← check_pos budget;
  currency' ← check_str currency;
  tasks_df' ← check_tasks_df tasks_df budget;
  workers_df' ← check_workers_df workers_df;
  timesheet_df' ← check_timesheet_df timesheet_df tasks_df workers_df;
  Ok (mkProject name' description' client' budget' currency'
        tasks_df' workers_df' timesheet_df').

(** A call of [Project] with positional arguments: seven required parameters, and
    [timesheet_df], which defaults to [None]. *)
Definition Project_new (args : list PyVal) : result Project :=
  match args with
  | [n; d; c; b; cur; t; w] => Project_init n d c b cur t w VNone
  | [n; d; c; b; cur; t; w; ts] => Project_init n d c b cur t w ts
  | _ => Err TypeError
  end.

(** [Project.copy]: [other = Project()], after which every attribute of
    [PROJECT_ATTRS] is copied from [self] onto [other]. *)
Definition Project_copy (self : Project) : result Project :=
  other ← Project_new [];
  Ok (mkProject (name self) (description self) (client self) (budget self)
        (currency self) (tasks_df self) (workers_df self) (timesheet_df self)).

(** ** Data frame operations used by [main.py] *)

(** [left.merge(right)]: the inner join on the labels the two frames share,
    in the order of the rows of [left]; the labels of [right] that [left]
    lacks are appended to the header. *)
Definition merge_columns (left right : DataFrame) : list string :=
  columns left ++ filter (fun c => c ∉ columns left) (columns right).

Definition merge_row (left right : DataFrame) (l r : gmap string scalar)
  : gmap string scalar :=
  new_row (merge_columns left right)
    (fun c => if decide (c ∈ columns left) then cell l c else cell r c).

Definition merge (left right : DataFrame) : result DataFrame :=
  let common := filter (fun c => c ∈ columns right) (columns left) in
  match common with
  | [] => Err MergeError
  | _ =>
    Ok (mkDataFrame (merge_columns left right)
          (l ← rows left;
           r ← rows right;
           if decide (Forall (fun c => cell l c = cell r c) common)
           then [merge_row left right l r]
           else []))
  end.

(** [f[c] = vs] *)
Definition setitem (f : DataFrame) (c : string) (vs : list scalar) : result DataFrame :=
  if decide (length vs = length (rows f))
  then Ok (mkDataFrame
             (if decide (c ∈ columns f) then columns f else columns f ++ [c])
             (zip_with (fun r v => <[c := v]> r) (rows f) vs))
  else Err (ValueError "Length of values does not match length of index").

(** [s.astype('category')] changes the dtype and no value. *)
Definition astype_category (vs : list scalar) : list scalar := vs.

(** [f.rename(columns={old: new})] *)
Definition rename_columns (f : DataFrame) (old new : string) : list string :=
  (fun c => if decide (c = old) then new else c) <$> columns f.

Definition rename_row (f : DataFrame) (old new : string) (r : gmap string scalar)
  : gmap string scalar :=
  new_row (rename_columns f old new) (fun c =>
    if decide (c = new) then
      if decide (old ∈ columns f) then cell r old else cell r c
    else cell r c).

Definition rename (f : DataFrame) (old new : string) : DataFrame :=
  mkDataFrame (rename_columns f old new) (rename_row f old new <$> rows f).

(** [f.drop([c], axis=1)] *)
Definition drop (f : DataFrame) (c : string) : result DataFrame :=
  if decide (c ∈ columns f)
  then Ok (mkDataFrame (filter (fun c' => c' ≠ c) (columns f))
             (delete c <$> rows f))
  else Err (KeyError c).

(** Arithmetic of two numeric columns, cell by cell. *)
Definition Series_binop (op : float64 -> float64 -> float64) (xs ys : list scalar)
  : result (list scalar) :=
  match mapM (fun xy : scalar * scalar =>
                a ← scalar_to_float xy.1;
                b ← scalar_to_float xy.2;
                Some (SFloat (op a b))) (zip xs ys) with
  | Some l => Ok l
  | None => Err TypeError
  end.

(** A numeric column divided by a number. *)
Definition Series_div_number (xs : list scalar) (n : number) : result (list scalar) :=
  match mapM (fun x => a ← scalar_to_float x;
                       Some (SFloat (fdiv a (number_to_float n)))) xs with
  | Some l => Ok l
  | None => Err TypeError
  end.

(** ** [compute_costs] *)

Definition missing_timesheet : exn :=
  ValueError "The project needs a timesheet for this operation".

Definition compute_costs (project : Project) : result DataFrame :=
  match timesheet_df project with
  | None => Err missing_timesheet
  | Some timesheet =>
    (* Merge in billing rates and budget *)
    f ← merge timesheet (tasks_df project);
    f ← merge f (workers_df project);
    t ← getitem f "task";
    f ← setitem f "task" (astype_category t);
    w ← getitem f "worker";
    f ← setitem f "worker" (astype_category w);
    let f := rename f "budget" "task_budget" in
    (* Compute cost *)
    d ← getitem f "duration";
    r ← getitem f "rate";
    c ← Series_binop fmul d r;
    f ← setitem f "cost" c;
    c ← getitem f "cost";
    tb ← getitem f "task_budget";
    q ← Series_binop fdiv c tb;
    f ← setitem f "cost/task_budget" q;
    c ← getitem f "cost";
    q ← Series_div_number c (budget project);
    f ← setitem f "cost/project_budget" q;
    Ok f
  end.

(** ** [summarize] *)

(** The order in which group keys are sorted: strings by code point, dates
    and numbers by value. *)
Definition scalar_rank (v : scalar) : nat :=
  match v with
  | SNone => 0
  | SInt _ => 1
  | SFloat _ => 2
  | SDate _ => 3
  | SStr _ => 4
  end.

Definition scalar_leb (a b : scalar) : bool :=
  match a, b with
  | SStr s, SStr t => String.leb s t
  | SFloat x, SFloat y => SFleb x y
  | SInt x, SInt y => (x <=? y)%Z
  | SDate x, SDate y => (x <=? y)%Z
  | _, _ => Nat.leb (scalar_rank a) (scalar_rank b)
  end.

Fixpoint key_leb (k1 k2 : list scalar) : bool :=
  match k1, k2 with
  | [], _ => true
  | _ :: _, [] => false
  | a :: k1', b :: k2' =>
      if decide (a = b) then key_leb k1' k2' else scalar_leb a b
  end.

Definition key_le (k1 k2 : list scalar) : Prop := key_leb k1 k2 = true.

#[global] Instance key_le_dec k1 k2 : Decision (key_le k1 k2).
Proof. unfold key_le. apply _. Defined.

(** The key of a row under the grouping labels. *)
Definition row_key (labels : list string) (r : gmap string scalar) : list scalar :=
  cell r <$> labels.

Section Summarize.

(** [pd.TimeGrouper(freq, label='left')] sends a date to the left edge of
    the bin of frequency [freq] that holds it.  The binning belongs to
    Pandas and is a parameter here. *)
Variable TimeGrouper : string -> Z -> Z.

Definition bucket_dates (freq : string) (vs : list scalar) : result (list scalar) :=
  mapM (fun v => match v with
                 | SDate d => Ok (SDate (TimeGrouper freq d))
                 | _ => Err TypeError
                 end) vs.

(** The local function [my_agg] of [summarize]; the result lists the
    entries of its ordered dictionary. *)
Definition my_agg (group : DataFrame) : result (list (string * scalar)) :=
  d ← getitem group "duration";
  d ← Series_sum d;
  r ← getitem group "rate";
  r ← iat0 r;
  c ← getitem group "cost";
  c ← Series_sum c;
  tb ← getitem group "task_budget";
  tb ← iat0 tb;
  Ok [("duration", SFloat d); ("rate", r); ("cost", SFloat c); ("task_budget", tb)].

(** The rows of [f] whose key is [k]. *)
Definition group_of (f : DataFrame) (cols : list string) (k : list scalar) : DataFrame :=
  mkDataFrame (columns f) (filter (fun r => row_key cols r = k) (rows f)).

(** [f.groupby(cols).apply(my_agg).reset_index()]: one row for each key
    that occurs, in the sorted order of the keys; without any group the
    result is a frame with only the column of its empty index. *)
Definition groupby_apply (f : DataFrame) (cols : list string) : result DataFrame :=
  _ ← for_each (fun c => _ ← getitem f c; Ok tt) cols;
  match merge_sort key_le (remove_dups (row_key cols <$> rows f)) with
  | [] => Ok (mkDataFrame ["index"] [])
  | keys =>
    rs ← mapM (fun k =>
            s ← my_agg (group_of f cols k);
            Ok (list_to_map (zip cols k ++ s) : gmap string scalar)) keys;
    Ok (mkDataFrame (cols ++ ["duration"; "rate"; "cost"; "task_budget"]) rs)
  end.

Definition summarize (project : Project) (by_task by_worker : bool)
    (freq : option string) : result DataFrame :=
  match timesheet_df project with
  | None => Err missing_timesheet
  | Some _ =>
    f ← compute_costs project;
    let cols := (if by_task then ["task"] else [])
                ++ (if by_worker then ["worker"] else []) in
    g ← match freq with
        | None =>
          match cols with
          | _ :: _ => groupby_apply f cols
          | [] =>
            s ← my_agg f;
            Ok (mkDataFrame (s.*1) [list_to_map s])
          end
        | Some freq =>
          d ← getitem f "date";
          d ← bucket_dates freq d;
          f ← setitem f "date" d;
          groupby_apply f ("date" :: cols)
        end;
    (* Append or drop some columns *)
    g ← (if by_task then
           c ← getitem g "cost";
           tb ← getitem g "task_budget";
           q ← Series_binop fdiv c tb;
           g ← setitem g "cost/task_budget" q;
           c ← getitem g "cost";
           q ← Series_div_number c (budget project);
           setitem g "cost/project_budget" q
         else
           g ← drop g "task_budget";
           c ← getitem g "cost";
           q ← Series_div_number c (budget project);
           setitem g "cost/project_budget" q);
    if by_worker then Ok g else drop g "rate"
  end.

End Summarize.

(** ** Python strings and sequences *)

(** A character of a string is taken to be a code point below 256.
    [str.isspace] on these code points. *)
Definition is_space (a : ascii) : bool :=
  let n := N_of_ascii a in
  ((9 <=? n) && (n <=? 13) || (28 <=? n) && (n <=? 32)
   || (n =? 133) || (n =? 160))%N.

Fixpoint lstrip (s : string) : string :=
  match s with
  | String a s' => if is_space a then lstrip s' else s
  | EmptyString => EmptyString
  end.

Fixpoint rstrip (s : string) : string :=
  match s with
  | EmptyString => EmptyString
  | String a s' =>
      match rstrip s' with
      | EmptyString => if is_space a then EmptyString else String a EmptyString
      | t => String a t
      end
  end.

(** [s.strip()] *)
Definition strip (s : string) : string := rstrip (lstrip s).

Definition lower_ascii (a : ascii) : ascii :=
  let n := N_of_ascii a in
  if ((65 <=? n) && (n <=? 90)
      || (192 <=? n) && (n <=? 222) && negb (n =? 215))%N
  then ascii_of_N (n + 32) else a.

Fixpoint string_map (g : ascii -> ascii) (s : string) : string :=
  match s with
  | EmptyString => EmptyString
  | String a s' => String (g a) (string_map g s')
  end.

(** [s.lower()] *)
Definition lower (s : string) : string := string_map lower_ascii s.

(** [s.replace(' ', '_')] *)
Definition replace_space (s : string) : string :=
  string_map (fun a => if Ascii.eqb a " " then "_"%char else a) s.

(** [x.split(', ')]: the pieces of [x] between the occurrences of the
    separator, found from the left; [cur] is the piece being read. *)
Fixpoint split_comma_space (x cur : string) : list string :=
  match x with
  | EmptyString => [cur]
  | String a x' =>
      match x' with
      | String b rest =>
          if (Ascii.eqb a "," && Ascii.eqb b " ")%bool
          then cur :: split_comma_space rest EmptyString
          else split_comma_space x' (cur ++ String a EmptyString)
      | EmptyString => split_comma_space x' (cur ++ String a EmptyString)
      end
  end.

(** [l[i]]; a negative index counts from the end. *)
Definition py_index {A : Type} (l : list A) (i : Z) : result A :=
  let n := Z.of_nat (length l) in
  let j := (if i <? 0 then i + n else i)%Z in
  if ((0 <=? j) && (j <? n))%Z
  then match l !! Z.to_nat j with
       | Some x => Ok x
       | None => Err IndexError
       end
  else Err IndexError.

(** A bound of a slice, brought into [0 .. len]. *)
Definition slice_bound (len i : Z) : Z :=
  (if i <? 0 then Z.max (i + len) 0 else Z.min i len)%Z.

(** [l[start:stop]], with [None] for a missing [stop]. *)
Definition py_slice {A : Type} (l : list A) (start : Z) (stop : option Z) : list A :=
  let n := Z.of_nat (length l) in
  let s := slice_bound n start in
  let e := match stop with
           | Some e => slice_bound n e
           | None => n
           end in
  firstn (Z.to_nat (e - s)) (skipn (Z.to_nat s) l).

Definition string_slice (s : string) (start : Z) (stop : option Z) : string :=
  string_of_list_ascii (py_slice (list_ascii_of_string s) start stop).

(** ** [replicon.py] *)

(** The calls an XML parser makes on a content handler; the attributes of
    an element are not used. *)
Inductive sax_event :=
| Characters (content : string)
| StartElement (name : string)
| EndElement (name : string).

(** The handler.  [cells] and [rows] are references: the list [cells] is
    appended to [rows] as an object, and the list [rows] to [tables].  The
    lists of cells live in [cell_lists] and the lists of rows in [row_lists],
    a reference being a position there. *)
Module ExcelHandler.

Record t := mk {
  chars : list string;
  cells : nat;
  rows : nat;
  tables : list nat;
  cell_lists : list (list string);
  row_lists : list (list nat)
}.

(** [__init__] *)
Definition init : t := mk [] 0 0 [] [[]] [[]].

Definition characters (self : t) (content : string) : t :=
  mk (chars self ++ [content]) (cells self) (rows self) (tables self)
    (cell_lists self) (row_lists self).

Definition startElement (self : t) (name : string) : t :=
  if decide (name = "Cell") then
    mk [] (cells self) (rows self) (tables self) (cell_lists self) (row_lists self)
  else if decide (name = "Row") then
    mk (chars self) (length (cell_lists self)) (rows self) (tables self)
      (cell_lists self ++ [[]]) (row_lists self)
  else if decide (name = "Table") then
    mk (chars self) (cells self) (length (row_lists self)) (tables self)
      (cell_lists self) (row_lists self ++ [[]])
  else self.

Definition endElement (self : t) (name : string) : t :=
  if decide (name = "Cell") then
    mk (chars self) (cells self) (rows self) (tables self)
      (alter (fun l => l ++ [String.concat EmptyString (chars self)]) (cells self)
         (cell_lists self))
      (row_lists self)
  else if decide (name = "Row") then
    mk (chars self) (cells self) (rows self) (tables self) (cell_lists self)
      (alter (fun l => l ++ [cells self]) (rows self) (row_lists self))
  else if decide (name = "Table") then
    mk (chars self) (cells self) (rows self) (tables self ++ [rows self])
      (cell_lists self) (row_lists self)
  else self.

(** The list a reference stands for, and [self.tables] as nested lists. *)
Definition cells_at (self : t) (i : nat) : list string :=
  default [] (cell_lists self !! i).
Definition rows_at (self : t) (j : nat) : list (list string) :=
  cells_at self <$> default [] (row_lists self !! j).
Definition tables_of (self : t) : list (list (list string)) :=
  rows_at self <$> tables self.

End ExcelHandler.

(** The parser calls the method of each event. *)
Definition handle (excel : ExcelHandler.t) (e : sax_event) : ExcelHandler.t :=
  match e with
  | Characters content => ExcelHandler.characters excel content
  | StartElement name => ExcelHandler.startElement excel name
  | EndElement name => ExcelHandler.endElement excel name
  end.

(** [parse(path, excel)], for the events of the file. *)
Definition parse (events : list sax_event) (excel : ExcelHandler.t) : ExcelHandler.t :=
  fold_left handle events excel.

(** [pd.DataFrame(data, columns=columns)] for rows of strings: a row
    shorter than the longest is filled with missing values, and the longest
    must have as many cells as there are labels.  The error is an
    [AssertionError] or a [ValueError], by the version of Pandas; it is a
    [ValueError] here. *)
Definition DataFrame_new (data : list (list string)) (columns : list string)
  : result DataFrame :=
  match data with
  | [] => Ok (mkDataFrame columns [])
  | _ =>
    if decide (max_list (length <$> data) = length columns)
    then Ok (mkDataFrame columns
               ((fun x => new_row columns (fun c =>
                   match list_find (fun c' => c' = c) columns with
                   | Some (i, _) => from_option SStr SNone (x !! i)
                   | None => SNone
                   end)) <$> data))
    else Err (ValueError "columns passed do not match the data")
  end.

Definition read_replicon (events : list sax_event) (header_row start_row : Z)
    (end_row : option Z) (start_column : Z) (end_column : option Z) : result DataFrame :=
  let excel := parse events ExcelHandler.init in
  table ← py_index (ExcelHandler.tables_of excel) 0;
  header ← py_index table header_row;
  let columns := strip <$> py_slice header start_column end_column in
  let data := (fun x => strip <$> py_slice x start_column end_column)
              <$> py_slice table start_row end_row in
  DataFrame_new data columns.

(** The local function [clean_worker] of [reformat_replicon]. *)
Definition clean_worker (x : string) : string :=
  let names := split_comma_space x EmptyString in
  let names := if decide (2 <= length names) then reverse names else names in
  strip (String.concat " " names).


Section Reformat.

(** [pd.to_datetime] on a column, and [float] on a string. *)
Variable to_datetime : list scalar -> result (list scalar).
Variable float_of_string : string -> option float64.

(** [f.drop(labels, axis=1, errors='ignore')] *)
Definition drop_ignore (f : DataFrame) (labels : list string) : DataFrame :=
  mkDataFrame (filter (fun c => c ∉ labels) (columns f))
    ((fun r => foldr delete r labels) <$> rows f).

(** [f.rename(columns=d)] for a dictionary [d]: the labels are renamed at
    once, and a label that is no key stays. *)
Definition renamed (d : gmap string string) (c : string) : string :=
  default c (d !! c).

Definition rename_dict_row (f : DataFrame) (d : gmap string string)
    (r : gmap string scalar) : gmap string scalar :=
  new_row (renamed d <$> columns f) (fun c' =>
    match list_find (fun c => renamed d c = c') (columns f) with
    | Some (_, c) => cell r c
    | None => SNone
    end).

Definition rename_dict (f : DataFrame) (d : gmap string string) : DataFrame :=
  mkDataFrame (renamed d <$> columns f) (rename_dict_row f d <$> rows f).

(** [s.astype(float)], cell by cell; [None] becomes NaN. *)
Definition astype_float (v : scalar) : result scalar :=
  match v with
  | SFloat x => Ok (SFloat x)
  | SInt z => Ok (SFloat (float_of_Z z))
  | SStr s =>
      match float_of_string s with
      | Some x => Ok (SFloat x)
      | None => Err (ValueError "could not convert string to float")
      end
  | SNone => Ok (SFloat (fdiv fzero fzero))
  | SDate _ => Err TypeError
  end.

(** [s.map(g)] for a function [g] on strings that calls a method of its
    argument. *)
Definition Series_map_str (attr : string) (g : string -> string) (v : scalar)
  : result scalar :=
  match v with
  | SStr s => Ok (SStr (g s))
  | _ => Err (AttributeError attr)
  end.

(** [f[cols]] for a list of labels. *)
Definition getitem_list (f : DataFrame) (cols : list string) : result DataFrame :=
  match filter (fun c => c ∉ columns f) cols with
  | [] => Ok (mkDataFrame cols ((fun r => new_row cols (cell r)) <$> rows f))
  | _ => Err (KeyError "not in index")
  end.

Definition drop_cols : list string :=
  ["Client Name"; "Non-Billable Hrs"; "Total Hrs"; "Employee Id"].

Definition new_names : gmap string string :=
  list_to_map [("task_name", "task"); ("user_name", "worker");
               ("billable_hrs", "duration"); ("entry_date", "date")].

Definition reformat_replicon (replicon_df : DataFrame) : result DataFrame :=
  let f := replicon_df in
  (* Drop extraneous columns *)
  let f := drop_ignore f drop_cols in
  (* Rename columns *)
  let f := rename_dict f
             (list_to_map ((fun c => (c, replace_space (strip (lower c)))) <$> columns f)) in
  let f := rename_dict f new_names in
  (* Fix dtypes *)
  d ← getitem f "date";
  d ← to_datetime d;
  f ← setitem f "date" d;
  d ← getitem f "duration";
  d ← mapM astype_float d;
  f ← setitem f "duration" d;
  (* Clean worker *)
  w ← getitem f "worker";
  w ← mapM (Series_map_str "split" clean_worker) w;
  f ← setitem f "worker" w;
  (* Restrict columns *)
  let new_cols := ["date"; "task"; "worker"; "duration"] in
  getitem_list f new_cols.

End Reformat.

(** ** [utilities.py] *)

Section Utilities.

(** [str] of the opacity, and the colour scale of [colorlover]. *)
Variable str : number -> string.
Variable scale : list string.

Definition add_opacity (rgb_str : string) (opacity : number) : string :=
  "rgba(" ++ string_slice rgb_str 4 (Some (-1)%Z) ++ "," ++ str opacity ++ ")".

Definition get_colors (opacity : number) : list string :=
  (fun x => add_opacity x opacity) <$> scale.

End Utilities.

(** ** Notions used in the statements *)

(** The values of a column, from the first row to the last. *)
Definition column_values (f : DataFrame) (c : string) : list scalar :=
  (fun r => cell r c) <$> rows f.


(** The names a frame has under [c] that the frame [g] lacks. *)
Definition unknown_names (f g : DataFrame) (c : string) : gset scalar :=
  list_to_set (column_values f c) ∖ list_to_set (column_values g c).

(** The first row of [right] whose cell under [k] is [x]. *)
Definition match_row (right : DataFrame) (k : string) (x : scalar) : gmap string scalar :=
  default ∅ (head (filter (fun r => x = cell r k) (rows right))).

(** The frame [f] after [f[c] = s] for a column [s] computed row by row. *)
Definition assign (f : DataFrame) (c : string) (g : gmap string scalar -> scalar)
  : DataFrame :=
  mkDataFrame (if decide (c ∈ columns f) then columns f else columns f ++ [c])
    ((fun r => <[c := g r]> r) <$> rows f).

(** The float of a numeric cell. *)
Definition float_of (v : scalar) : float64 :=
  default fzero (scalar_to_float v).

(** The grouping labels of [summarize], in the order in which it lists
    them. *)
Definition group_labels (by_task by_worker : bool) (freq : option string) : list string :=
  (match freq with Some _ => ["date"] | None => [] end)
  ++ (if by_task then ["task"] else [])
  ++ (if by_worker then ["worker"] else []).

(** The frame that [summarize] groups: the cost rows, their dates replaced
    by the bins when a frequency is given. *)
Definition grouping_frame (TimeGrouper : string -> Z -> Z) (project : Project)
    (freq : option string) : result DataFrame :=
  f ← compute_costs project;
  match freq with
  | None => Ok f
  | Some freq =>
    d ← getitem f "date";
    d ← bucket_dates TimeGrouper freq d;
    setitem f "date" d
  end.


Definition is_str (v : PyVal) : bool :=
  match v with
  | VStr _ => true
  | _ => false
  end.

(** What a successful call of [Project] with the timesheet [ts]
    establishes about the project. *)
Record validated (p : Project) (ts : DataFrame) : Prop := {
  v_timesheet : timesheet_df p = Some ts;
  v_tasks : check_df (VFrame (tasks_df p)) ["task"; "budget"] = Ok (tasks_df p);
  v_budgets : Forall (fun x => isinstance_float x = true)
                (column_values (tasks_df p) "budget");
  v_workers : check_df (VFrame (workers_df p)) ["worker"; "rate"] = Ok (workers_df p);
  v_rates : Forall (fun x => isinstance_float x = true)
              (column_values (workers_df p) "rate");
  v_entries : check_df (VFrame ts) ["date"; "task"; "worker"; "duration"] = Ok ts;
  v_durations : Forall (fun x => isinstance_float x = true)
                  (column_values ts "duration");
  v_known_tasks : unknown_names ts (tasks_df p) "task" = ∅;
  v_known_workers : unknown_names ts (workers_df p) "worker" = ∅
}.


(** The row [r] holds the costs of the timesheet entry [e]: the cells of the
    entry, the rate of a worker and the budget of a task with the names the
    entry gives, and the three derived figures. *)
Definition cost_row_of (project : Project) (e r : gmap string scalar) : Prop :=
  exists t w d rate tb,
    t ∈ rows (tasks_df project) /\ cell t "task" = cell e "task"
    /\ w ∈ rows (workers_df project) /\ cell w "worker" = cell e "worker"
    /\ cell e "duration" = SFloat d
    /\ cell w "rate" = SFloat rate
    /\ cell t "budget" = SFloat tb
    /\ cell r "date" = cell e "date"
    /\ cell r "task" = cell e "task"
    /\ cell r "worker" = cell e "worker"
    /\ cell r "duration" = SFloat d
    /\ cell r "rate" = SFloat rate
    /\ cell r "task_budget" = SFloat tb
    /\ cell r "cost" = SFloat (fmul d rate)
    /\ cell r "cost/task_budget" = SFloat (fdiv (fmul d rate) tb)
    /\ cell r "cost/project_budget"
       = SFloat (fdiv (fmul d rate) (number_to_float (budget project))).

(** ** Notions used in the further statements *)

(** How many rows of [g] hold [x] under the label [c]. *)
Definition count_name (g : DataFrame) (c : string) (x : scalar) : nat :=
  length (filter (fun r => x = cell r c) (rows g)).

(** The rows agree on every label outside [S]. *)
Definition agree_off (S : list string) (r r' : gmap string scalar) : Prop :=
  forall c, c ∉ S -> cell r' c = cell r c.

(** The labels that the shaping of the summary adds or drops. *)
Definition shaped_labels (by_worker : bool) : list string :=
  ["task_budget"; "cost/task_budget"; "cost/project_budget"]
  ++ (if by_worker then [] else ["rate"]).

(** The header of the summary for each choice of keys. *)
Definition summary_header (by_task by_worker : bool) (freq : option string) : list string :=
  group_labels by_task by_worker freq
  ++ ["duration"] ++ (if by_worker then ["rate"] else []) ++ ["cost"]
  ++ (if by_task then ["task_budget"; "cost/task_budget"] else [])
  ++ ["cost/project_budget"].

(** An event the handler does nothing with but collect its text. *)
Definition inert (e : sax_event) : bool :=
  match e with
  | Characters _ => true
  | StartElement name | EndElement name =>
      negb (bool_decide (name ∈ ["Cell"; "Row"; "Table"]))
  end.

(** The character data among events, in order. *)
Definition texts (events : list sax_event) : list string :=
  omap (fun e => match e with Characters c => Some c | _ => None end) events.

(** A spreadsheet as nested elements: a table of rows of cells, with
    anything else (character data, other elements) before each of them,
    inside a cell, and before the end of a row or of a table. *)
Record cell_doc := mkCell {
  before_cell : list sax_event;
  in_cell : list sax_event
}.
Record row_doc := mkRow {
  before_row : list sax_event;
  row_cells : list cell_doc;
  row_end : list sax_event
}.
Record table_doc := mkTable {
  before_table : list sax_event;
  table_rows : list row_doc;
  table_end : list sax_event
}.

(** The events of a cell, of a row and of a table. *)
Definition cell_events (c : cell_doc) : list sax_event :=
  before_cell c ++ [StartElement "Cell"] ++ in_cell c ++ [EndElement "Cell"].
Definition row_events (r : row_doc) : list sax_event :=
  before_row r ++ [StartElement "Row"] ++ concat (cell_events <$> row_cells r)
  ++ row_end r ++ [EndElement "Row"].
Definition table_events (t : table_doc) : list sax_event :=
  before_table t ++ [StartElement "Table"] ++ concat (row_events <$> table_rows t)
  ++ table_end t ++ [EndElement "Table"].

(** No cell, row or table starts or ends anywhere but at its place. *)
Definition inert_cell (c : cell_doc) : bool :=
  forallb inert (before_cell c) && forallb inert (in_cell c).
Definition inert_row (r : row_doc) : bool :=
  forallb inert (before_row r) && forallb inert_cell (row_cells r)
  && forallb inert (row_end r).
Definition inert_table (t : table_doc) : bool :=
  forallb inert (before_table t) && forallb inert_row (table_rows t)
  && forallb inert (table_end t).

(** The text of a cell, the texts of a row and those of a table. *)
Definition cell_text (c : cell_doc) : string :=
  String.concat EmptyString (texts (in_cell c)).
Definition row_texts (r : row_doc) : list string := cell_text <$> row_cells r.
Definition table_texts (t : table_doc) : list (list string) := row_texts <$> table_rows t.

(** A row followed by cells that are outside any row. *)
Definition stray_row_events (rs : row_doc * list cell_doc) : list sax_event :=
  row_events rs.1 ++ concat (cell_events <$> rs.2).

(** The references of a handler point into its stores. *)
Definition handler_wf (h : ExcelHandler.t) : Prop :=
  Forall (fun j => j < length (ExcelHandler.row_lists h)) (ExcelHandler.tables h)
  /\ Forall (Forall (fun i => i < length (ExcelHandler.cell_lists h)))
       (ExcelHandler.row_lists h).

(** The texts of such a row, and a table of such rows. *)
Definition stray_texts (rs : row_doc * list cell_doc) : list string :=
  cell_text <$> (row_cells rs.1 ++ rs.2).

Definition stray_table_events (before : list sax_event) (rss : list (row_doc * list cell_doc))
    (tend : list sax_event) : list sax_event :=
  before ++ [StartElement "Table"] ++ concat (stray_row_events <$> rss)
  ++ tend ++ [EndElement "Table"].


(** Whether [', '] occurs in a string. *)
Fixpoint contains_comma_space (s : string) : bool :=
  match s with
  | EmptyString => false
  | String a s' =>
      match s' with
      | String b _ => (Ascii.eqb a "," && Ascii.eqb b " ") || contains_comma_space s'
      | EmptyString => false
      end
  end.

(** The labels [reformat_replicon] keeps, and the label each one ends with. *)
Definition kept_labels (f : DataFrame) : list string :=
  filter (fun c => c ∉ drop_cols) (columns f).

Definition replicon_label (c : string) : string :=
  renamed new_names (replace_space (strip (lower c))).

(** The frame after the two renamings. *)
Definition relabelled (f : DataFrame) : DataFrame :=
  rename_dict
    (rename_dict (drop_ignore f drop_cols)
       (list_to_map ((fun c => (c, replace_space (strip (lower c))))
                     <$> columns (drop_ignore f drop_cols))))
    new_names.


(** ** Sample data *)

Module Sample.

Definition fl (z : Z) : scalar := SFloat (float_of_Z z).

Definition tasks : DataFrame :=
  mkDataFrame ["task"; "budget"]
    [ {[ "task" := SStr "Inception"; "budget" := fl 2000 ]};
      {[ "task" := SStr "Solutions"; "budget" := fl 38000 ]} ].

Definition workers : DataFrame :=
  mkDataFrame ["worker"; "rate"]
    [ {[ "worker" := SStr "Captain Chi"; "rate" := fl 200 ]};
      {[ "worker" := SStr "Dragon Ma"; "rate" := fl 190 ]} ].

Definition entry (d : Z) (t w : string) (h : scalar) : gmap string scalar :=
  {[ "date" := SDate d; "task" := SStr t; "worker" := SStr w; "duration" := h ]}.

Definition timesheet : DataFrame :=
  mkDataFrame ["date"; "task"; "worker"; "duration"]
    [ entry 1 "Solutions" "Captain Chi" (fl 3);
      entry 9 "Inception" "Dragon Ma" (fl 2);
      entry 10 "Solutions" "Dragon Ma" (fl 5) ].

Definition args : list PyVal :=
  [ VStr "Project A"; VStr "Suppress the pirates"; VStr "Hong Kong Marine Police";
    VNum (NInt 40000); VStr "HKD"; VFrame tasks; VFrame workers; VFrame timesheet ].

Definition project : Project :=
  mkProject "Project A" "Suppress the pirates" "Hong Kong Marine Police"
    (NInt 40000) "HKD" tasks workers (Some timesheet).

(** The same project with no timesheet attached. *)
Definition project_no_timesheet : Project :=
  mkProject "Project A" "Suppress the pirates" "Hong Kong Marine Police"
    (NInt 40000) "HKD" tasks workers None.

(** Every string argument empty. *)
Definition args_empty_strings : list PyVal :=
  [ VStr ""; VStr ""; VStr ""; VNum (NInt 40000); VStr "";
    VFrame tasks; VFrame workers; VFrame timesheet ].

(** A duration read as an integer. *)
Definition timesheet_int_duration : DataFrame :=
  mkDataFrame ["date"; "task"; "worker"; "duration"]
    [ entry 1 "Solutions" "Captain Chi" (SInt 3) ].

(** Entries naming a task and a worker the project does not have. *)
Definition timesheet_unknown : DataFrame :=
  mkDataFrame ["date"; "task"; "worker"; "duration"]
    [ entry 1 "Solutions" "Captain Chi" (fl 3);
      entry 2 "Piracy" "Fei" (fl 1) ].

(** The task [Inception] listed twice; the budgets still sum to 40000. *)
Definition tasks_duplicate : DataFrame :=
  mkDataFrame ["task"; "budget"]
    [ {[ "task" := SStr "Inception"; "budget" := fl 2000 ]};
      {[ "task" := SStr "Inception"; "budget" := fl 38000 ]} ].

Definition timesheet_one : DataFrame :=
  mkDataFrame ["date"; "task"; "worker"; "duration"]
    [ entry 1 "Inception" "Captain Chi" (fl 3) ].

Definition args_duplicate : list PyVal :=
  [ VStr "Project A"; VStr "Suppress the pirates"; VStr "Hong Kong Marine Police";
    VNum (NInt 40000); VStr "HKD"; VFrame tasks_duplicate; VFrame workers;
    VFrame timesheet_one ].

(** A timesheet with its header and no entry. *)
Definition timesheet_empty : DataFrame :=
  mkDataFrame ["date"; "task"; "worker"; "duration"] [].

Definition args_empty_timesheet : list PyVal :=
  [ VStr "Project A"; VStr "Suppress the pirates"; VStr "Hong Kong Marine Police";
    VNum (NInt 40000); VStr "HKD"; VFrame tasks; VFrame workers;
    VFrame timesheet_empty ].

(** One entry: Captain Chi works 3 hours on Inception. *)
Definition project_one : Project :=
  mkProject "Project A" "Suppress the pirates" "Hong Kong Marine Police"
    (NInt 40000) "HKD" tasks workers (Some timesheet_one).

Definition project_duplicate : Project :=
  mkProject "Project A" "Suppress the pirates" "Hong Kong Marine Police"
    (NInt 40000) "HKD" tasks_duplicate workers (Some timesheet_one).

Definition project_empty_timesheet : Project :=
  mkProject "Project A" "Suppress the pirates" "Hong Kong Marine Police"
    (NInt 40000) "HKD" tasks workers (Some timesheet_empty).


(** Weekly bins on day numbers. *)
Definition weekly (freq : string) (d : Z) : Z := (d - d mod 7)%Z.

(** The summary of [project] by task. *)
Definition summary_by_task : DataFrame := Eval vm_compute in
  match summarize weekly project true false None with
  | Ok g => g
  | Err _ => mkDataFrame [] []
  end.

(** A task table with a budget read as an integer, and a worker table
    with such a rate. *)
Definition tasks_int_budget : DataFrame :=
  mkDataFrame ["task"; "budget"]
    [ {[ "task" := SStr "Inception"; "budget" := fl 2000 ]};
      {[ "task" := SStr "Solutions"; "budget" := SInt 38000 ]};
      {[ "task" := SStr "Pursuit"; "budget" := SStr "none" ]} ].

Definition workers_int_rate : DataFrame :=
  mkDataFrame ["worker"; "rate"]
    [ {[ "worker" := SStr "Captain Chi"; "rate" := fl 200 ]};
      {[ "worker" := SStr "Dragon Ma"; "rate" := SInt 190 ]} ].

(** A spreadsheet with one table: a title, a header and two entries.  The
    text of a cell is inside a [Data] element, and that of one cell comes in
    two pieces. *)
Definition text_cell (s : string) : cell_doc :=
  mkCell [] [StartElement "Data"; Characters s; EndElement "Data"].

Definition text_row (l : list string) : row_doc :=
  mkRow [Characters " "] (text_cell <$> l) [Characters " "].

Definition replicon_sheet : list table_doc :=
  [ mkTable [StartElement "Workbook"; StartElement "Worksheet"]
      [ text_row ["Timesheet"];
        text_row [" # "; "Entry Date"; " Task Name "; "User Name"; "Billable Hrs";
                  "Client Name"];
        text_row ["1"; "2017-01-02"; "Solutions"; "Chi, Captain"; "3"; "Police"];
        mkRow []
          [ text_cell "2"; text_cell "2017-01-10"; text_cell " Inception";
            mkCell [] [StartElement "Data"; Characters "Ma, "; Characters "Dragon";
                       EndElement "Data"];
            text_cell "2.5"; text_cell "Police" ] [] ]
      [Characters " "] ].

Definition replicon_events : list sax_event :=
  concat (table_events <$> replicon_sheet)
  ++ [EndElement "Worksheet"; EndElement "Workbook"].

(** The second row ends before its last two cells. *)
Definition stray_rows : list (row_doc * list cell_doc) :=
  [ (text_row ["a"; "b"], []);
    (text_row ["c"], [text_cell "d"; text_cell "e"]) ].

(** The frame read from the sheet: header in row 1, entries from row 2,
    columns from 1. *)
Definition replicon_df : DataFrame := Eval vm_compute in
  match read_replicon replicon_events 1 2 None 1 None with
  | Ok f => f
  | Err _ => mkDataFrame [] []
  end.

(** Dates as day numbers, and the numbers of the sheet. *)
Definition to_datetime (l : list scalar) : result (list scalar) :=
  mapM (fun v =>
          if decide (v = SStr "2017-01-02") then Ok (SDate 17168)
          else if decide (v = SStr "2017-01-10") then Ok (SDate 17176)
          else Err (ValueError "Unknown string format")) l.

Definition float_of_string (s : string) : option float64 :=
  if decide (s = "3") then Some (float_of_Z 3)
  else if decide (s = "2.5") then Some (fdiv (float_of_Z 5) (float_of_Z 2))
  else None.

Definition replicon_timesheet : DataFrame := Eval vm_compute in
  match reformat_replicon to_datetime float_of_string replicon_df with
  | Ok f => f
  | Err _ => mkDataFrame [] []
  end.

(** A sheet export without the date column. *)
Definition replicon_df_no_date : DataFrame :=
  mkDataFrame ["Task Name"; "User Name"; "Billable Hrs"; "Total Hrs"]
    [ {[ "Task Name" := SStr "Solutions"; "User Name" := SStr "Chi, Captain";
         "Billable Hrs" := SStr "3"; "Total Hrs" := SStr "3" ]} ].

(** [str] of the two opacities used. *)
Definition str (n : number) : string :=
  match n with
  | NInt _ => "1"
  | NFloat _ => "0.5"
  end.

End Sample.

(** * Properties *)

(** ** The error monad and loops *)

Lemma bind_Ok {A B : Type} (m : result A) (k : A -> result B) (b : B) :
  m ≫= k = Ok b -> exists a, m = Ok a /\ k a = Ok b.
Proof. destruct m as [a|e]; simpl; [eauto | discriminate]. Qed.

Lemma bind_Ok_eq {A B : Type} (m : result A) (k : A -> result B) (a : A) :
  m = Ok a -> m ≫= k = k a.
Proof. intros ->. reflexivity. Qed.

Lemma bind_Err_eq {A B : Type} (m : result A) (k : A -> result B) (e : exn) :
  m = Err e -> m ≫= k = Err e.
Proof. intros ->. reflexivity. Qed.

(** Splits a hypothesis [x ← m; k = Ok b] into its two steps. *)
Tactic Notation "bind_inv" hyp(H) "as" ident(a) ident(Ha) :=
  apply bind_Ok in H as (a & Ha & H).

Lemma for_each_Ok {A : Type} (body : A -> result unit) (l : list A) :
  for_each body l = Ok tt <-> Forall (fun x => body x = Ok tt) l.
Proof.
  induction l as [|x l IH]; simpl.
  - split; [constructor | reflexivity].
  - split.
    + intros H. bind_inv H as a Ha. destruct a. constructor; [assumption | now apply IH].
    + intros H. inversion H as [|? ? Hx Hl]; subst.
      rewrite Hx. simpl. now apply IH.
Qed.

Lemma for_each_Ok_unit {A : Type} (body : A -> result unit) (l : list A) (u : unit) :
  for_each body l = Ok u -> Forall (fun x => body x = Ok tt) l.
Proof. destruct u. apply for_each_Ok. Qed.

(** A loop whose body can raise only [e] raises [e] as soon as one
    iteration does. *)
Lemma for_each_Err {A : Type} (body : A -> result unit) (l : list A) (e : exn) :
  (forall x, body x = Ok tt \/ body x = Err e) ->
  Exists (fun x => body x = Err e) l ->
  for_each body l = Err e.
Proof.
  intros Hbody. induction 1 as [x l Hx | x l _ IH]; simpl.
  - now rewrite Hx.
  - destruct (Hbody x) as [-> | ->]; [exact IH | reflexivity].
Qed.

(** ** Columns *)

Lemma getitem_Ok (f : DataFrame) (c : string) (vs : list scalar) :
  getitem f c = Ok vs <-> c ∈ columns f /\ vs = (fun r => cell r c) <$> rows f.
Proof.
  unfold getitem. destruct (decide (c ∈ columns f)); split.
  - intros [= <-]. auto.
  - intros [_ ->]. reflexivity.
  - discriminate.
  - intros [? _]. contradiction.
Qed.

Lemma getitem_elem (f : DataFrame) (c : string) :
  c ∈ columns f -> getitem f c = Ok ((fun r => cell r c) <$> rows f).
Proof. intros H. now apply getitem_Ok. Qed.

Lemma getitem_length (f : DataFrame) (c : string) (vs : list scalar) :
  getitem f c = Ok vs -> length vs = length (rows f).
Proof. intros [_ ->]%getitem_Ok. apply length_fmap. Qed.

(** ** The generic checks *)

Lemma df_no_nans_Ok (f g : DataFrame) :
  df_no_nans f = Ok g ->
  g = f /\ forall c r, c ∈ columns f -> r ∈ rows f -> isnull (cell r c) = false.
Proof.
  unfold df_no_nans. intros H. bind_inv H as a Ha. injection H as <-.
  split; [reflexivity|]. intros c r Hc Hr.
  pose proof (for_each_Ok_unit _ _ _ Ha) as Hf.
  rewrite Forall_forall in Hf. specialize (Hf c Hc). simpl in Hf.
  clear Ha. rename Hf into Ha.
  rewrite (getitem_elem _ _ Hc) in Ha. simpl in Ha.
  destruct (decide _) as [Hz|]; [|discriminate].
  unfold isnull_sum in Hz. apply length_zero_iff_nil in Hz.
  destruct (isnull (cell r c)) eqn:E; [|reflexivity].
  assert (Hin : In (cell r c) (List.filter isnull ((fun r => cell r c) <$> rows f))).
  { apply filter_In. split; [|assumption].
    apply list_elem_of_In, list_elem_of_fmap. eauto. }
  rewrite Hz in Hin. destruct Hin.
Qed.

Lemma check_df_Ok (v : PyVal) (expect_cols : list string) (f : DataFrame) :
  check_df v expect_cols = Ok f ->
  v = VFrame f
  /\ (list_to_set (columns f) : gset string) = list_to_set expect_cols
  /\ forall c r, c ∈ columns f -> r ∈ rows f -> isnull (cell r c) = false.
Proof.
  unfold check_df. intros H.
  bind_inv H as f0 Hi. destruct v; try discriminate. injection Hi as ->.
  bind_inv H as f1 Hh. unfold check_df_header in Hh.
  destruct (decide _) as [Hset|]; [|discriminate]. injection Hh as <-.
  bind_inv H as f2 Hn. injection H as <-.
  apply df_no_nans_Ok in Hn as [-> Hn]. auto.
Qed.

Lemma check_df_columns (v : PyVal) (expect_cols : list string) (f : DataFrame) (c : string) :
  check_df v expect_cols = Ok f -> c ∈ columns f <-> c ∈ expect_cols.
Proof.
  intros (_ & Hh & _)%check_df_Ok.
  rewrite <- (elem_of_list_to_set (C := gset string) c (columns f)), Hh.
  apply elem_of_list_to_set.
Qed.

Lemma float_checks_Ok (mk : scalar -> exn) (vs : list scalar) (u : unit) :
  for_each (fun v => if isinstance_float v then Ok tt else Err (mk v)) vs = Ok u ->
  Forall (fun v => isinstance_float v = true) vs.
Proof.
  intros H%for_each_Ok_unit. eapply Forall_impl; [exact H|].
  intros v Hv. simpl in Hv. now destruct (isinstance_float v).
Qed.

Lemma float_checks_pass (mk : scalar -> exn) (vs : list scalar) :
  Forall (fun v => isinstance_float v = true) vs ->
  for_each (fun v => if isinstance_float v then Ok tt else Err (mk v)) vs = Ok tt.
Proof.
  intros H. apply for_each_Ok. eapply Forall_impl; [exact H|].
  intros v Hv. simpl. now rewrite Hv.
Qed.

(** ** Construction without a timesheet *)

(** C1, evaluated on the code: the timesheet check calls [copy] on its
    argument before it tests for [None], so for an absent timesheet it raises
    [AttributeError], and a call of [Project] with the seven required
    arguments alone never returns a project. *)
Theorem check_timesheet_df_None_raises :
  (forall tasks_df workers_df,
     check_timesheet_df VNone tasks_df workers_df = Err (AttributeError "copy"))
  /\ (forall n d c b cur t w p, Project_new [n; d; c; b; cur; t; w] <> Ok p).
Proof.
  split; [reflexivity|].
  intros n d c b cur t w p H. simpl in H. unfold Project_init in H.
  bind_inv H as x1 H1. bind_inv H as x2 H2. bind_inv H as x3 H3.
  bind_inv H as x4 H4. bind_inv H as x5 H5. bind_inv H as x6 H6.
  bind_inv H as x7 H7. bind_inv H as x8 H8. discriminate H8.
Qed.

(** ** [Project.copy] *)

(** C10: [copy] starts by calling [Project] with no argument, which lacks
    the seven required ones; the call raises [TypeError] for every project
    and no copy is returned. *)
Theorem Project_copy_fails (self : Project) :
  Project_copy self = Err TypeError.
Proof. reflexivity. Qed.

(** ** Operations on a project without a timesheet *)

(** C7: without a timesheet, [compute_costs] raises the missing-timesheet
    error, and so does [summarize] whatever [by_task], [by_worker] and
    [freq] are. *)
Theorem missing_timesheet_raises (TimeGrouper : string -> Z -> Z) (project : Project) :
  timesheet_df project = None ->
  compute_costs project = Err missing_timesheet
  /\ forall by_task by_worker freq,
       summarize TimeGrouper project by_task by_worker freq = Err missing_timesheet.
Proof.
  intros H. unfold compute_costs, summarize. rewrite H. auto.
Qed.

Lemma missing_timesheet_raises_witness :
  timesheet_df Sample.project_no_timesheet = None
  /\ compute_costs Sample.project_no_timesheet = Err missing_timesheet
  /\ forall by_task by_worker freq,
       summarize Sample.weekly Sample.project_no_timesheet by_task by_worker freq
       = Err missing_timesheet.
Proof.
  split; [reflexivity|].
  apply (missing_timesheet_raises Sample.weekly Sample.project_no_timesheet).
  reflexivity.
Defined.

(** ** The timesheet check *)

Lemma header_elem (f : DataFrame) (expect_cols : list string) (c : string) :
  check_df (VFrame f) expect_cols = Ok f -> c ∈ expect_cols -> c ∈ columns f.
Proof. intros H Hc. now apply (check_df_columns _ _ _ c H). Qed.

(** Membership of a literal label in a literal header. *)
Ltac in_list := solve [repeat (first [left | right])].

(** Facts about a label that follow from the headers. *)
Ltac labels :=
  rewrite ?elem_of_cons, ?elem_of_nil in *;
  intuition (subst; first [reflexivity | discriminate | congruence | idtac]).

Ltac col_in H := apply (header_elem _ _ _ H); in_list.

(** C9: when a timesheet passes the shape checks and some duration is not a
    float, the check raises [NameError] for the unbound variable [name] of
    its message, and not the validation error for a non-numerical value. *)
Theorem check_timesheet_df_non_float_duration
    (f : DataFrame) (tasks_df workers_df : PyVal) :
  check_df (VFrame f) ["date"; "task"; "worker"; "duration"] = Ok f ->
  Exists (fun v => isinstance_float v = false) (column_values f "duration") ->
  check_timesheet_df (VFrame f) tasks_df workers_df = Err (NameError "name")
  /\ forall r, check_timesheet_df (VFrame f) tasks_df workers_df <> Err (Invalid r).
Proof.
  intros Hdf Hex.
  assert (E : check_timesheet_df (VFrame f) tasks_df workers_df = Err (NameError "name")).
  { unfold check_timesheet_df. cbn [py_copy].
    rewrite (bind_Ok_eq _ _ (VFrame f) eq_refl).
    rewrite (bind_Ok_eq _ _ f Hdf).
    assert (Hd : "duration" ∈ columns f) by (col_in Hdf).
    rewrite (bind_Ok_eq _ _ _ (getitem_elem _ _ Hd)).
    apply bind_Err_eq, for_each_Err.
    - intros v. destruct (isinstance_float v); auto.
    - eapply Exists_impl; [exact Hex|]. intros v Hv. simpl. now rewrite Hv. }
  split; [exact E|]. intros r. rewrite E. discriminate.
Qed.

Lemma check_timesheet_df_non_float_duration_witness :
  check_df (VFrame Sample.timesheet_int_duration) ["date"; "task"; "worker"; "duration"]
    = Ok Sample.timesheet_int_duration
  /\ Exists (fun v => isinstance_float v = false)
       (column_values Sample.timesheet_int_duration "duration")
  /\ check_timesheet_df (VFrame Sample.timesheet_int_duration)
       (VFrame Sample.tasks) (VFrame Sample.workers) = Err (NameError "name").
Proof.
  assert (H1 : check_df (VFrame Sample.timesheet_int_duration)
                 ["date"; "task"; "worker"; "duration"]
               = Ok Sample.timesheet_int_duration) by (vm_compute; reflexivity).
  assert (H2 : Exists (fun v => isinstance_float v = false)
                 (column_values Sample.timesheet_int_duration "duration"))
    by (apply Exists_cons_hd; vm_compute; reflexivity).
  split; [exact H1|]. split; [exact H2|].
  exact (proj1 (check_timesheet_df_non_float_duration
                  Sample.timesheet_int_duration (VFrame Sample.tasks)
                  (VFrame Sample.workers) H1 H2)).
Defined.

Lemma column_floats_mapM (vs : list scalar) :
  Forall (fun v => isinstance_float v = true) vs ->
  mapM scalar_to_float vs = Some (omap scalar_to_float vs).
Proof.
  induction 1 as [|v vs Hv _ IH]; [reflexivity|].
  destruct v; try discriminate. simpl. rewrite IH. reflexivity.
Qed.

Lemma elem_of_column_values (f : DataFrame) (c : string) (x : scalar) :
  x ∈ column_values f c <-> exists r, r ∈ rows f /\ cell r c = x.
Proof.
  unfold column_values. rewrite list_elem_of_fmap. split.
  - intros (r & -> & Hr). eauto.
  - intros (r & Hr & <-). eauto.
Qed.

(** C3: for a timesheet that passes the generic checks, against task and
    worker tables that have their name columns: if some task name of the
    timesheet is absent from the task table, the check raises the error for
    unknown tasks, carrying exactly the set of those names, whatever the
    worker names are; otherwise, if some worker name is absent from the
    worker table, it raises the error for unknown workers with exactly that
    set; otherwise it returns the timesheet. *)
Theorem check_timesheet_df_unknown_names (f tasks workers : DataFrame) :
  check_df (VFrame f) ["date"; "task"; "worker"; "duration"] = Ok f ->
  Forall (fun v => isinstance_float v = true) (column_values f "duration") ->
  "task" ∈ columns tasks ->
  "worker" ∈ columns workers ->
  let Dt := unknown_names f tasks "task" in
  let Dw := unknown_names f workers "worker" in
  (Dt <> ∅ ->
     check_timesheet_df (VFrame f) (VFrame tasks) (VFrame workers)
     = Err (Invalid (UnknownTasks Dt)))
  /\ (Dt = ∅ -> Dw <> ∅ ->
        check_timesheet_df (VFrame f) (VFrame tasks) (VFrame workers)
        = Err (Invalid (UnknownWorkers Dw)))
  /\ (Dt = ∅ -> Dw = ∅ ->
        check_timesheet_df (VFrame f) (VFrame tasks) (VFrame workers) = Ok (Some f))
  /\ (forall x, x ∈ Dt <->
        (exists r, r ∈ rows f /\ cell r "task" = x)
        /\ ~ exists r, r ∈ rows tasks /\ cell r "task" = x)
  /\ (forall x, x ∈ Dw <->
        (exists r, r ∈ rows f /\ cell r "worker" = x)
        /\ ~ exists r, r ∈ rows workers /\ cell r "worker" = x).
Proof.
  intros Hdf Hfl Ht Hw Dt Dw.
  assert (Hd : "duration" ∈ columns f) by (col_in Hdf).
  assert (Hft : "task" ∈ columns f) by (col_in Hdf).
  assert (Hfw : "worker" ∈ columns f) by (col_in Hdf).
  assert (E : check_timesheet_df (VFrame f) (VFrame tasks) (VFrame workers)
              = if decide (Dt = ∅) then
                  if decide (Dw = ∅) then Ok (Some f)
                  else Err (Invalid (UnknownWorkers Dw))
                else Err (Invalid (UnknownTasks Dt))).
  { unfold check_timesheet_df. cbn [py_copy py_getitem].
    rewrite (bind_Ok_eq _ _ (VFrame f) eq_refl).
    rewrite (bind_Ok_eq _ _ f Hdf).
    rewrite (bind_Ok_eq _ _ _ (getitem_elem _ _ Hd)).
    rewrite (bind_Ok_eq _ _ tt (float_checks_pass _ _ Hfl)).
    rewrite (bind_Ok_eq _ _ _ (getitem_elem _ _ Hft)).
    rewrite (bind_Ok_eq _ _ _ (getitem_elem _ _ Ht)).
    rewrite (bind_Ok_eq _ _ _ (getitem_elem _ _ Hfw)).
    rewrite (bind_Ok_eq _ _ _ (getitem_elem _ _ Hw)).
    reflexivity. }
  rewrite E. repeat split.
  - intros Hne. destruct (decide (Dt = ∅)); [contradiction | reflexivity].
  - intros He Hne. destruct (decide (Dt = ∅)); [|contradiction].
    destruct (decide (Dw = ∅)); [contradiction | reflexivity].
  - intros He He'. destruct (decide (Dt = ∅)); [|contradiction].
    destruct (decide (Dw = ∅)); [reflexivity | contradiction].
  - unfold Dt, unknown_names in H.
    apply elem_of_difference in H as [H _].
    now apply elem_of_list_to_set, elem_of_column_values in H.
  - unfold Dt, unknown_names in H.
    apply elem_of_difference in H as [_ H].
    now rewrite elem_of_list_to_set, elem_of_column_values in H.
  - intros [H1 H2]. unfold Dt, unknown_names.
    apply elem_of_difference.
    rewrite !elem_of_list_to_set, !elem_of_column_values. auto.
  - unfold Dw, unknown_names in H.
    apply elem_of_difference in H as [H _].
    now apply elem_of_list_to_set, elem_of_column_values in H.
  - unfold Dw, unknown_names in H.
    apply elem_of_difference in H as [_ H].
    now rewrite elem_of_list_to_set, elem_of_column_values in H.
  - intros [H1 H2]. unfold Dw, unknown_names.
    apply elem_of_difference.
    rewrite !elem_of_list_to_set, !elem_of_column_values. auto.
Qed.

Lemma check_timesheet_df_unknown_names_witness :
  check_df (VFrame Sample.timesheet_unknown) ["date"; "task"; "worker"; "duration"]
    = Ok Sample.timesheet_unknown
  /\ SStr "Piracy" ∈ unknown_names Sample.timesheet_unknown Sample.tasks "task"
  /\ SStr "Fei" ∈ unknown_names Sample.timesheet_unknown Sample.workers "worker"
  /\ check_timesheet_df (VFrame Sample.timesheet_unknown)
       (VFrame Sample.tasks) (VFrame Sample.workers)
     = Err (Invalid (UnknownTasks
                       (unknown_names Sample.timesheet_unknown Sample.tasks "task"))).
Proof.
  assert (H1 : check_df (VFrame Sample.timesheet_unknown)
                 ["date"; "task"; "worker"; "duration"]
               = Ok Sample.timesheet_unknown) by (vm_compute; reflexivity).
  assert (H2 : Forall (fun v => isinstance_float v = true)
                 (column_values Sample.timesheet_unknown "duration"))
    by (repeat constructor).
  assert (H3 : "task" ∈ columns Sample.tasks) by in_list.
  assert (H4 : "worker" ∈ columns Sample.workers) by in_list.
  assert (Et : SStr "Piracy" ∈ unknown_names Sample.timesheet_unknown Sample.tasks "task").
  { apply elem_of_difference. rewrite !elem_of_list_to_set.
    split; apply (bool_decide_unpack _); vm_compute; exact I. }
  assert (Ew : SStr "Fei" ∈ unknown_names Sample.timesheet_unknown Sample.workers "worker").
  { apply elem_of_difference. rewrite !elem_of_list_to_set.
    split; apply (bool_decide_unpack _); vm_compute; exact I. }
  split; [exact H1|]. split; [exact Et|]. split; [exact Ew|].
  apply (proj1 (check_timesheet_df_unknown_names
                  Sample.timesheet_unknown Sample.tasks Sample.workers H1 H2 H3 H4)).
  intros E. rewrite E in Et. exact (not_elem_of_empty _ Et).
Defined.

(** ** The task check *)



(** ** The string fields *)

(** C8, as the code has it: [check_str] tests that its argument is a string
    and accepts the empty one.  A project that [Project] returns holds in
    [name], [description], [client] and [currency] the strings passed to the
    call, and a call in which one of the four is not a string fails. *)
Theorem Project_new_str_fields (args : list PyVal) :
  (forall p, Project_new args = Ok p ->
     exists b t w rest,
       args = VStr (name p) :: VStr (description p) :: VStr (client p) :: b
              :: VStr (currency p) :: t :: w :: rest)
  /\ (forall n d c b cur t w rest,
        args = n :: d :: c :: b :: cur :: t :: w :: rest ->
        is_str n && is_str d && is_str c && is_str cur = false ->
        exists e, Project_new args = Err e).
Proof.
  assert (P : forall p, Project_new args = Ok p ->
     exists b t w rest,
       args = VStr (name p) :: VStr (description p) :: VStr (client p) :: b
              :: VStr (currency p) :: t :: w :: rest).
  { intros p H.
    assert (Hi : exists n d c b cur t w ts rest,
               args = n :: d :: c :: b :: cur :: t :: w :: rest
               /\ Project_init n d c b cur t w ts = Ok p).
    { destruct args as [|n [|d [|c [|b [|cur [|t [|w [|ts [|? ?]]]]]]]]];
        try discriminate H; simpl in H; eauto 12. }
    destruct Hi as (n & d & c & b & cur & t & w & ts & rest & -> & Hi).
    unfold Project_init in Hi.
    bind_inv Hi as x1 H1. bind_inv Hi as x2 H2. bind_inv Hi as x3 H3.
    bind_inv Hi as x4 H4. bind_inv Hi as x5 H5. bind_inv Hi as x6 H6.
    bind_inv Hi as x7 H7. bind_inv Hi as x8 H8. injection Hi as <-. simpl.
    destruct n; try discriminate H1. destruct d; try discriminate H2.
    destruct c; try discriminate H3. destruct cur; try discriminate H5.
    injection H1 as ->. injection H2 as ->. injection H3 as ->. injection H5 as ->.
    eauto. }
  split; [exact P|].
  intros n d c b cur t w rest -> Hs.
  destruct (Project_new (n :: d :: c :: b :: cur :: t :: w :: rest)) as [p|e] eqn:E;
    [|eauto].
  destruct (P p eq_refl) as (b' & t' & w' & rest' & Heq).
  injection Heq as -> -> -> _ -> _ _ _. discriminate Hs.
Qed.

Lemma Project_new_str_fields_witness :
  Project_new Sample.args = Ok Sample.project
  /\ exists b t w rest,
       Sample.args = VStr (name Sample.project) :: VStr (description Sample.project)
                     :: VStr (client Sample.project) :: b
                     :: VStr (currency Sample.project) :: t :: w :: rest.
Proof.
  assert (H : Project_new Sample.args = Ok Sample.project) by (vm_compute; reflexivity).
  split; [exact H|].
  exact (proj1 (Project_new_str_fields Sample.args) Sample.project H).
Defined.

(** C8 as stated fails: with the empty string for each of the four fields
    the construction succeeds, and the project holds the empty strings. *)
Lemma Project_new_accepts_empty_strings :
  exists p, Project_new Sample.args_empty_strings = Ok p
            /\ name p = "" /\ description p = "" /\ client p = "" /\ currency p = "".
Proof.
  exists (mkProject "" "" "" (NInt 40000) "" Sample.tasks Sample.workers
            (Some Sample.timesheet)).
  split; [vm_compute; reflexivity | repeat split].
Qed.

(** ** Rows and cells *)

Lemma cell_insert (r : gmap string scalar) (c c' : string) (v : scalar) :
  cell (<[c := v]> r) c' = if decide (c = c') then v else cell r c'.
Proof. unfold cell. rewrite lookup_insert. now destruct (decide (c = c')). Qed.

Lemma cell_delete (r : gmap string scalar) (c c' : string) :
  cell (delete c r) c' = if decide (c = c') then SNone else cell r c'.
Proof. unfold cell. rewrite lookup_delete. now destruct (decide (c = c')). Qed.

Lemma lookup_new_row (cols : list string) (g : string -> scalar) (c : string) :
  new_row cols g !! c = if decide (c ∈ cols) then Some (g c) else None.
Proof.
  unfold new_row. induction cols as [|c0 cols IH].
  - simpl. rewrite lookup_empty. destruct (decide (c ∈ [])) as [H|]; [|reflexivity].
    now apply elem_of_nil in H.
  - rewrite fmap_cons, list_to_map_cons, lookup_insert.
    destruct (decide (c0 = c)) as [->|Hne].
    + rewrite decide_True by left. reflexivity.
    + rewrite IH. destruct (decide (c ∈ cols)) as [Hin|Hnin].
      * rewrite decide_True by (now right). reflexivity.
      * rewrite decide_False; [reflexivity|].
        intros [E|?]%elem_of_cons; [congruence | contradiction].
Qed.

Lemma cell_new_row (cols : list string) (g : string -> scalar) (c : string) :
  cell (new_row cols g) c = if decide (c ∈ cols) then g c else SNone.
Proof. unfold cell. rewrite lookup_new_row. now destruct (decide (c ∈ cols)). Qed.

(** ** Column assignment *)

Lemma zip_with_fmap_same {A B C : Type} (h : A -> B -> C) (g : A -> B) (l : list A) :
  zip_with h l (g <$> l) = (fun x => h x (g x)) <$> l.
Proof. induction l as [|x l IH]; csimpl; [reflexivity | now rewrite IH]. Qed.

Lemma setitem_assign (f : DataFrame) (c : string) (g : gmap string scalar -> scalar) :
  setitem f c (g <$> rows f) = Ok (assign f c g).
Proof.
  unfold setitem, assign. rewrite length_fmap, decide_True by reflexivity.
  now rewrite zip_with_fmap_same.
Qed.

Lemma Series_binop_fmap {A : Type} (op : float64 -> float64 -> float64)
    (a b : A -> scalar) (l : list A) :
  Forall (fun r => is_Some (scalar_to_float (a r)) /\ is_Some (scalar_to_float (b r))) l ->
  Series_binop op (a <$> l) (b <$> l)
  = Ok ((fun r => SFloat (op (float_of (a r)) (float_of (b r)))) <$> l).
Proof.
  intros H. unfold Series_binop.
  assert (E : mapM (fun xy : scalar * scalar =>
                a ← scalar_to_float xy.1; b ← scalar_to_float xy.2;
                Some (SFloat (op a b))) (zip (a <$> l) (b <$> l))
              = Some ((fun r => SFloat (op (float_of (a r)) (float_of (b r)))) <$> l)).
  { apply mapM_Some_2.
    induction H as [|r l [[x Hx] [y Hy]] _ IH]; csimpl; constructor; [|exact IH].
    simpl. unfold float_of. now rewrite Hx, Hy. }
  now rewrite E.
Qed.

Lemma Series_div_number_fmap {A : Type} (a : A -> scalar) (n : number) (l : list A) :
  Forall (fun r => is_Some (scalar_to_float (a r))) l ->
  Series_div_number (a <$> l) n
  = Ok ((fun r => SFloat (fdiv (float_of (a r)) (number_to_float n))) <$> l).
Proof.
  intros H. unfold Series_div_number.
  assert (E : mapM (fun x => a ← scalar_to_float x;
                       Some (SFloat (fdiv a (number_to_float n)))) (a <$> l)
              = Some ((fun r => SFloat (fdiv (float_of (a r)) (number_to_float n))) <$> l)).
  { apply mapM_Some_2.
    induction H as [|r l [x Hx] _ IH]; csimpl; constructor; [|exact IH].
    unfold float_of. now rewrite Hx. }
  now rewrite E.
Qed.

(** ** The join *)

Lemma list_bind_if_filter {A B : Type} (P : A -> Prop) `{forall x, Decision (P x)}
    (h : A -> B) (l : list A) :
  (x ← l; if decide (P x) then [h x] else []) = h <$> filter P l.
Proof.
  induction l as [|x l IH]; [reflexivity|].
  rewrite bind_cons, IH, filter_cons. now destruct (decide (P x)).
Qed.

Lemma list_bind_singleton {A B : Type} (k : A -> list B) (g : A -> B) (l : list A) :
  Forall (fun x => k x = [g x]) l -> l ≫= k = g <$> l.
Proof.
  induction 1 as [|x l Hx _ IH]; [reflexivity|].
  now rewrite bind_cons, Hx, IH.
Qed.

Lemma filter_none {A : Type} (P : A -> Prop) `{forall x, Decision (P x)} (l : list A) :
  Forall (fun x => ~ P x) l -> filter P l = [].
Proof.
  induction 1 as [|x l Hx _ IH]; [reflexivity|].
  rewrite filter_cons, decide_False by assumption. exact IH.
Qed.

Lemma filter_unique_key {A B : Type} `{EqDecision B} (key : A -> B) (l : list A) (x : B) :
  NoDup (key <$> l) -> x ∈ key <$> l ->
  exists r0, filter (fun r => x = key r) l = [r0] /\ r0 ∈ l /\ key r0 = x.
Proof.
  induction l as [|r l IH]; simpl; intros Hnd Hin.
  - now apply elem_of_nil in Hin.
  - apply NoDup_cons in Hnd as [Hr Hnd]. rewrite filter_cons.
    destruct (decide (x = key r)) as [->|Hne].
    + exists r. split; [|split; [left | reflexivity]].
      f_equal. apply filter_none, Forall_forall. intros y Hy E.
      apply Hr. rewrite E. apply list_elem_of_fmap. eauto.
    + apply elem_of_cons in Hin as [?|Hin]; [contradiction|].
      destruct (IH Hnd Hin) as (r0 & E & Hr0 & Hk).
      exists r0. split; [exact E|]. split; [now right | exact Hk].
Qed.

Lemma match_row_spec (right : DataFrame) (k : string) (x : scalar) :
  NoDup (column_values right k) -> x ∈ column_values right k ->
  filter (fun r => x = cell r k) (rows right) = [match_row right k x]
  /\ match_row right k x ∈ rows right
  /\ cell (match_row right k x) k = x.
Proof.
  intros Hnd Hin.
  destruct (filter_unique_key (fun r => cell r k) (rows right) x Hnd Hin)
    as (r0 & E & Hr0 & Hk).
  unfold match_row. rewrite E. simpl. auto.
Qed.

(** Two frames that share the single label [k], the names under [k] being
    distinct on the right and all names of the left occurring there: the
    join has one row for each row of the left frame, in order. *)
Lemma merge_on_key (left right : DataFrame) (k : string) :
  k ∈ columns left -> k ∈ columns right ->
  (forall c, c ∈ columns left -> c ∈ columns right -> c = k) ->
  NoDup (column_values right k) ->
  Forall (fun l => cell l k ∈ column_values right k) (rows left) ->
  merge left right
  = Ok (mkDataFrame (merge_columns left right)
          ((fun l => merge_row left right l (match_row right k (cell l k)))
             <$> rows left)).
Proof.
  intros Hl Hr Honly Hnd Hall. unfold merge.
  set (common := filter (fun c => c ∈ columns right) (columns left)).
  assert (Hk : k ∈ common) by (apply list_elem_of_filter; auto).
  assert (Hc : forall c, c ∈ common -> c = k).
  { intros c [? ?]%list_elem_of_filter. auto. }
  destruct common as [|c0 common'] eqn:Ec; [now apply elem_of_nil in Hk|].
  rewrite <- Ec in *. f_equal. f_equal.
  apply list_bind_singleton. eapply Forall_impl; [exact Hall|].
  intros l Hin. simpl.
  transitivity (r ← rows right;
                if decide (cell l k = cell r k)
                then [merge_row left right l r] else []).
  { apply list_bind_ext; [|reflexivity]. intros r.
    destruct (decide (cell l k = cell r k)) as [Ek|Ek].
    - rewrite decide_True; [reflexivity|].
      apply Forall_forall. intros c Hcin. now rewrite (Hc c Hcin).
    - rewrite decide_False; [reflexivity|].
      intros HF. apply Ek. rewrite Forall_forall in HF. now apply HF. }
  rewrite (list_bind_if_filter (fun r => cell l k = cell r k)).
  destruct (match_row_spec right k (cell l k) Hnd Hin) as (E' & _ & _).
  now rewrite E'.
Qed.

Lemma elem_of_merge_columns (left right : DataFrame) (c : string) :
  c ∈ merge_columns left right <-> c ∈ columns left \/ c ∈ columns right.
Proof.
  unfold merge_columns. rewrite elem_of_app, list_elem_of_filter.
  destruct (decide (c ∈ columns left)); tauto.
Qed.

Lemma cell_merge_row_left (left right : DataFrame) (l r : gmap string scalar) (c : string) :
  c ∈ columns left -> cell (merge_row left right l r) c = cell l c.
Proof.
  intros H. unfold merge_row. rewrite cell_new_row.
  rewrite decide_True by (apply elem_of_merge_columns; auto).
  now rewrite decide_True.
Qed.

Lemma cell_merge_row_right (left right : DataFrame) (l r : gmap string scalar) (c : string) :
  c ∉ columns left -> c ∈ columns right -> cell (merge_row left right l r) c = cell r c.
Proof.
  intros Hl Hr. unfold merge_row. rewrite cell_new_row.
  rewrite decide_True by (apply elem_of_merge_columns; auto).
  now rewrite decide_False.
Qed.

Lemma elem_of_assign_columns (f : DataFrame) (c c' : string) (g : gmap string scalar -> scalar) :
  c' ∈ columns (assign f c g) <-> c' ∈ columns f \/ c' = c.
Proof.
  unfold assign. simpl. destruct (decide (c ∈ columns f)) as [H|H].
  - split; [auto|]. intros [?| ->]; assumption.
  - rewrite elem_of_app, list_elem_of_singleton. tauto.
Qed.

Lemma elem_of_rename_columns (f : DataFrame) (old new c : string) :
  c ∈ rename_columns f old new <->
  (c ∈ columns f /\ c <> old) \/ (c = new /\ old ∈ columns f).
Proof.
  unfold rename_columns. rewrite list_elem_of_fmap. split.
  - intros (c0 & -> & H0). destruct (decide (c0 = old)) as [->|]; auto.
  - intros [[H Hne] | [-> H]].
    + exists c. now rewrite decide_False.
    + exists old. now rewrite decide_True.
Qed.

Lemma cell_rename_row_other (f : DataFrame) (old new c : string) (r : gmap string scalar) :
  c ∈ columns f -> c <> old -> c <> new ->
  cell (rename_row f old new r) c = cell r c.
Proof.
  intros H Ho Hn. unfold rename_row. rewrite cell_new_row.
  rewrite decide_True by (apply elem_of_rename_columns; auto).
  now rewrite decide_False.
Qed.

Lemma cell_rename_row_new (f : DataFrame) (old new : string) (r : gmap string scalar) :
  old ∈ columns f -> cell (rename_row f old new r) new = cell r old.
Proof.
  intros H. unfold rename_row. rewrite cell_new_row.
  rewrite decide_True by (apply elem_of_rename_columns; auto).
  rewrite decide_True by reflexivity. now rewrite decide_True.
Qed.

(** ** What a successful construction establishes *)

Lemma check_tasks_df_Ok (v budget : PyVal) (f : DataFrame) :
  check_tasks_df v budget = Ok f ->
  v = VFrame f
  /\ check_df (VFrame f) ["task"; "budget"] = Ok f
  /\ Forall (fun x => isinstance_float x = true) (column_values f "budget").
Proof.
  unfold check_tasks_df. intros H.
  bind_inv H as g Hdf. destruct (check_df_Ok _ _ _ Hdf) as (-> & _).
  bind_inv H as vs Hvs. apply getitem_Ok in Hvs as [_ ->].
  bind_inv H as u Hfl. apply float_checks_Ok in Hfl.
  bind_inv H as b Hb. bind_inv H as ne Hne.
  destruct ne; [discriminate|]. injection H as <-. auto.
Qed.

Lemma check_workers_df_Ok (v : PyVal) (f : DataFrame) :
  check_workers_df v = Ok f ->
  v = VFrame f
  /\ check_df (VFrame f) ["worker"; "rate"] = Ok f
  /\ Forall (fun x => isinstance_float x = true) (column_values f "rate").
Proof.
  unfold check_workers_df. intros H.
  bind_inv H as g Hdf. destruct (check_df_Ok _ _ _ Hdf) as (-> & _).
  bind_inv H as vs Hvs. apply getitem_Ok in Hvs as [_ ->].
  bind_inv H as u Hfl. apply float_checks_Ok in Hfl.
  injection H as <-. auto.
Qed.

Lemma check_timesheet_df_Ok (v : PyVal) (tasks workers : DataFrame) (o : option DataFrame) :
  check_timesheet_df v (VFrame tasks) (VFrame workers) = Ok o ->
  exists f, o = Some f /\ v = VFrame f
    /\ check_df (VFrame f) ["date"; "task"; "worker"; "duration"] = Ok f
    /\ Forall (fun x => isinstance_float x = true) (column_values f "duration")
    /\ unknown_names f tasks "task" = ∅
    /\ unknown_names f workers "worker" = ∅.
Proof.
  unfold check_timesheet_df. intros H.
  bind_inv H as v' Hc. destruct v; try discriminate Hc. injection Hc as <-.
  bind_inv H as g Hdf. destruct (check_df_Ok _ _ _ Hdf) as (Hg & _).
  injection Hg as ->.
  bind_inv H as vs Hvs. apply getitem_Ok in Hvs as [_ ->].
  bind_inv H as u Hfl. apply float_checks_Ok in Hfl.
  bind_inv H as ts Hts. apply getitem_Ok in Hts as [_ ->].
  bind_inv H as tt' Htt. cbn [py_getitem] in Htt. apply getitem_Ok in Htt as [_ ->].
  destruct (decide _) as [Dt|]; [|discriminate].
  bind_inv H as ws Hws. apply getitem_Ok in Hws as [_ ->].
  bind_inv H as ww Hww. cbn [py_getitem] in Hww. apply getitem_Ok in Hww as [_ ->].
  destruct (decide _) as [Dw|]; [|discriminate].
  injection H as <-. exists g. auto 10.
Qed.

Lemma Project_init_validated (n d c b cur t w ts : PyVal) (p : Project) :
  Project_init n d c b cur t w ts = Ok p ->
  exists f, validated p f /\ ts = VFrame f
            /\ t = VFrame (tasks_df p) /\ w = VFrame (workers_df p)
            /\ check_pos b = Ok (budget p).
Proof.
  unfold Project_init. intros H.
  bind_inv H as x1 H1. bind_inv H as x2 H2. bind_inv H as x3 H3.
  bind_inv H as x4 H4. bind_inv H as x5 H5. bind_inv H as x6 H6.
  bind_inv H as x7 H7. bind_inv H as x8 H8. injection H as <-. simpl.
  apply check_tasks_df_Ok in H6 as (-> & Ht & Htf).
  apply check_workers_df_Ok in H7 as (-> & Hw & Hwf).
  apply check_timesheet_df_Ok in H8 as (f & -> & -> & He & Hef & Dt & Dw).
  exists f. split; [|auto]. constructor; simpl; auto.
Qed.

Lemma Project_new_validated (args : list PyVal) (p : Project) :
  Project_new args = Ok p ->
  exists f, validated p f /\ args !! 7 = Some (VFrame f).
Proof.
  intros H.
  destruct args as [|n [|d [|c [|b [|cur [|t [|w [|ts [|? ?]]]]]]]]];
    try discriminate H; simpl in H.
  - apply Project_init_validated in H as (f & _ & Hf & _). discriminate Hf.
  - apply Project_init_validated in H as (f & Hv & -> & _). eauto.
Qed.

Lemma isinstance_float_column (f : DataFrame) (c : string) (r : gmap string scalar) :
  Forall (fun x => isinstance_float x = true) (column_values f c) ->
  r ∈ rows f -> exists x, cell r c = SFloat x.
Proof.
  intros H Hr. rewrite Forall_forall in H.
  specialize (H (cell r c)).
  destruct (cell r c) eqn:E; try (discriminate H; apply elem_of_column_values; eauto).
  eauto.
Qed.

Lemma unknown_names_empty (f g : DataFrame) (c : string) (r : gmap string scalar) :
  unknown_names f g c = ∅ -> r ∈ rows f -> cell r c ∈ column_values g c.
Proof.
  intros HD Hr. unfold unknown_names in HD.
  destruct (decide (cell r c ∈ column_values g c)) as [|Hn]; [assumption|].
  assert (Hin : cell r c ∈ (list_to_set (column_values f c) ∖ list_to_set (column_values g c)
                            : gset scalar)).
  { apply elem_of_difference. rewrite !elem_of_list_to_set.
    split; [apply elem_of_column_values; eauto | assumption]. }
  rewrite HD in Hin. now apply not_elem_of_empty in Hin.
Qed.

Lemma cell_insert_self (r : gmap string scalar) (c c' : string) :
  cell (<[c := cell r c]> r) c' = cell r c'.
Proof. rewrite cell_insert. now destruct (decide (c = c')) as [->|]. Qed.


Lemma cell_insert_eq (r : gmap string scalar) (c : string) (v : scalar) :
  cell (<[c := v]> r) c = v.
Proof. rewrite cell_insert. now rewrite decide_True. Qed.

Lemma cell_insert_ne (r : gmap string scalar) (c c' : string) (v : scalar) :
  c <> c' -> cell (<[c := v]> r) c' = cell r c'.
Proof. intros H. rewrite cell_insert. now rewrite decide_False. Qed.

Lemma Forall2_Forall_right {A B : Type} (P : A -> B -> Prop) (Q : B -> Prop)
    (l : list A) (k : list B) :
  Forall2 P l k -> (forall x y, P x y -> Q y) -> Forall Q k.
Proof. induction 1; intros HPQ; constructor; eauto. Qed.

Lemma compute_costs_validated (p : Project) (ts : DataFrame) :
  validated p ts ->
  NoDup (column_values (tasks_df p) "task") ->
  NoDup (column_values (workers_df p) "worker") ->
  exists f, compute_costs p = Ok f
    /\ (forall c, c ∈ columns f <->
          c ∈ ["date"; "task"; "worker"; "duration"; "budget"; "rate"] /\ c <> "budget"
          \/ c ∈ ["task_budget"; "cost"; "cost/task_budget"; "cost/project_budget"])
    /\ Forall2 (cost_row_of p) (rows ts) (rows f).
Proof.
  intros [Hts Ht Htf Hw Hwf He Hef Dt Dw] Nt Nw.
  unfold cost_row_of, compute_costs. rewrite Hts.
  set (tasks := tasks_df p) in *. set (workers := workers_df p) in *.
  pose proof (check_df_columns _ _ _ "date" He) as Cd.
  pose proof (check_df_columns _ _ _ "task" He) as Ct.
  pose proof (check_df_columns _ _ _ "worker" He) as Cw.
  pose proof (check_df_columns _ _ _ "duration" He) as Cu.
  pose proof (fun c => check_df_columns _ _ _ c He) as Ce.
  pose proof (fun c => check_df_columns _ _ _ c Ht) as Ctk.
  pose proof (fun c => check_df_columns _ _ _ c Hw) as Cwk.
  (* the join with the tasks *)
  rewrite (merge_on_key ts tasks "task"); cycle 1.
  { col_in He. } { col_in Ht. }
  { intros c H1%Ce H2%Ctk. clear -H1 H2. labels. }
  { exact Nt. }
  { apply Forall_forall. intros e Hein. now apply (unknown_names_empty ts). }
  set (J1 := fun l => merge_row ts tasks l (match_row tasks "task" (cell l "task"))).
  set (m1 := mkDataFrame (merge_columns ts tasks) (J1 <$> rows ts)).
  rewrite (bind_Ok_eq _ _ m1 eq_refl).
  assert (Cm1 : forall c, c ∈ columns m1 <-> c ∈ ["date"; "task"; "worker"; "duration"; "budget"]).
  { intros c. unfold m1. cbn [columns]. rewrite elem_of_merge_columns, Ce, Ctk.
    clear. labels. }
  (* the join with the workers *)
  rewrite (merge_on_key m1 workers "worker"); cycle 1.
  { apply Cm1. in_list. } { col_in Hw. }
  { intros c H1%Cm1 H2%Cwk. clear -H1 H2. labels. }
  { exact Nw. }
  { apply Forall_forall. intros o (e & -> & Hein)%list_elem_of_fmap.
    unfold J1. rewrite cell_merge_row_left by (col_in He).
    now apply (unknown_names_empty ts). }
  set (J2 := fun l => merge_row m1 workers l (match_row workers "worker" (cell l "worker"))).
  set (m2 := mkDataFrame (merge_columns m1 workers) (J2 <$> rows m1)).
  rewrite (bind_Ok_eq _ _ m2 eq_refl).
  assert (Cm2 : forall c, c ∈ columns m2 <->
                  c ∈ ["date"; "task"; "worker"; "duration"; "budget"; "rate"]).
  { intros c. unfold m2. cbn [columns]. rewrite elem_of_merge_columns, Cm1, Cwk.
    clear. labels. }
  (* the two category columns *)
  rewrite (bind_Ok_eq _ _ _ (getitem_elem m2 "task" ltac:(apply Cm2; in_list))).
  unfold astype_category. rewrite setitem_assign.
  set (f3 := assign m2 "task" (fun r => cell r "task")).
  rewrite (bind_Ok_eq _ _ f3 eq_refl).
  assert (Cf3 : forall c, c ∈ columns f3 <->
                  c ∈ ["date"; "task"; "worker"; "duration"; "budget"; "rate"]).
  { intros c. unfold f3. rewrite elem_of_assign_columns, Cm2. clear. labels. }
  rewrite (bind_Ok_eq _ _ _ (getitem_elem f3 "worker" ltac:(apply Cf3; in_list))).
  rewrite setitem_assign.
  set (f4 := assign f3 "worker" (fun r => cell r "worker")).
  rewrite (bind_Ok_eq _ _ f4 eq_refl).
  assert (Cf4 : forall c, c ∈ columns f4 <->
                  c ∈ ["date"; "task"; "worker"; "duration"; "budget"; "rate"]).
  { intros c. unfold f4. rewrite elem_of_assign_columns, Cf3. clear. labels. }
  cbv zeta.
  set (f5 := rename f4 "budget" "task_budget").
  assert (Cf5 : forall c, c ∈ columns f5 <->
             c ∈ ["date"; "task"; "worker"; "duration"; "budget"; "rate"] /\ c <> "budget"
             \/ c = "task_budget").
  { intros c. unfold f5. cbn [rename columns]. rewrite elem_of_rename_columns, !Cf4.
    clear. labels. }
  (* what the rows hold before the costs are added *)
  assert (B : Forall2 (fun e r =>
                exists t w d rate tb,
                  t ∈ rows tasks /\ cell t "task" = cell e "task"
                  /\ w ∈ rows workers /\ cell w "worker" = cell e "worker"
                  /\ cell e "duration" = SFloat d
                  /\ cell w "rate" = SFloat rate
                  /\ cell t "budget" = SFloat tb
                  /\ cell r "date" = cell e "date"
                  /\ cell r "task" = cell e "task"
                  /\ cell r "worker" = cell e "worker"
                  /\ cell r "duration" = SFloat d
                  /\ cell r "rate" = SFloat rate
                  /\ cell r "task_budget" = SFloat tb) (rows ts) (rows f5)).
  { change (rows f5) with (rename_row f4 "budget" "task_budget" <$> rows f4).
    change (rows f4) with ((fun r => <["worker" := cell r "worker"]> r) <$> rows f3).
    change (rows f3) with ((fun r => <["task" := cell r "task"]> r) <$> rows m2).
    change (rows m2) with (J2 <$> rows m1).
    change (rows m1) with (J1 <$> rows ts).
    rewrite <- !list_fmap_compose.
    apply Forall2_fmap_r, Forall_Forall2_diag, Forall_forall. intros e Hein.
    destruct (match_row_spec tasks "task" (cell e "task") Nt
                (unknown_names_empty ts tasks _ e Dt Hein)) as (_ & Htin & Htk).
    destruct (match_row_spec workers "worker" (cell e "worker") Nw
                (unknown_names_empty ts workers _ e Dw Hein)) as (_ & Hwin & Hwk).
    set (t := match_row tasks "task" (cell e "task")) in *.
    set (w := match_row workers "worker" (cell e "worker")) in *.
    destruct (isinstance_float_column _ _ _ Hef Hein) as [d Hd].
    destruct (isinstance_float_column _ _ _ Htf Htin) as [tb Htb].
    destruct (isinstance_float_column _ _ _ Hwf Hwin) as [rate Hrate].
    exists t, w, d, rate, tb.
    assert (K1 : forall c, c ∈ columns ts -> cell (J1 e) c = cell e c).
    { intros c Hc. unfold J1. now rewrite cell_merge_row_left. }
    assert (K1b : cell (J1 e) "budget" = cell t "budget").
    { unfold J1. rewrite cell_merge_row_right; [reflexivity | | col_in Ht].
      rewrite Ce. clear. labels. }
    assert (K2 : forall c, c ∈ columns m1 -> cell (J2 (J1 e)) c = cell (J1 e) c).
    { intros c Hc. unfold J2. now rewrite cell_merge_row_left. }
    assert (K2r : cell (J2 (J1 e)) "rate" = cell w "rate").
    { unfold J2. rewrite cell_merge_row_right; [ | | col_in Hw].
      - rewrite K1 by (col_in He). reflexivity.
      - rewrite Cm1. clear. labels. }
    assert (K : forall c, c ∈ ["date"; "task"; "worker"; "duration"; "rate"] ->
                cell ((rename_row f4 "budget" "task_budget"
                       ∘ (fun r => <["worker" := cell r "worker"]> r)
                       ∘ (fun r => <["task" := cell r "task"]> r) ∘ J2 ∘ J1) e) c
                = cell (J2 (J1 e)) c).
    { intros c Hc. cbn [compose].
      rewrite cell_rename_row_other;
        [ | apply Cf4; clear -Hc; labels | clear -Hc; labels | clear -Hc; labels].
      now rewrite !cell_insert_self. }
    assert (Kb : cell ((rename_row f4 "budget" "task_budget"
                       ∘ (fun r => <["worker" := cell r "worker"]> r)
                       ∘ (fun r => <["task" := cell r "task"]> r) ∘ J2 ∘ J1) e) "task_budget"
                = cell (J2 (J1 e)) "budget").
    { cbn [compose]. rewrite cell_rename_row_new by (apply Cf4; in_list).
      now rewrite !cell_insert_self. }
    repeat split; try assumption.
    - rewrite K by in_list. rewrite K2 by (apply Cm1; in_list).
      apply K1. col_in He.
    - rewrite K by in_list. rewrite K2 by (apply Cm1; in_list).
      apply K1. col_in He.
    - rewrite K by in_list. rewrite K2 by (apply Cm1; in_list).
      apply K1. col_in He.
    - rewrite K by in_list. rewrite K2 by (apply Cm1; in_list).
      rewrite K1 by (col_in He). exact Hd.
    - rewrite K by in_list. now rewrite K2r.
    - rewrite Kb. rewrite K2 by (apply Cm1; in_list). now rewrite K1b. }
  assert (F5 : Forall (fun r => exists d rate tb,
                  cell r "duration" = SFloat d /\ cell r "rate" = SFloat rate
                  /\ cell r "task_budget" = SFloat tb) (rows f5)).
  { eapply Forall2_Forall_right; [exact B|].
    intros e r (t & w & d & rate & tb & H). exists d, rate, tb. tauto. }
  (* the cost *)
  rewrite (bind_Ok_eq _ _ _ (getitem_elem f5 "duration" ltac:(apply Cf5; left; split; [in_list | discriminate]))).
  rewrite (bind_Ok_eq _ _ _ (getitem_elem f5 "rate" ltac:(apply Cf5; left; split; [in_list | discriminate]))).
  rewrite (Series_binop_fmap fmul (fun r => cell r "duration") (fun r => cell r "rate"));
    cycle 1.
  { eapply Forall_impl; [exact F5|]. intros r (d & rate & tb & -> & -> & _).
    split; eexists; reflexivity. }
  rewrite (bind_Ok_eq _ _ _ eq_refl), setitem_assign.
  set (g6 := fun r => SFloat (fmul (float_of (cell r "duration")) (float_of (cell r "rate")))).
  set (f6 := assign f5 "cost" g6).
  rewrite (bind_Ok_eq _ _ f6 eq_refl).
  assert (Cf6 : forall c, c ∈ columns f6 <-> c ∈ columns f5 \/ c = "cost").
  { intros c. apply elem_of_assign_columns. }
  (* the cost over the task budget *)
  rewrite (bind_Ok_eq _ _ _ (getitem_elem f6 "cost" ltac:(apply Cf6; now right))).
  rewrite (bind_Ok_eq _ _ _ (getitem_elem f6 "task_budget"
                               ltac:(apply Cf6; left; apply Cf5; now right))).
  rewrite (Series_binop_fmap fdiv (fun r => cell r "cost") (fun r => cell r "task_budget"));
    cycle 1.
  { change (rows f6) with ((fun r => <["cost" := g6 r]> r) <$> rows f5).
    apply Forall_fmap. eapply Forall_impl; [exact F5|].
    intros r (d & rate & tb & _ & _ & Htb). cbn [compose].
    rewrite cell_insert_eq, cell_insert_ne, Htb by discriminate.
    split; eexists; reflexivity. }
  rewrite (bind_Ok_eq _ _ _ eq_refl), setitem_assign.
  set (g7 := fun r => SFloat (fdiv (float_of (cell r "cost")) (float_of (cell r "task_budget")))).
  set (f7 := assign f6 "cost/task_budget" g7).
  rewrite (bind_Ok_eq _ _ f7 eq_refl).
  assert (Cf7 : forall c, c ∈ columns f7 <-> c ∈ columns f6 \/ c = "cost/task_budget").
  { intros c. apply elem_of_assign_columns. }
  (* the cost over the project budget *)
  rewrite (bind_Ok_eq _ _ _ (getitem_elem f7 "cost" ltac:(apply Cf7; left; apply Cf6; now right))).
  rewrite (Series_div_number_fmap (fun r => cell r "cost")); cycle 1.
  { change (rows f7) with ((fun r => <["cost/task_budget" := g7 r]> r) <$> rows f6).
    change (rows f6) with ((fun r => <["cost" := g6 r]> r) <$> rows f5).
    rewrite <- list_fmap_compose. apply Forall_fmap, Forall_forall.
    intros r _. cbn [compose].
    rewrite cell_insert_ne, cell_insert_eq by discriminate. eexists; reflexivity. }
  rewrite (bind_Ok_eq _ _ _ eq_refl), setitem_assign.
  set (g8 := fun r => SFloat (fdiv (float_of (cell r "cost")) (number_to_float (budget p)))).
  set (f8 := assign f7 "cost/project_budget" g8).
  rewrite (bind_Ok_eq _ _ f8 eq_refl).
  exists f8. split; [reflexivity|]. split.
  - intros c. unfold f8. rewrite elem_of_assign_columns, Cf7, Cf6, Cf5.
    clear. labels.
  - change (rows f8) with ((fun r => <["cost/project_budget" := g8 r]> r) <$> rows f7).
    change (rows f7) with ((fun r => <["cost/task_budget" := g7 r]> r) <$> rows f6).
    change (rows f6) with ((fun r => <["cost" := g6 r]> r) <$> rows f5).
    rewrite <- !list_fmap_compose. apply Forall2_fmap_r.
    eapply Forall2_impl; [exact B|]. clear B F5.
    intros e r (t & w & d & rate & tb & H1 & H2 & H3 & H4 & H5 & H6 & H7
                & H8 & H9 & H10 & H11 & H12 & H13).
    exists t, w, d, rate, tb. cbn [compose].
    assert (Ec : g6 r = SFloat (fmul d rate)).
    { unfold g6. now rewrite H11, H12. }
    assert (Et : g7 (<["cost" := g6 r]> r) = SFloat (fdiv (fmul d rate) tb)).
    { unfold g7. rewrite cell_insert_eq, cell_insert_ne, Ec, H13 by discriminate.
      reflexivity. }
    assert (Ep : g8 (<["cost/task_budget" := g7 (<["cost" := g6 r]> r)]> (<["cost" := g6 r]> r))
                 = SFloat (fdiv (fmul d rate) (number_to_float (budget p)))).
    { unfold g8. rewrite cell_insert_ne, cell_insert_eq, Ec by discriminate.
      reflexivity. }
    rewrite Ep, Et, Ec.
    repeat split; try assumption;
      rewrite ?cell_insert_eq, ?cell_insert_ne by discriminate;
      rewrite ?cell_insert_eq, ?cell_insert_ne by discriminate;
      rewrite ?cell_insert_eq, ?cell_insert_ne by discriminate;
      first [assumption | reflexivity].
Qed.

(** ** The cost join *)



(** A rate of 200 and 3 hours on a task with a budget of 2000, in a project
    with a budget of 40000: the cost is 600, which is 0.3 of the task budget
    and 0.015 of the project budget. *)
Example compute_costs_scenario :
  exists f, compute_costs Sample.project_one = Ok f
    /\ column_values f "cost" = [Sample.fl 600]
    /\ column_values f "cost/task_budget" = [SFloat (fdiv (float_of_Z 3) (float_of_Z 10))]
    /\ column_values f "cost/project_budget"
       = [SFloat (fdiv (float_of_Z 15) (float_of_Z 1000))].
Proof.
  eexists. split; [vm_compute; reflexivity|].
  repeat split; vm_compute; reflexivity.
Qed.

(** ** The summary *)

Lemma drop_Ok (f : DataFrame) (c : string) :
  c ∈ columns f ->
  drop f c = Ok (mkDataFrame (filter (fun c' => c' <> c) (columns f)) (delete c <$> rows f)).
Proof. intros H. unfold drop. now rewrite decide_True. Qed.

Lemma Series_sum_floats (vs : list scalar) :
  Forall (fun v => isinstance_float v = true) vs ->
  Series_sum vs = Ok (float_sum (omap scalar_to_float vs)).
Proof. intros H. unfold Series_sum. now rewrite (column_floats_mapM _ H). Qed.

Lemma cell_delete_ne (r : gmap string scalar) (c c' : string) :
  c <> c' -> cell (delete c r) c' = cell r c'.
Proof. intros H. rewrite cell_delete. now rewrite decide_False. Qed.

Lemma cell_list_to_map_cons (l : list (string * scalar)) (k c : string) (v : scalar) :
  cell (list_to_map ((k, v) :: l)) c = if decide (k = c) then v else cell (list_to_map l) c.
Proof. rewrite list_to_map_cons. apply cell_insert. Qed.






(** ** Groups *)

Lemma mapM_result_Ok {A B : Type} (f : A -> result B) (l : list A) (k : list B) :
  mapM f l = Ok k -> Forall2 (fun x y => f x = Ok y) l k.
Proof.
  revert k. induction l as [|x l IH]; intros k H; simpl in H.
  - injection H as <-. constructor.
  - bind_inv H as y Hy. bind_inv H as k' Hk. injection H as <-.
    constructor; auto.
Qed.

Lemma Forall2_Forall_right_elem {A B : Type} (P : A -> B -> Prop) (Q : B -> Prop)
    (l : list A) (k : list B) :
  Forall2 P l k -> (forall x y, x ∈ l -> P x y -> Q y) -> Forall Q k.
Proof.
  induction 1 as [|x y l k Hxy _ IH]; intros HPQ; constructor.
  - apply (HPQ x); [left | assumption].
  - apply IH. intros x' y' Hin. apply HPQ. now right.
Qed.

Lemma my_agg_Ok (group : DataFrame) (s : list (string * scalar)) :
  my_agg group = Ok s ->
  exists d r c tb,
    s = [("duration", SFloat d); ("rate", r); ("cost", SFloat c); ("task_budget", tb)]
    /\ Series_sum (column_values group "duration") = Ok d
    /\ iat0 (column_values group "rate") = Ok r
    /\ Series_sum (column_values group "cost") = Ok c
    /\ iat0 (column_values group "task_budget") = Ok tb.
Proof.
  unfold my_agg. intros H.
  bind_inv H as vd Hvd. apply getitem_Ok in Hvd as [_ ->].
  bind_inv H as d Hd.
  bind_inv H as vr Hvr. apply getitem_Ok in Hvr as [_ ->].
  bind_inv H as r Hr.
  bind_inv H as vc Hvc. apply getitem_Ok in Hvc as [_ ->].
  bind_inv H as c Hc.
  bind_inv H as vt Hvt. apply getitem_Ok in Hvt as [_ ->].
  bind_inv H as tb Htb.
  injection H as <-. exists d, r, c, tb. auto.
Qed.

Lemma groupby_apply_Ok (f : DataFrame) (cols : list string) (g : DataFrame) :
  groupby_apply f cols = Ok g ->
  g = mkDataFrame ["index"] []
  \/ (columns g = cols ++ ["duration"; "rate"; "cost"; "task_budget"]
      /\ Forall (fun row => exists r s,
                   r ∈ rows f
                   /\ my_agg (group_of f cols (row_key cols r)) = Ok s
                   /\ row = list_to_map (zip cols (row_key cols r) ++ s)) (rows g)).
Proof.
  unfold groupby_apply. intros H. bind_inv H as u Hu.
  assert (Hkeys : forall k, k ∈ merge_sort key_le (remove_dups (row_key cols <$> rows f)) ->
                    exists r, r ∈ rows f /\ k = row_key cols r).
  { intros k Hk. rewrite merge_sort_Permutation in Hk.
    apply elem_of_remove_dups, list_elem_of_fmap in Hk as (r & -> & Hr). eauto. }
  destruct (merge_sort key_le (remove_dups (row_key cols <$> rows f))) as [|k ks].
  - left. now injection H as <-.
  - right. bind_inv H as rs Hrs. injection H as <-. split; [reflexivity|].
    cbn [rows]. apply mapM_result_Ok in Hrs.
    eapply Forall2_Forall_right_elem; [exact Hrs|].
    intros k' row Hin Hrow. cbn beta in Hrow. bind_inv Hrow as s Hs.
    injection Hrow as <-.
    destruct (Hkeys k' Hin) as (r & Hr & ->). eauto.
Qed.

(** ** Keys of a summary row *)

Lemma row_key_insert (labels : list string) (c : string) (v : scalar)
    (r : gmap string scalar) :
  c ∉ labels -> row_key labels (<[c := v]> r) = row_key labels r.
Proof.
  intros H. unfold row_key. apply Forall_fmap_ext_1, Forall_forall.
  intros c' Hc'. apply cell_insert_ne. intros ->. contradiction.
Qed.


Lemma row_key_zip (labels : list string) (k : list scalar) (s : list (string * scalar)) :
  NoDup labels -> length k = length labels ->
  row_key labels (list_to_map (zip labels k ++ s)) = k.
Proof.
  revert k. induction labels as [|c ls IH]; intros [|x ks] Hnd Hlen;
    try discriminate Hlen; [reflexivity|].
  apply NoDup_cons in Hnd as [Hc Hnd]. injection Hlen as Hlen.
  cbn [zip zip_with app]. rewrite list_to_map_cons.
  unfold row_key. rewrite fmap_cons, cell_insert_eq. f_equal.
  fold (row_key ls (<[c := x]> (list_to_map (zip ls ks ++ s)))).
  rewrite row_key_insert by assumption. now apply IH.
Qed.

Lemma cell_list_to_map_zip (labels : list string) (k : list scalar)
    (s : list (string * scalar)) (c : string) :
  c ∉ labels ->
  cell (list_to_map (zip labels k ++ s)) c = cell (list_to_map s) c.
Proof.
  revert k. induction labels as [|c0 ls IH]; intros k Hc; [reflexivity|].
  destruct k as [|x ks]; [reflexivity|].
  apply not_elem_of_cons in Hc as [Hne Hc].
  cbn [zip zip_with app]. rewrite cell_list_to_map_cons.
  rewrite decide_False by congruence. now apply IH.
Qed.

(** ** Inversion of the column arithmetic *)

Lemma Series_binop_fmap_Ok {A : Type} (op : float64 -> float64 -> float64)
    (a b : A -> scalar) (l : list A) (q : list scalar) :
  Series_binop op (a <$> l) (b <$> l) = Ok q ->
  q = (fun r => SFloat (op (float_of (a r)) (float_of (b r)))) <$> l.
Proof.
  unfold Series_binop.
  destruct (mapM _ _) as [q1|] eqn:E; [|discriminate]. intros [= <-].
  apply mapM_Some_1 in E. revert q1 E.
  induction l as [|r l IH]; intros q1 E.
  - now apply Forall2_nil_inv_l in E.
  - csimpl in E. apply Forall2_cons_inv_l in E as (y & q2 & Hy & Hq & ->).
    csimpl. rewrite <- (IH _ Hq). f_equal.
    cbn [fst snd] in Hy. unfold float_of.
    destruct (scalar_to_float (a r)); [|discriminate].
    destruct (scalar_to_float (b r)); [|discriminate].
    now injection Hy as <-.
Qed.

Lemma Series_div_number_fmap_Ok {A : Type} (a : A -> scalar) (n : number)
    (l : list A) (q : list scalar) :
  Series_div_number (a <$> l) n = Ok q ->
  q = (fun r => SFloat (fdiv (float_of (a r)) (number_to_float n))) <$> l.
Proof.
  unfold Series_div_number.
  destruct (mapM _ _) as [q1|] eqn:E; [|discriminate]. intros [= <-].
  apply mapM_Some_1 in E. revert q1 E.
  induction l as [|r l IH]; intros q1 E.
  - now apply Forall2_nil_inv_l in E.
  - csimpl in E. apply Forall2_cons_inv_l in E as (y & q2 & Hy & Hq & ->).
    csimpl. rewrite <- (IH _ Hq). f_equal.
    unfold float_of. destruct (scalar_to_float (a r)); [|discriminate].
    now injection Hy as <-.
Qed.

(** ** Columns that are dropped *)




Lemma group_labels_spec (by_task by_worker : bool) (freq : option string) :
  NoDup (group_labels by_task by_worker freq)
  /\ forall c, c ∈ group_labels by_task by_worker freq -> c ∈ ["date"; "task"; "worker"].
Proof.
  destruct by_task, by_worker, freq; cbn [group_labels app]; split;
    try (intros c Hc; clear -Hc; labels);
    repeat (apply NoDup_cons; split; [clear; intros H; labels|]); apply NoDup_nil_2.
Qed.


(** The frame grouped by [summarize] and the frame before the columns are
    shaped. *)
Lemma summarize_Ok (TimeGrouper : string -> Z -> Z) (p : Project)
    (by_task by_worker : bool) (freq : option string) (g : DataFrame) :
  summarize TimeGrouper p by_task by_worker freq = Ok g ->
  exists f g0 g2,
    grouping_frame TimeGrouper p freq = Ok f
    /\ match group_labels by_task by_worker freq with
       | [] => exists s, my_agg f = Ok s /\ g0 = mkDataFrame (s.*1) [list_to_map s]
       | cols => groupby_apply f cols = Ok g0
       end
    /\ (if by_task then
          c ← getitem g0 "cost";
          tb ← getitem g0 "task_budget";
          q ← Series_binop fdiv c tb;
          g ← setitem g0 "cost/task_budget" q;
          c ← getitem g "cost";
          q ← Series_div_number c (budget p);
          setitem g "cost/project_budget" q
        else
          g ← drop g0 "task_budget";
          c ← getitem g "cost";
          q ← Series_div_number c (budget p);
          setitem g "cost/project_budget" q) = Ok g2
    /\ (if by_worker then Ok g2 else drop g2 "rate") = Ok g.
Proof.
  unfold summarize, grouping_frame. intros H.
  destruct (timesheet_df p); [|discriminate].
  bind_inv H as f0 Hf0. bind_inv H as g0 Hg0. bind_inv H as g2 Hg2.
  rewrite Hf0. cbn [mbind result_bind].
  destruct freq as [fr|].
  - bind_inv Hg0 as ds Hds. bind_inv Hg0 as bs Hbs. bind_inv Hg0 as f1 Hf1.
    exists f1, g0, g2. rewrite Hds. cbn [mbind result_bind].
    rewrite Hbs. cbn [mbind result_bind]. rewrite Hf1.
    split; [reflexivity|]. split; [|split; assumption].
    destruct by_task, by_worker; exact Hg0.
  - exists f0, g0, g2. split; [reflexivity|]. split; [|split; assumption].
    destruct by_task, by_worker; cbn [group_labels app] in *; try exact Hg0.
    bind_inv Hg0 as s Hs. injection Hg0 as <-. eauto.
Qed.



(** ** The summary by task is returned *)

Lemma mapM_result_returns {A B : Type} (f : A -> result B) (l : list A) :
  Forall (fun x => exists y, f x = Ok y) l -> exists k, mapM f l = Ok k.
Proof.
  induction 1 as [|x l [y Hy] _ [k Hk]]; [exists []; reflexivity|].
  exists (y :: k). cbn [mapM]. rewrite Hy. cbn [mbind result_bind].
  rewrite Hk. reflexivity.
Qed.

Lemma iat0_Ok (vs : list scalar) (v : scalar) : iat0 vs = Ok v -> v ∈ vs.
Proof. destruct vs; [discriminate|]. intros [= <-]. left. Qed.

Lemma my_agg_returns (group : DataFrame) :
  Forall (fun c => c ∈ columns group) ["duration"; "rate"; "cost"; "task_budget"] ->
  Forall (fun r => isinstance_float (cell r "duration") = true
                   /\ isinstance_float (cell r "cost") = true) (rows group) ->
  rows group <> [] ->
  exists s, my_agg group = Ok s.
Proof.
  intros Hc Hf Hne.
  apply Forall_cons in Hc as [Hd Hc]. apply Forall_cons in Hc as [Hr Hc].
  apply Forall_cons in Hc as [Hco Hc]. apply Forall_cons in Hc as [Ht _].
  assert (Fd : Forall (fun v => isinstance_float v = true) (column_values group "duration")).
  { unfold column_values. apply Forall_fmap. eapply Forall_impl; [exact Hf|].
    intros r [H _]. exact H. }
  assert (Fc : Forall (fun v => isinstance_float v = true) (column_values group "cost")).
  { unfold column_values. apply Forall_fmap. eapply Forall_impl; [exact Hf|].
    intros r [_ H]. exact H. }
  assert (Hfirst : exists r0, forall c,
            iat0 ((fun r => cell r c) <$> rows group) = Ok (cell r0 c)).
  { destruct (rows group) as [|r0 rs]; [contradiction | exists r0; reflexivity]. }
  destruct Hfirst as [r0 Hfirst].
  unfold my_agg.
  rewrite (bind_Ok_eq _ _ _ (getitem_elem _ _ Hd)).
  fold (column_values group "duration").
  rewrite (bind_Ok_eq _ _ _ (Series_sum_floats _ Fd)).
  rewrite (bind_Ok_eq _ _ _ (getitem_elem _ _ Hr)).
  rewrite (bind_Ok_eq _ _ _ (Hfirst _)).
  rewrite (bind_Ok_eq _ _ _ (getitem_elem _ _ Hco)).
  fold (column_values group "cost").
  rewrite (bind_Ok_eq _ _ _ (Series_sum_floats _ Fc)).
  rewrite (bind_Ok_eq _ _ _ (getitem_elem _ _ Ht)).
  rewrite (bind_Ok_eq _ _ _ (Hfirst _)). eauto.
Qed.

Lemma groupby_apply_returns (f : DataFrame) (cols : list string) :
  Forall (fun c => c ∈ columns f) cols ->
  Forall (fun c => c ∈ columns f) ["duration"; "rate"; "cost"; "task_budget"] ->
  Forall (fun r => isinstance_float (cell r "duration") = true
                   /\ isinstance_float (cell r "cost") = true) (rows f) ->
  rows f <> [] ->
  exists rs, groupby_apply f cols
             = Ok (mkDataFrame (cols ++ ["duration"; "rate"; "cost"; "task_budget"]) rs).
Proof.
  intros Hcols Hagg Hf Hne. unfold groupby_apply.
  rewrite (bind_Ok_eq _ _ tt); cycle 1.
  { apply for_each_Ok. eapply Forall_impl; [exact Hcols|].
    intros c Hc. cbn beta. now rewrite (getitem_elem _ _ Hc). }
  set (keys := merge_sort key_le (remove_dups (row_key cols <$> rows f))).
  assert (Hkeys : forall k, k ∈ keys -> exists r, r ∈ rows f /\ k = row_key cols r).
  { intros k Hk. unfold keys in Hk. rewrite merge_sort_Permutation in Hk.
    apply elem_of_remove_dups, list_elem_of_fmap in Hk as (r & -> & Hr). eauto. }
  assert (Hk0 : keys <> []).
  { assert (Hr0 : exists r0, r0 ∈ rows f).
    { destruct (rows f) as [|r0 rs]; [contradiction | exists r0; left]. }
    destruct Hr0 as [r0 Hr0].
    assert (Hin : row_key cols r0 ∈ keys).
    { unfold keys. rewrite merge_sort_Permutation.
      apply elem_of_remove_dups, list_elem_of_fmap. eauto. }
    intros E0. rewrite E0 in Hin. now apply elem_of_nil in Hin. }
  destruct (mapM_result_returns
              (fun k => s ← my_agg (group_of f cols k);
                        Ok (list_to_map (zip cols k ++ s) : gmap string scalar)) keys)
    as [rs Hrs].
  { apply Forall_forall. intros k Hk. destruct (Hkeys k Hk) as (r & Hr & ->).
    destruct (my_agg_returns (group_of f cols (row_key cols r))) as [s Hs].
    - exact Hagg.
    - cbn [group_of rows]. apply Forall_forall. intros r' [_ Hr']%list_elem_of_filter.
      rewrite Forall_forall in Hf. now apply Hf.
    - cbn [group_of rows]. intros E.
      assert (Hin : r ∈ filter (fun r' => row_key cols r' = row_key cols r) (rows f)).
      { apply list_elem_of_filter. auto. }
      rewrite E in Hin. now apply elem_of_nil in Hin.
    - rewrite Hs. eauto. }
  destruct keys as [|k ks]; [contradiction|].
  rewrite Hrs. eauto.
Qed.

(** For a project that [Project] returned, with distinct task names,
    distinct worker names and at least one timesheet entry, [summarize] by
    task returns a frame, whether or not it also groups by worker. *)
Lemma summarize_by_task_returns (TimeGrouper : string -> Z -> Z)
    (args : list PyVal) (p : Project) (ts : DataFrame) (by_worker : bool) :
  Project_new args = Ok p ->
  timesheet_df p = Some ts ->
  NoDup (column_values (tasks_df p) "task") ->
  NoDup (column_values (workers_df p) "worker") ->
  rows ts <> [] ->
  exists g, summarize TimeGrouper p true by_worker None = Ok g.
Proof.
  intros Hnew Hts Nt Nw Hne.
  destruct (Project_new_validated _ _ Hnew) as (ts' & Hv & _).
  assert (ts' = ts) as -> by (destruct Hv as [E]; congruence).
  destruct (compute_costs_validated p ts Hv Nt Nw) as (f & Hf & Cf & Hrows).
  assert (Hfne : rows f <> []).
  { intros E. rewrite E in Hrows. apply Forall2_nil_inv_r in Hrows. contradiction. }
  assert (Ff : Forall (fun r => isinstance_float (cell r "duration") = true
                               /\ isinstance_float (cell r "cost") = true) (rows f)).
  { eapply Forall2_Forall_right; [exact Hrows|].
    intros e r (t & w & d & rate & tb & H).
    destruct H as (_ & _ & _ & _ & _ & _ & _ & _ & _ & _ & Hd & _ & _ & Hc & _).
    now rewrite Hd, Hc. }
  assert (Ft : Forall (fun r => exists x, cell r "task_budget" = SFloat x) (rows f)).
  { eapply Forall2_Forall_right; [exact Hrows|].
    intros e r (t & w & d & rate & tb & H).
    destruct H as (_ & _ & _ & _ & _ & _ & _ & _ & _ & _ & _ & _ & Htb & _). eauto. }
  set (cols := "task" :: (if by_worker then ["worker"] else [])).
  destruct (groupby_apply_returns f cols) as [rs Hg0]; try assumption.
  { unfold cols. destruct by_worker; repeat constructor; apply Cf; left;
      (split; [in_list | discriminate]). }
  { repeat constructor; apply Cf;
      first [ left; split; [in_list | discriminate] | right; in_list ]. }
  pose proof (groupby_apply_Ok _ _ _ Hg0) as [E | [_ Hrs]].
  { injection E as E _. destruct by_worker; discriminate E. }
  cbn [rows] in Hrs.
  assert (Hn : forall c, c ∉ ["date"; "task"; "worker"] -> c ∉ cols).
  { intros c Hc Hin. apply Hc. unfold cols in Hin. clear -Hin.
    destruct by_worker; labels. }
  assert (Hcell : Forall (fun row => (exists x, cell row "cost" = SFloat x)
                                     /\ exists x, cell row "task_budget" = SFloat x) rs).
  { eapply Forall_impl; [exact Hrs|]. intros row (r & s & Hr & Hs & ->).
    apply my_agg_Ok in Hs as (d & rt & cost & tb & -> & _ & _ & _ & Htb).
    rewrite !cell_list_to_map_zip by (apply Hn; clear; intros H; labels).
    rewrite !cell_list_to_map_cons.
    rewrite !(decide_False (P := "duration" = _)) by discriminate.
    rewrite !(decide_False (P := "rate" = _)) by discriminate.
    rewrite decide_True by reflexivity.
    rewrite (decide_False (P := "cost" = _)) by discriminate.
    rewrite decide_True by reflexivity.
    split; [eauto|].
    apply iat0_Ok, elem_of_column_values in Htb as (r' & Hr' & <-).
    cbn [group_of rows] in Hr'. apply list_elem_of_filter in Hr' as [_ Hr'].
    rewrite Forall_forall in Ft. now apply Ft. }
  set (g0 := mkDataFrame (cols ++ ["duration"; "rate"; "cost"; "task_budget"]) rs) in *.
  assert (Cg0 : forall c, c ∈ ["duration"; "rate"; "cost"; "task_budget"] -> c ∈ columns g0).
  { intros c Hc. cbn [g0 columns]. apply elem_of_app. now right. }
  unfold summarize. rewrite Hts. rewrite (bind_Ok_eq _ _ _ Hf).
  change (if true then ["task"] else []) with ["task"].
  change (["task"] ++ (if by_worker then ["worker"] else [])) with cols.
  unfold cols at 1. fold cols. rewrite Hg0. cbn [mbind result_bind].
  rewrite (getitem_elem g0 "cost" (Cg0 "cost" ltac:(in_list))).
  cbn [mbind result_bind].
  rewrite (getitem_elem g0 "task_budget" (Cg0 "task_budget" ltac:(in_list))).
  cbn [mbind result_bind].
  rewrite (Series_binop_fmap fdiv (fun r => cell r "cost") (fun r => cell r "task_budget"));
    cycle 1.
  { eapply Forall_impl; [exact Hcell|]. intros row [[x ->] [y ->]].
    split; eexists; reflexivity. }
  cbn [mbind result_bind]. rewrite setitem_assign. cbn [mbind result_bind].
  rewrite (getitem_elem _ "cost"
             ltac:(apply elem_of_assign_columns; left; apply Cg0; in_list)).
  cbn [mbind result_bind].
  rewrite Series_div_number_fmap; cycle 1.
  { cbn [assign rows]. apply Forall_fmap. eapply Forall_impl; [exact Hcell|].
    intros row [[x Hx] _]. cbn [compose].
    rewrite cell_insert_ne, Hx by discriminate. eexists; reflexivity. }
  cbn [mbind result_bind]. rewrite setitem_assign. cbn [mbind result_bind].
  destruct by_worker; [eauto|].
  rewrite drop_Ok; [eauto|].
  apply elem_of_assign_columns. left. apply elem_of_assign_columns. left.
  apply Cg0. in_list.
Qed.

(** * Further properties *)

(** ** The validators and the constructor *)

Lemma check_pos_Ok (v : PyVal) (n : number) :
  check_pos v = Ok n ->
  v = VNum n
  /\ match n with
     | NInt z => (0 <= z)%Z
     | NFloat x => fgeb x fzero = true
     end.
Proof.
  destruct v as [| |[z|x]|]; simpl; try discriminate.
  - destruct (0 <=? z)%Z eqn:E; [|discriminate]. intros [= <-].
    split; [reflexivity | now apply Z.leb_le].
  - destruct (fgeb x fzero) eqn:E; [|discriminate]. intros [= <-]. auto.
Qed.




(** X3: in every project that [Project] returns, each timesheet entry names
    a task of the task table and a worker of the worker table, and no cell
    of the three tables is missing. *)
Theorem Project_new_references (args : list PyVal) (p : Project) (ts : DataFrame) :
  Project_new args = Ok p ->
  timesheet_df p = Some ts ->
  (forall e, e ∈ rows ts ->
     (exists t, t ∈ rows (tasks_df p) /\ cell t "task" = cell e "task")
     /\ (exists w, w ∈ rows (workers_df p) /\ cell w "worker" = cell e "worker"))
  /\ (forall r c, r ∈ rows ts -> c ∈ ["date"; "task"; "worker"; "duration"] ->
        isnull (cell r c) = false)
  /\ (forall r c, r ∈ rows (tasks_df p) -> c ∈ ["task"; "budget"] ->
        isnull (cell r c) = false)
  /\ (forall r c, r ∈ rows (workers_df p) -> c ∈ ["worker"; "rate"] ->
        isnull (cell r c) = false).
Proof.
  intros Hnew Hts.
  destruct (Project_new_validated _ _ Hnew) as (ts' & Hv & _).
  assert (ts' = ts) as -> by (destruct Hv as [E]; congruence).
  destruct Hv as [_ Ht _ Hw _ He _ Dt Dw].
  split; [|split; [|split]].
  - intros e Hin. split.
    + apply (unknown_names_empty _ _ _ e Dt), elem_of_column_values in Hin
        as (t & Ht' & E). eauto.
    + apply (unknown_names_empty _ _ _ e Dw), elem_of_column_values in Hin
        as (w & Hw' & E). eauto.
  - intros r c Hr Hc. destruct (check_df_Ok _ _ _ He) as (_ & _ & Hn).
    apply Hn; [|exact Hr]. now apply (header_elem _ _ _ He).
  - intros r c Hr Hc. destruct (check_df_Ok _ _ _ Ht) as (_ & _ & Hn).
    apply Hn; [|exact Hr]. now apply (header_elem _ _ _ Ht).
  - intros r c Hr Hc. destruct (check_df_Ok _ _ _ Hw) as (_ & _ & Hn).
    apply Hn; [|exact Hr]. now apply (header_elem _ _ _ Hw).
Qed.

Lemma Project_new_references_witness :
  Project_new Sample.args = Ok Sample.project
  /\ timesheet_df Sample.project = Some Sample.timesheet
  /\ forall e, e ∈ rows Sample.timesheet ->
       (exists t, t ∈ rows Sample.tasks /\ cell t "task" = cell e "task")
       /\ (exists w, w ∈ rows Sample.workers /\ cell w "worker" = cell e "worker").
Proof.
  assert (H : Project_new Sample.args = Ok Sample.project) by (vm_compute; reflexivity).
  split; [exact H|]. split; [reflexivity|].
  exact (proj1 (Project_new_references Sample.args Sample.project Sample.timesheet
                  H eq_refl)).
Defined.

(** X1: [Project] returns a project only for a call with all eight
    arguments, and the project holds exactly the objects passed: the
    validators return their argument unchanged, and the timesheet is always
    present. *)
Theorem Project_new_keeps_arguments (args : list PyVal) (p : Project) :
  Project_new args = Ok p ->
  exists ts,
    timesheet_df p = Some ts
    /\ args = [VStr (name p); VStr (description p); VStr (client p); VNum (budget p);
               VStr (currency p); VFrame (tasks_df p); VFrame (workers_df p); VFrame ts].
Proof.
  intros H.
  destruct args as [|n [|d [|c [|b [|cur [|t [|w [|ts [|? ?]]]]]]]]];
    try discriminate H; simpl in H.
  - apply Project_init_validated in H as (f & _ & Hf & _). discriminate Hf.
  - pose proof (Project_init_validated _ _ _ _ _ _ _ _ _ H)
      as (f & [Hts _ _ _ _ _ _ _ _] & -> & -> & -> & Hb).
    apply check_pos_Ok in Hb as [-> _].
    unfold Project_init in H.
    bind_inv H as x1 H1. bind_inv H as x2 H2. bind_inv H as x3 H3.
    bind_inv H as x4 H4. bind_inv H as x5 H5. bind_inv H as x6 H6.
    bind_inv H as x7 H7. bind_inv H as x8 H8. injection H as <-.
    destruct n; try discriminate H1. destruct d; try discriminate H2.
    destruct c; try discriminate H3. destruct cur; try discriminate H5.
    injection H1 as ->. injection H2 as ->. injection H3 as ->. injection H5 as ->.
    cbn in *. exists f. split; [exact Hts | reflexivity].
Qed.

Lemma Project_new_keeps_arguments_witness :
  Project_new Sample.args = Ok Sample.project
  /\ exists ts,
       timesheet_df Sample.project = Some ts
       /\ Sample.args
          = [VStr (name Sample.project); VStr (description Sample.project);
             VStr (client Sample.project); VNum (budget Sample.project);
             VStr (currency Sample.project); VFrame (tasks_df Sample.project);
             VFrame (workers_df Sample.project); VFrame ts].
Proof.
  assert (H : Project_new Sample.args = Ok Sample.project) by (vm_compute; reflexivity).
  split; [exact H | exact (Project_new_keeps_arguments Sample.args Sample.project H)].
Defined.

Lemma check_df_empty (cols expect_cols : list string) :
  (list_to_set cols : gset string) = list_to_set expect_cols ->
  check_df (VFrame (mkDataFrame cols [])) expect_cols = Ok (mkDataFrame cols []).
Proof.
  intros H. unfold check_df, check_df_instance. cbn [mbind result_bind].
  unfold check_df_header. cbn [columns]. rewrite decide_True by exact H.
  cbn [mbind result_bind]. unfold check_df_no_nans, df_no_nans.
  rewrite (bind_Ok_eq _ _ tt); [reflexivity|].
  apply for_each_Ok, Forall_forall. intros c Hc. cbn beta.
  rewrite (getitem_elem _ c Hc). reflexivity.
Qed.

Lemma difference_of_nil (l : list scalar) :
  (list_to_set [] ∖ list_to_set l : gset scalar) = ∅.
Proof.
  apply set_eq. intros x. rewrite elem_of_difference, elem_of_list_to_set. split.
  - intros [H _]. now apply elem_of_nil in H.
  - intros H. now apply not_elem_of_empty in H.
Qed.

(** X4: no checker asks for a row.  A table with the expected labels and no
    row passes the generic checks; as a worker table it is accepted; as a
    task table it is accepted exactly when the declared budget equals zero;
    and as a timesheet it is accepted against every task and worker table
    that has its name column. *)
Theorem empty_tables_accepted (cols : list string) :
  (forall expect_cols,
     (list_to_set cols : gset string) = list_to_set expect_cols ->
     check_df (VFrame (mkDataFrame cols [])) expect_cols = Ok (mkDataFrame cols []))
  /\ ((list_to_set cols : gset string) = list_to_set ["worker"; "rate"] ->
      check_workers_df (VFrame (mkDataFrame cols [])) = Ok (mkDataFrame cols []))
  /\ ((list_to_set cols : gset string) = list_to_set ["task"; "budget"] ->
      forall n, check_tasks_df (VFrame (mkDataFrame cols [])) (VNum n)
                = Ok (mkDataFrame cols [])
                <-> feqb fzero (number_to_float n) = true)
  /\ ((list_to_set cols : gset string) = list_to_set ["date"; "task"; "worker"; "duration"] ->
      forall tasks workers,
        "task" ∈ columns tasks -> "worker" ∈ columns workers ->
        check_timesheet_df (VFrame (mkDataFrame cols [])) (VFrame tasks) (VFrame workers)
        = Ok (Some (mkDataFrame cols []))).
Proof.
  split; [exact (check_df_empty cols)|]. split; [|split].
  - intros H. pose proof (check_df_empty _ _ H) as Hdf.
    unfold check_workers_df. rewrite Hdf. cbn [mbind result_bind].
    rewrite (getitem_elem _ "rate" ltac:(col_in Hdf)). reflexivity.
  - intros H n. pose proof (check_df_empty _ _ H) as Hdf.
    unfold check_tasks_df. rewrite Hdf. cbn [mbind result_bind].
    rewrite (getitem_elem _ "budget" ltac:(col_in Hdf)).
    cbn [mbind result_bind rows fmap list_fmap for_each Series_sum mapM float_ne].
    change (Series_sum []) with (Ok fzero : result float64).
    cbn [mbind result_bind].
    destruct (feqb fzero (number_to_float n)); cbn [negb]; split; intros E;
      first [reflexivity | discriminate E].
  - intros H tasks workers Ht Hw. pose proof (check_df_empty _ _ H) as Hdf.
    unfold check_timesheet_df. cbn [py_copy mbind result_bind py_getitem].
    rewrite Hdf. cbn [mbind result_bind].
    rewrite (getitem_elem _ "duration" ltac:(col_in Hdf)).
    cbn [mbind result_bind rows fmap list_fmap for_each].
    rewrite (getitem_elem _ "task" ltac:(col_in Hdf)).
    cbn [mbind result_bind rows fmap list_fmap].
    rewrite (getitem_elem _ _ Ht). cbn [mbind result_bind].
    rewrite decide_True by apply difference_of_nil.
    rewrite (getitem_elem _ "worker" ltac:(col_in Hdf)).
    cbn [mbind result_bind rows fmap list_fmap].
    rewrite (getitem_elem _ _ Hw). cbn [mbind result_bind].
    rewrite decide_True by apply difference_of_nil.
    reflexivity.
Qed.

Lemma empty_tables_accepted_witness :
  check_workers_df (VFrame (mkDataFrame ["worker"; "rate"] []))
  = Ok (mkDataFrame ["worker"; "rate"] [])
  /\ (check_tasks_df (VFrame (mkDataFrame ["task"; "budget"] [])) (VNum (NInt 0))
      = Ok (mkDataFrame ["task"; "budget"] []))
  /\ check_timesheet_df (VFrame Sample.timesheet_empty) (VFrame Sample.tasks)
       (VFrame Sample.workers)
     = Ok (Some Sample.timesheet_empty).
Proof.
  split; [|split].
  - exact (proj1 (proj2 (empty_tables_accepted ["worker"; "rate"])) eq_refl).
  - apply (proj1 (proj2 (proj2 (empty_tables_accepted ["task"; "budget"]))) eq_refl).
    reflexivity.
  - apply (proj2 (proj2 (proj2
             (empty_tables_accepted ["date"; "task"; "worker"; "duration"]))) eq_refl).
    + left.
    + left.
Defined.

Lemma for_each_first_Err {A : Type} (body : A -> result unit) (pre post : list A)
    (x : A) (e : exn) :
  Forall (fun y => body y = Ok tt) pre -> body x = Err e ->
  for_each body (pre ++ x :: post) = Err e.
Proof.
  intros Hpre Hx. induction Hpre as [|y pre Hy _ IH]; simpl.
  - now rewrite Hx.
  - now rewrite Hy.
Qed.

(** X5: the numeric column of a task or worker table is scanned from the
    first row: the first value that is not a float is the one the error
    carries.  For a task table this test comes before the budgets are
    summed, so the error is the same whatever budget is declared. *)
Theorem first_non_float_reported (f : DataFrame) (pre post : list scalar) (v : scalar) :
  Forall (fun x => isinstance_float x = true) pre ->
  isinstance_float v = false ->
  (check_df (VFrame f) ["task"; "budget"] = Ok f ->
   column_values f "budget" = pre ++ v :: post ->
   forall budget,
     check_tasks_df (VFrame f) budget = Err (Invalid (NonNumericalValue v)))
  /\ (check_df (VFrame f) ["worker"; "rate"] = Ok f ->
      column_values f "rate" = pre ++ v :: post ->
      check_workers_df (VFrame f) = Err (Invalid (NonNumericalValue v))).
Proof.
  intros Hpre Hv.
  assert (Hloop : for_each (fun x => if isinstance_float x then Ok tt
                                     else Err (Invalid (NonNumericalValue x)))
                    (pre ++ v :: post) = Err (Invalid (NonNumericalValue v))).
  { apply for_each_first_Err.
    - eapply Forall_impl; [exact Hpre|]. intros y Hy. cbn beta. now rewrite Hy.
    - now rewrite Hv. }
  split.
  - intros Hdf Hcol budget. unfold check_tasks_df.
    rewrite Hdf. cbn [mbind result_bind].
    rewrite (getitem_elem f "budget" ltac:(col_in Hdf)). cbn [mbind result_bind].
    fold (column_values f "budget"). rewrite Hcol, Hloop. reflexivity.
  - intros Hdf Hcol. unfold check_workers_df.
    rewrite Hdf. cbn [mbind result_bind].
    rewrite (getitem_elem f "rate" ltac:(col_in Hdf)). cbn [mbind result_bind].
    fold (column_values f "rate"). rewrite Hcol, Hloop. reflexivity.
Qed.

Lemma first_non_float_reported_witness :
  (check_df (VFrame Sample.tasks_int_budget) ["task"; "budget"]
   = Ok Sample.tasks_int_budget
   /\ column_values Sample.tasks_int_budget "budget"
      = [Sample.fl 2000] ++ SInt 38000 :: [SStr "none"]
   /\ forall budget,
        check_tasks_df (VFrame Sample.tasks_int_budget) budget
        = Err (Invalid (NonNumericalValue (SInt 38000))))
  /\ (check_df (VFrame Sample.workers_int_rate) ["worker"; "rate"]
      = Ok Sample.workers_int_rate
      /\ column_values Sample.workers_int_rate "rate" = [Sample.fl 200] ++ SInt 190 :: []
      /\ check_workers_df (VFrame Sample.workers_int_rate)
         = Err (Invalid (NonNumericalValue (SInt 190)))).
Proof.
  assert (Ht : check_df (VFrame Sample.tasks_int_budget) ["task"; "budget"]
               = Ok Sample.tasks_int_budget) by (vm_compute; reflexivity).
  assert (Hw : check_df (VFrame Sample.workers_int_rate) ["worker"; "rate"]
               = Ok Sample.workers_int_rate) by (vm_compute; reflexivity).
  assert (Ct : column_values Sample.tasks_int_budget "budget"
               = [Sample.fl 2000] ++ SInt 38000 :: [SStr "none"])
    by (vm_compute; reflexivity).
  assert (Cw : column_values Sample.workers_int_rate "rate"
               = [Sample.fl 200] ++ SInt 190 :: []) by (vm_compute; reflexivity).
  split.
  - split; [exact Ht|]. split; [exact Ct|].
    apply (proj1 (first_non_float_reported Sample.tasks_int_budget [Sample.fl 2000]
                    [SStr "none"] (SInt 38000)
                    ltac:(repeat constructor) eq_refl) Ht Ct).
  - split; [exact Hw|]. split; [exact Cw|].
    apply (proj2 (first_non_float_reported Sample.workers_int_rate [Sample.fl 200]
                    [] (SInt 190) ltac:(repeat constructor) eq_refl) Hw Cw).
Defined.


(** ** The cost join with repeated names *)

Lemma merge_on_key_all (left right : DataFrame) (k : string) :
  k ∈ columns left -> k ∈ columns right ->
  (forall c, c ∈ columns left -> c ∈ columns right -> c = k) ->
  merge left right
  = Ok (mkDataFrame (merge_columns left right)
          (l ← rows left;
           merge_row left right l <$> filter (fun r => cell l k = cell r k) (rows right))).
Proof.
  intros Hl Hr Honly. unfold merge.
  set (common := filter (fun c => c ∈ columns right) (columns left)).
  assert (Hk : k ∈ common) by (apply list_elem_of_filter; auto).
  assert (Hc : forall c, c ∈ common -> c = k).
  { intros c [? ?]%list_elem_of_filter. auto. }
  destruct common as [|c0 common'] eqn:Ec; [now apply elem_of_nil in Hk|].
  rewrite <- Ec in *. f_equal. f_equal.
  apply list_bind_ext; [|reflexivity]. intros l.
  rewrite <- (list_bind_if_filter (fun r => cell l k = cell r k)).
  apply list_bind_ext; [|reflexivity]. intros r.
  destruct (decide (cell l k = cell r k)) as [Ek|Ek].
  - rewrite decide_True; [reflexivity|].
    apply Forall_forall. intros c Hcin. now rewrite (Hc c Hcin).
  - rewrite decide_False; [reflexivity|].
    intros HF. apply Ek. rewrite Forall_forall in HF. now apply HF.
Qed.

Lemma length_list_bind {A B : Type} (f : A -> list B) (l : list A) :
  length (l ≫= f) = sum_list_with (fun x => length (f x)) l.
Proof.
  induction l as [|x l IH]; [reflexivity|].
  rewrite bind_cons, length_app, IH. reflexivity.
Qed.

Lemma sum_list_with_bind {A B : Type} (g : B -> nat) (f : A -> list B) (l : list A) :
  sum_list_with g (l ≫= f) = sum_list_with (fun x => sum_list_with g (f x)) l.
Proof.
  induction l as [|x l IH]; [reflexivity|].
  rewrite bind_cons, sum_list_with_app, IH. reflexivity.
Qed.

Lemma sum_list_with_const {A : Type} (g : A -> nat) (l : list A) (n : nat) :
  Forall (fun x => g x = n) l -> sum_list_with g l = length l * n.
Proof.
  induction 1 as [|x l Hx _ IH]; [reflexivity|].
  cbn [sum_list_with length]. rewrite Hx, IH. lia.
Qed.

Lemma sum_list_with_ext_elem {A : Type} (g h : A -> nat) (l : list A) :
  Forall (fun x => g x = h x) l -> sum_list_with g l = sum_list_with h l.
Proof.
  induction 1 as [|x l Hx _ IH]; [reflexivity|].
  cbn [sum_list_with]. now rewrite Hx, IH.
Qed.

Lemma compute_costs_validated_all (p : Project) (ts : DataFrame) :
  validated p ts ->
  exists f, compute_costs p = Ok f
    /\ length (rows f)
       = sum_list_with (fun e => count_name (tasks_df p) "task" (cell e "task")
                                 * count_name (workers_df p) "worker" (cell e "worker"))
           (rows ts)
    /\ Forall (fun r => exists e, e ∈ rows ts /\ cost_row_of p e r) (rows f)
    /\ (forall c, c ∈ ["date"; "task"; "worker"; "duration"; "rate"; "task_budget";
                       "cost"; "cost/task_budget"; "cost/project_budget"] ->
        c ∈ columns f).
Proof.
  intros [Hts Ht Htf Hw Hwf He Hef Dt Dw].
  unfold cost_row_of, compute_costs. rewrite Hts.
  set (tasks := tasks_df p) in *. set (workers := workers_df p) in *.
  pose proof (fun c => check_df_columns _ _ _ c He) as Ce.
  pose proof (fun c => check_df_columns _ _ _ c Ht) as Ctk.
  pose proof (fun c => check_df_columns _ _ _ c Hw) as Cwk.
  (* the join with the tasks *)
  rewrite (merge_on_key_all ts tasks "task"); cycle 1.
  { col_in He. } { col_in Ht. }
  { intros c H1%Ce H2%Ctk. clear -H1 H2. labels. }
  set (K1 := fun l => merge_row ts tasks l
                      <$> filter (fun r => cell l "task" = cell r "task") (rows tasks)).
  set (m1 := mkDataFrame (merge_columns ts tasks) (rows ts ≫= K1)).
  cbn [mbind result_bind].
  assert (Cm1 : forall c, c ∈ columns m1 <-> c ∈ ["date"; "task"; "worker"; "duration"; "budget"]).
  { intros c. unfold m1. cbn [columns]. rewrite elem_of_merge_columns, Ce, Ctk.
    clear. labels. }
  (* the join with the workers *)
  rewrite (merge_on_key_all m1 workers "worker"); cycle 1.
  { apply Cm1. in_list. } { col_in Hw. }
  { intros c H1%Cm1 H2%Cwk. clear -H1 H2. labels. }
  set (K2 := fun l => merge_row m1 workers l
                      <$> filter (fun r => cell l "worker" = cell r "worker") (rows workers)).
  set (m2 := mkDataFrame (merge_columns m1 workers) (rows m1 ≫= K2)).
  cbn [mbind result_bind].
  assert (Cm2 : forall c, c ∈ columns m2 <->
                  c ∈ ["date"; "task"; "worker"; "duration"; "budget"; "rate"]).
  { intros c. unfold m2. cbn [columns]. rewrite elem_of_merge_columns, Cm1, Cwk.
    clear. labels. }
  (* the two category columns *)
  rewrite (getitem_elem m2 "task" ltac:(apply Cm2; in_list)). cbn [mbind result_bind].
  unfold astype_category. rewrite setitem_assign. cbn [mbind result_bind].
  set (f3 := assign m2 "task" (fun r => cell r "task")).
  assert (Cf3 : forall c, c ∈ columns f3 <->
                  c ∈ ["date"; "task"; "worker"; "duration"; "budget"; "rate"]).
  { intros c. unfold f3. rewrite elem_of_assign_columns, Cm2. clear. labels. }
  rewrite (getitem_elem f3 "worker" ltac:(apply Cf3; in_list)). cbn [mbind result_bind].
  rewrite setitem_assign. cbn [mbind result_bind].
  set (f4 := assign f3 "worker" (fun r => cell r "worker")).
  assert (Cf4 : forall c, c ∈ columns f4 <->
                  c ∈ ["date"; "task"; "worker"; "duration"; "budget"; "rate"]).
  { intros c. unfold f4. rewrite elem_of_assign_columns, Cf3. clear. labels. }
  set (f5 := rename f4 "budget" "task_budget").
  assert (Cf5 : forall c, c ∈ columns f5 <->
             c ∈ ["date"; "task"; "worker"; "duration"; "budget"; "rate"] /\ c <> "budget"
             \/ c = "task_budget").
  { intros c. unfold f5. cbn [rename columns]. rewrite elem_of_rename_columns, !Cf4.
    clear. labels. }
  (* what the rows hold before the costs are added *)
  assert (B : Forall (fun r =>
                exists e t w d rate tb,
                  e ∈ rows ts
                  /\ t ∈ rows tasks /\ cell t "task" = cell e "task"
                  /\ w ∈ rows workers /\ cell w "worker" = cell e "worker"
                  /\ cell e "duration" = SFloat d
                  /\ cell w "rate" = SFloat rate
                  /\ cell t "budget" = SFloat tb
                  /\ cell r "date" = cell e "date"
                  /\ cell r "task" = cell e "task"
                  /\ cell r "worker" = cell e "worker"
                  /\ cell r "duration" = SFloat d
                  /\ cell r "rate" = SFloat rate
                  /\ cell r "task_budget" = SFloat tb) (rows f5)).
  { change (rows f5) with (rename_row f4 "budget" "task_budget" <$> rows f4).
    change (rows f4) with ((fun r => <["worker" := cell r "worker"]> r) <$> rows f3).
    change (rows f3) with ((fun r => <["task" := cell r "task"]> r) <$> rows m2).
    rewrite <- !list_fmap_compose. apply Forall_fmap, Forall_forall.
    intros o2 Ho2. change (rows m2) with (rows m1 ≫= K2) in Ho2.
    apply list_elem_of_bind in Ho2 as (o1 & Ho2 & Ho1).
    unfold K2 in Ho2. apply list_elem_of_fmap in Ho2 as (w & -> & Hw').
    apply list_elem_of_filter in Hw' as [Hwk Hwin].
    change (rows m1) with (rows ts ≫= K1) in Ho1.
    apply list_elem_of_bind in Ho1 as (e & Ho1 & Hein).
    unfold K1 in Ho1. apply list_elem_of_fmap in Ho1 as (t & -> & Ht').
    apply list_elem_of_filter in Ht' as [Htk Htin].
    set (o1 := merge_row ts tasks e t) in *.
    set (o2 := merge_row m1 workers o1 w).
    destruct (isinstance_float_column _ _ _ Hef Hein) as [d Hd].
    destruct (isinstance_float_column _ _ _ Htf Htin) as [tb Htb].
    destruct (isinstance_float_column _ _ _ Hwf Hwin) as [rate Hrate].
    assert (K1e : forall c, c ∈ columns ts -> cell o1 c = cell e c).
    { intros c Hc. unfold o1. now rewrite cell_merge_row_left. }
    assert (K1b : cell o1 "budget" = cell t "budget").
    { unfold o1. rewrite cell_merge_row_right; [reflexivity | | col_in Ht].
      rewrite Ce. clear. labels. }
    assert (K2e : forall c, c ∈ columns m1 -> cell o2 c = cell o1 c).
    { intros c Hc. unfold o2. now rewrite cell_merge_row_left. }
    assert (K2r : cell o2 "rate" = cell w "rate").
    { unfold o2. rewrite cell_merge_row_right; [reflexivity | | col_in Hw].
      rewrite Cm1. clear. labels. }
    assert (K : forall c, c ∈ ["date"; "task"; "worker"; "duration"; "rate"] ->
                cell ((rename_row f4 "budget" "task_budget"
                       ∘ (fun r => <["worker" := cell r "worker"]> r)
                       ∘ (fun r => <["task" := cell r "task"]> r)) o2) c
                = cell o2 c).
    { intros c Hc. cbn [compose].
      rewrite cell_rename_row_other;
        [ | apply Cf4; clear -Hc; labels | clear -Hc; labels | clear -Hc; labels].
      now rewrite !cell_insert_self. }
    assert (Kb : cell ((rename_row f4 "budget" "task_budget"
                       ∘ (fun r => <["worker" := cell r "worker"]> r)
                       ∘ (fun r => <["task" := cell r "task"]> r)) o2) "task_budget"
                = cell o2 "budget").
    { cbn [compose]. rewrite cell_rename_row_new by (apply Cf4; in_list).
      now rewrite !cell_insert_self. }
    assert (Ew : cell w "worker" = cell e "worker").
    { rewrite <- Hwk. apply K1e. col_in He. }
    exists e, t, w, d, rate, tb.
    repeat split; try assumption; try (symmetry; assumption).
    - rewrite K by in_list. rewrite K2e by (apply Cm1; in_list).
      apply K1e. col_in He.
    - rewrite K by in_list. rewrite K2e by (apply Cm1; in_list).
      apply K1e. col_in He.
    - rewrite K by in_list. rewrite K2e by (apply Cm1; in_list).
      apply K1e. col_in He.
    - rewrite K by in_list. rewrite K2e by (apply Cm1; in_list).
      rewrite K1e by (col_in He). exact Hd.
    - rewrite K by in_list. now rewrite K2r.
    - rewrite Kb. rewrite K2e by (apply Cm1; in_list). now rewrite K1b. }
  assert (F5 : Forall (fun r => exists d rate tb,
                  cell r "duration" = SFloat d /\ cell r "rate" = SFloat rate
                  /\ cell r "task_budget" = SFloat tb) (rows f5)).
  { eapply Forall_impl; [exact B|].
    intros r (e & t & w & d & rate & tb & H). exists d, rate, tb. tauto. }
  (* the cost *)
  rewrite (getitem_elem f5 "duration" ltac:(apply Cf5; left; split; [in_list | discriminate])).
  cbn [mbind result_bind].
  rewrite (getitem_elem f5 "rate" ltac:(apply Cf5; left; split; [in_list | discriminate])).
  cbn [mbind result_bind].
  rewrite (Series_binop_fmap fmul (fun r => cell r "duration") (fun r => cell r "rate"));
    cycle 1.
  { eapply Forall_impl; [exact F5|]. intros r (d & rate & tb & -> & -> & _).
    split; eexists; reflexivity. }
  cbn [mbind result_bind]. rewrite setitem_assign. cbn [mbind result_bind].
  set (g6 := fun r => SFloat (fmul (float_of (cell r "duration")) (float_of (cell r "rate")))).
  set (f6 := assign f5 "cost" g6).
  assert (Cf6 : forall c, c ∈ columns f6 <-> c ∈ columns f5 \/ c = "cost").
  { intros c. apply elem_of_assign_columns. }
  (* the cost over the task budget *)
  rewrite (getitem_elem f6 "cost" ltac:(apply Cf6; now right)). cbn [mbind result_bind].
  rewrite (getitem_elem f6 "task_budget" ltac:(apply Cf6; left; apply Cf5; now right)).
  cbn [mbind result_bind].
  rewrite (Series_binop_fmap fdiv (fun r => cell r "cost") (fun r => cell r "task_budget"));
    cycle 1.
  { change (rows f6) with ((fun r => <["cost" := g6 r]> r) <$> rows f5).
    apply Forall_fmap. eapply Forall_impl; [exact F5|].
    intros r (d & rate & tb & _ & _ & Htb). cbn [compose].
    rewrite cell_insert_eq, cell_insert_ne, Htb by discriminate.
    split; eexists; reflexivity. }
  cbn [mbind result_bind]. rewrite setitem_assign. cbn [mbind result_bind].
  set (g7 := fun r => SFloat (fdiv (float_of (cell r "cost")) (float_of (cell r "task_budget")))).
  set (f7 := assign f6 "cost/task_budget" g7).
  assert (Cf7 : forall c, c ∈ columns f7 <-> c ∈ columns f6 \/ c = "cost/task_budget").
  { intros c. apply elem_of_assign_columns. }
  (* the cost over the project budget *)
  rewrite (getitem_elem f7 "cost" ltac:(apply Cf7; left; apply Cf6; now right)).
  cbn [mbind result_bind].
  rewrite (Series_div_number_fmap (fun r => cell r "cost")); cycle 1.
  { change (rows f7) with ((fun r => <["cost/task_budget" := g7 r]> r) <$> rows f6).
    change (rows f6) with ((fun r => <["cost" := g6 r]> r) <$> rows f5).
    rewrite <- list_fmap_compose. apply Forall_fmap, Forall_forall.
    intros r _. cbn [compose].
    rewrite cell_insert_ne, cell_insert_eq by discriminate. eexists; reflexivity. }
  cbn [mbind result_bind]. rewrite setitem_assign. cbn [mbind result_bind].
  set (g8 := fun r => SFloat (fdiv (float_of (cell r "cost")) (number_to_float (budget p)))).
  set (f8 := assign f7 "cost/project_budget" g8).
  exists f8. split; [reflexivity|]. split; [|split].
  - change (rows f8) with ((fun r => <["cost/project_budget" := g8 r]> r) <$> rows f7).
    change (rows f7) with ((fun r => <["cost/task_budget" := g7 r]> r) <$> rows f6).
    change (rows f6) with ((fun r => <["cost" := g6 r]> r) <$> rows f5).
    change (rows f5) with (rename_row f4 "budget" "task_budget" <$> rows f4).
    change (rows f4) with ((fun r => <["worker" := cell r "worker"]> r) <$> rows f3).
    change (rows f3) with ((fun r => <["task" := cell r "task"]> r) <$> rows m2).
    rewrite !length_fmap. change (rows m2) with (rows m1 ≫= K2).
    rewrite length_list_bind. change (rows m1) with (rows ts ≫= K1).
    rewrite sum_list_with_bind. apply sum_list_with_ext_elem, Forall_forall.
    intros e Hein. unfold K1 at 1.
    rewrite (sum_list_with_const _ _ (count_name workers "worker" (cell e "worker"))).
    + rewrite length_fmap. reflexivity.
    + apply Forall_fmap, Forall_forall. intros t _. cbn [compose].
      unfold K2. rewrite length_fmap.
      rewrite cell_merge_row_left by (col_in He). reflexivity.
  - change (rows f8) with ((fun r => <["cost/project_budget" := g8 r]> r) <$> rows f7).
    change (rows f7) with ((fun r => <["cost/task_budget" := g7 r]> r) <$> rows f6).
    change (rows f6) with ((fun r => <["cost" := g6 r]> r) <$> rows f5).
    rewrite <- !list_fmap_compose. apply Forall_fmap.
    eapply Forall_impl; [exact B|]. clear B F5.
    intros r (e & t & w & d & rate & tb & H0 & H1 & H2 & H3 & H4 & H5 & H6 & H7
                & H8 & H9 & H10 & H11 & H12 & H13).
    exists e. split; [exact H0|]. exists t, w, d, rate, tb. cbn [compose].
    assert (Ec : g6 r = SFloat (fmul d rate)).
    { unfold g6. now rewrite H11, H12. }
    assert (Et : g7 (<["cost" := g6 r]> r) = SFloat (fdiv (fmul d rate) tb)).
    { unfold g7. rewrite cell_insert_eq, cell_insert_ne, Ec, H13 by discriminate.
      reflexivity. }
    assert (Ep : g8 (<["cost/task_budget" := g7 (<["cost" := g6 r]> r)]> (<["cost" := g6 r]> r))
                 = SFloat (fdiv (fmul d rate) (number_to_float (budget p)))).
    { unfold g8. rewrite cell_insert_ne, cell_insert_eq, Ec by discriminate.
      reflexivity. }
    rewrite Ep, Et, Ec.
    repeat split; try assumption;
      rewrite ?cell_insert_eq, ?cell_insert_ne by discriminate;
      rewrite ?cell_insert_eq, ?cell_insert_ne by discriminate;
      rewrite ?cell_insert_eq, ?cell_insert_ne by discriminate;
      first [assumption | reflexivity].
  - intros c Hc. unfold f8. rewrite elem_of_assign_columns, Cf7, Cf6, Cf5.
    clear -Hc. labels.
Qed.

Lemma count_name_pos (f g : DataFrame) (c : string) (e : gmap string scalar) :
  unknown_names f g c = ∅ -> e ∈ rows f -> 1 <= count_name g c (cell e c).
Proof.
  intros HD He. apply (unknown_names_empty _ _ _ _ HD), elem_of_column_values in He
    as (r & Hr & E).
  unfold count_name.
  assert (Hin : r ∈ filter (fun r' => cell e c = cell r' c) (rows g)).
  { apply list_elem_of_filter. auto. }
  destruct (filter _ _); [now apply elem_of_nil in Hin | cbn; lia].
Qed.

Lemma sum_list_with_ge_length {A : Type} (g : A -> nat) (l : list A) :
  Forall (fun x => 1 <= g x) l -> length l <= sum_list_with g l.
Proof. induction 1; cbn [sum_list_with length]; lia. Qed.

(** X6: for every project that [Project] returned, whether or not names
    repeat in its task and worker tables, [compute_costs] returns a frame;
    each of its rows is the cost row of a timesheet entry; and an entry gives
    as many rows as there are pairs of a task row and a worker row with its
    names, which is at least one: no entry is lost, and repeated names
    multiply the rows. *)
Theorem compute_costs_rows_per_entry (args : list PyVal) (p : Project) (ts : DataFrame) :
  Project_new args = Ok p ->
  timesheet_df p = Some ts ->
  exists f, compute_costs p = Ok f
    /\ Forall (fun r => exists e, e ∈ rows ts /\ cost_row_of p e r) (rows f)
    /\ length (rows f)
       = sum_list_with (fun e => count_name (tasks_df p) "task" (cell e "task")
                                 * count_name (workers_df p) "worker" (cell e "worker"))
           (rows ts)
    /\ length (rows ts) <= length (rows f).
Proof.
  intros Hnew Hts.
  destruct (Project_new_validated _ _ Hnew) as (ts' & Hv & _).
  assert (ts' = ts) as -> by (destruct Hv as [E]; congruence).
  destruct (compute_costs_validated_all p ts Hv) as (f & Hf & Hlen & Hrows & _).
  exists f. split; [exact Hf|]. split; [exact Hrows|]. split; [exact Hlen|].
  rewrite Hlen. apply sum_list_with_ge_length, Forall_forall. intros e He.
  destruct Hv as [_ _ _ _ _ _ _ Dt Dw].
  pose proof (count_name_pos _ _ _ _ Dt He). pose proof (count_name_pos _ _ _ _ Dw He).
  nia.
Qed.

Lemma compute_costs_rows_per_entry_witness :
  Project_new Sample.args_duplicate = Ok Sample.project_duplicate
  /\ timesheet_df Sample.project_duplicate = Some Sample.timesheet_one
  /\ exists f, compute_costs Sample.project_duplicate = Ok f
       /\ length (rows f)
          = sum_list_with
              (fun e => count_name Sample.tasks_duplicate "task" (cell e "task")
                        * count_name Sample.workers "worker" (cell e "worker"))
              (rows Sample.timesheet_one)
       /\ length (rows Sample.timesheet_one) <= length (rows f).
Proof.
  assert (H : Project_new Sample.args_duplicate = Ok Sample.project_duplicate)
    by (vm_compute; reflexivity).
  split; [exact H|]. split; [reflexivity|].
  destruct (compute_costs_rows_per_entry Sample.args_duplicate Sample.project_duplicate
              Sample.timesheet_one H eq_refl) as (f & H1 & _ & H3 & H4).
  exists f. auto.
Defined.

(** X7: for a project that [Project] returned with a timesheet that has no
    entry, [summarize] with no grouping key raises [IndexError]: [my_agg]
    takes the first rate of an empty column. *)
Theorem summarize_empty_timesheet (TimeGrouper : string -> Z -> Z)
    (args : list PyVal) (p : Project) (ts : DataFrame) :
  Project_new args = Ok p ->
  timesheet_df p = Some ts ->
  rows ts = [] ->
  summarize TimeGrouper p false false None = Err IndexError.
Proof.
  intros Hnew Hts Hnil.
  destruct (Project_new_validated _ _ Hnew) as (ts' & Hv & _).
  assert (ts' = ts) as -> by (destruct Hv as [E]; congruence).
  destruct (compute_costs_validated_all p ts Hv) as (f & Hf & Hlen & _ & Cf).
  rewrite Hnil in Hlen. cbn in Hlen. apply length_zero_iff_nil in Hlen.
  unfold summarize. rewrite Hts, Hf. cbn [mbind result_bind app].
  unfold my_agg.
  rewrite (getitem_elem f "duration" (Cf "duration" ltac:(in_list))), Hlen.
  cbn [mbind result_bind fmap list_fmap].
  change (Series_sum []) with (Ok fzero : result float64). cbn [mbind result_bind].
  rewrite (getitem_elem f "rate" (Cf "rate" ltac:(in_list))), Hlen. reflexivity.
Qed.

Lemma summarize_empty_timesheet_witness :
  Project_new Sample.args_empty_timesheet = Ok Sample.project_empty_timesheet
  /\ timesheet_df Sample.project_empty_timesheet = Some Sample.timesheet_empty
  /\ rows Sample.timesheet_empty = []
  /\ summarize Sample.weekly Sample.project_empty_timesheet false false None
     = Err IndexError.
Proof.
  assert (H : Project_new Sample.args_empty_timesheet
              = Ok Sample.project_empty_timesheet) by (vm_compute; reflexivity).
  split; [exact H|]. split; [reflexivity|]. split; [reflexivity|].
  exact (summarize_empty_timesheet Sample.weekly Sample.args_empty_timesheet
           Sample.project_empty_timesheet Sample.timesheet_empty H eq_refl eq_refl).
Defined.


(** ** The shape of the summary *)

Lemma setitem_Ok (g h : DataFrame) (c : string) (vs : list scalar) :
  setitem g c vs = Ok h ->
  columns h = (if decide (c ∈ columns g) then columns g else columns g ++ [c])
  /\ rows h = zip_with (fun r v => <[c := v]> r) (rows g) vs.
Proof.
  unfold setitem. destruct (decide (length vs = _)); [|discriminate].
  intros [= <-]. auto.
Qed.

Lemma drop_Ok_inv (g h : DataFrame) (c : string) :
  drop g c = Ok h ->
  c ∈ columns g
  /\ h = mkDataFrame (filter (fun c' => c' <> c) (columns g)) (delete c <$> rows g).
Proof.
  unfold drop. destruct (decide (c ∈ columns g)); [|discriminate].
  intros [= <-]. auto.
Qed.

Lemma group_of_nil (f : DataFrame) : group_of f [] [] = f.
Proof.
  destruct f as [cs rs]. unfold group_of. cbn [columns rows]. f_equal.
  induction rs as [|r rs IH]; [reflexivity|].
  rewrite filter_cons, decide_True by reflexivity. now rewrite IH.
Qed.

Lemma cell_agg_row (labels : list string) (k : list scalar) (d c : float64)
    (rt tb : scalar) :
  (forall x, x ∉ ["date"; "task"; "worker"] -> x ∉ labels) ->
  let row := (list_to_map (zip labels k ++
                [("duration", SFloat d); ("rate", rt); ("cost", SFloat c);
                 ("task_budget", tb)]) : gmap string scalar) in
  cell row "duration" = SFloat d /\ cell row "rate" = rt
  /\ cell row "cost" = SFloat c /\ cell row "task_budget" = tb.
Proof.
  intros Hn. cbn zeta.
  rewrite !cell_list_to_map_zip by (apply Hn; clear; intros H; labels).
  repeat split.
Qed.

(** The frame before the columns are shaped: its header, and the aggregate
    each of its rows holds. *)
Lemma summarize_groups (f g0 : DataFrame) (labels : list string) :
  match labels with
  | [] => exists s, my_agg f = Ok s /\ g0 = mkDataFrame (s.*1) [list_to_map s]
  | c :: cs => groupby_apply f (c :: cs) = Ok g0
  end ->
  NoDup labels ->
  (forall c, c ∈ labels -> c ∈ ["date"; "task"; "worker"]) ->
  g0 = mkDataFrame ["index"] []
  \/ (columns g0 = labels ++ ["duration"; "rate"; "cost"; "task_budget"]
      /\ Forall (fun row =>
           exists d rt c tb,
             Series_sum (column_values (group_of f labels (row_key labels row)) "duration")
               = Ok d
             /\ iat0 (column_values (group_of f labels (row_key labels row)) "rate") = Ok rt
             /\ Series_sum (column_values (group_of f labels (row_key labels row)) "cost")
                = Ok c
             /\ iat0 (column_values (group_of f labels (row_key labels row)) "task_budget")
                = Ok tb
             /\ cell row "duration" = SFloat d /\ cell row "rate" = rt
             /\ cell row "cost" = SFloat c /\ cell row "task_budget" = tb) (rows g0)).
Proof.
  intros Hg0 Hnd Hlab.
  assert (Hn : forall c, c ∉ ["date"; "task"; "worker"] -> c ∉ labels).
  { intros c Hc Hin. apply Hc, Hlab, Hin. }
  assert (Hrow : forall k s,
            length k = length labels ->
            my_agg (group_of f labels k) = Ok s ->
            exists d rt c tb,
              let row := (list_to_map (zip labels k ++ s) : gmap string scalar) in
              Series_sum (column_values (group_of f labels (row_key labels row)) "duration")
                = Ok d
              /\ iat0 (column_values (group_of f labels (row_key labels row)) "rate") = Ok rt
              /\ Series_sum (column_values (group_of f labels (row_key labels row)) "cost")
                 = Ok c
              /\ iat0 (column_values (group_of f labels (row_key labels row)) "task_budget")
                 = Ok tb
              /\ cell row "duration" = SFloat d /\ cell row "rate" = rt
              /\ cell row "cost" = SFloat c /\ cell row "task_budget" = tb).
  { intros k s Hlen Hs.
    apply my_agg_Ok in Hs as (d & rt & c & tb & -> & Hd & Hrt & Hc & Htb).
    exists d, rt, c, tb. cbn zeta.
    rewrite (row_key_zip labels k _ Hnd Hlen).
    destruct (cell_agg_row labels k d c rt tb Hn) as (E1 & E2 & E3 & E4).
    rewrite E1, E2, E3, E4. auto 10. }
  destruct labels as [|c0 cs].
  - right. destruct Hg0 as (s & Hs & ->). cbn [columns rows app].
    rewrite <- (group_of_nil f) in Hs.
    destruct (Hrow [] s eq_refl Hs) as (d & rt & c & tb & H).
    pose proof Hs as Hs'.
    apply my_agg_Ok in Hs' as (d' & rt' & c' & tb' & -> & _).
    split; [reflexivity|]. constructor; [|constructor]. exists d, rt, c, tb. exact H.
  - apply groupby_apply_Ok in Hg0 as [-> | [Hc Hrows]]; [now left | right].
    split; [exact Hc|]. eapply Forall_impl; [exact Hrows|].
    intros row (r & s & _ & Hs & ->).
    apply (Hrow (row_key (c0 :: cs) r) s); [|exact Hs].
    unfold row_key. apply length_fmap.
Qed.

Lemma filter_all {A : Type} (P : A -> Prop) `{forall x, Decision (P x)} (l : list A) :
  Forall P l -> filter P l = l.
Proof.
  induction 1 as [|x l Hx _ IH]; [reflexivity|].
  rewrite filter_cons, decide_True by assumption. now rewrite IH.
Qed.

Lemma agree_off_insert (S : list string) (r : gmap string scalar) (c : string) (v : scalar) :
  c ∈ S -> agree_off S r (<[c := v]> r).
Proof. intros Hc c' Hc'. apply cell_insert_ne. intros ->. contradiction. Qed.

Lemma agree_off_delete (S : list string) (r : gmap string scalar) (c : string) :
  c ∈ S -> agree_off S r (delete c r).
Proof. intros Hc c' Hc'. apply cell_delete_ne. intros ->. contradiction. Qed.

Lemma agree_off_trans (S : list string) (r1 r2 r3 : gmap string scalar) :
  agree_off S r1 r2 -> agree_off S r2 r3 -> agree_off S r1 r3.
Proof. intros H1 H2 c Hc. rewrite (H2 c Hc). now apply H1. Qed.

(** The shaping of the columns at the end of [summarize]. *)
Lemma summarize_shaping (n : number) (by_task by_worker : bool)
    (g0 g2 g : DataFrame) (L : list string) :
  columns g0 = L ++ ["duration"; "rate"; "cost"; "task_budget"] ->
  (forall c, c ∈ L -> c ∈ ["date"; "task"; "worker"]) ->
  (if by_task then
     c ← getitem g0 "cost";
     tb ← getitem g0 "task_budget";
     q ← Series_binop fdiv c tb;
     g ← setitem g0 "cost/task_budget" q;
     c ← getitem g "cost";
     q ← Series_div_number c n;
     setitem g "cost/project_budget" q
   else
     g ← drop g0 "task_budget";
     c ← getitem g "cost";
     q ← Series_div_number c n;
     setitem g "cost/project_budget" q) = Ok g2 ->
  (if by_worker then Ok g2 else drop g2 "rate") = Ok g ->
  columns g = L ++ ["duration"] ++ (if by_worker then ["rate"] else []) ++ ["cost"]
              ++ (if by_task then ["task_budget"; "cost/task_budget"] else [])
              ++ ["cost/project_budget"]
  /\ Forall (fun row => exists row0,
               row0 ∈ rows g0
               /\ agree_off (shaped_labels by_worker) row0 row
               /\ cell row "cost/project_budget"
                  = SFloat (fdiv (float_of (cell row0 "cost")) (number_to_float n)))
       (rows g).
Proof.
  intros Hc0 HL Hg2 Hg.
  assert (HLn : forall c, c ∉ ["date"; "task"; "worker"] -> c ∉ L).
  { intros c Hc Hin. apply Hc, HL, Hin. }
  assert (HLf : forall x, x ∉ ["date"; "task"; "worker"] ->
                  filter (fun c' => c' <> x) L = L).
  { intros x Hx. apply filter_all, Forall_forall. intros c Hc ->. now apply (HLn x). }
  (* the frame before [rate] is dropped *)
  assert (H2 : columns g2 = L ++ ["duration"; "rate"; "cost"]
                           ++ (if by_task then ["task_budget"; "cost/task_budget"] else [])
                           ++ ["cost/project_budget"]
               /\ Forall (fun row => exists row0,
                            row0 ∈ rows g0
                            /\ agree_off ["task_budget"; "cost/task_budget";
                                          "cost/project_budget"] row0 row
                            /\ cell row "cost/project_budget"
                               = SFloat (fdiv (float_of (cell row0 "cost"))
                                           (number_to_float n))) (rows g2)).
  { destruct by_task.
    - bind_inv Hg2 as c Hc. apply getitem_Ok in Hc as [_ ->].
      bind_inv Hg2 as tb Htb. apply getitem_Ok in Htb as [_ ->].
      bind_inv Hg2 as q Hq. apply Series_binop_fmap_Ok in Hq as ->.
      rewrite setitem_assign in Hg2. bind_inv Hg2 as g1 Hg1. injection Hg1 as <-.
      bind_inv Hg2 as c1 Hc1. apply getitem_Ok in Hc1 as [_ ->].
      bind_inv Hg2 as q1 Hq1. apply Series_div_number_fmap_Ok in Hq1 as ->.
      rewrite setitem_assign in Hg2. injection Hg2 as <-. split.
      + cbn [assign columns]. rewrite Hc0.
        rewrite (decide_False (P := "cost/task_budget" ∈ _)); cycle 1.
        { rewrite elem_of_app. intros [H|H]; [|clear -H; labels].
          revert H. apply HLn. clear. intros H. labels. }
        rewrite (decide_False (P := "cost/project_budget" ∈ _)); cycle 1.
        { rewrite !elem_of_app. intros [[H|H]|H]; [|clear -H; labels|clear -H; labels].
          revert H. apply HLn. clear. intros H. labels. }
        rewrite <- !app_assoc. reflexivity.
      + cbn [assign rows]. rewrite <- list_fmap_compose.
        apply Forall_fmap, Forall_forall. intros row0 Hin. cbn [compose].
        exists row0. split; [exact Hin|]. split.
        * eapply agree_off_trans; apply agree_off_insert; in_list.
        * rewrite cell_insert_eq, cell_insert_ne by discriminate. reflexivity.
    - bind_inv Hg2 as g1 Hg1. apply drop_Ok_inv in Hg1 as [_ ->].
      bind_inv Hg2 as c1 Hc1. apply getitem_Ok in Hc1 as [_ ->].
      bind_inv Hg2 as q1 Hq1. cbn [rows] in Hq1.
      apply Series_div_number_fmap_Ok in Hq1 as ->.
      rewrite setitem_assign in Hg2. injection Hg2 as <-. split.
      + cbn [assign columns]. rewrite Hc0, filter_app.
        rewrite (HLf "task_budget") by (clear; intros H; labels).
        change (filter (fun c' => c' <> "task_budget")
                  ["duration"; "rate"; "cost"; "task_budget"])
          with ["duration"; "rate"; "cost"].
        rewrite (decide_False (P := "cost/project_budget" ∈ _)); cycle 1.
        { rewrite elem_of_app. intros [H|H]; [|clear -H; labels].
          revert H. apply HLn. clear. intros H. labels. }
        rewrite <- !app_assoc. reflexivity.
      + cbn [assign rows]. rewrite <- list_fmap_compose.
        apply Forall_fmap, Forall_forall. intros row0 Hin. cbn [compose].
        exists row0. split; [exact Hin|]. split.
        * eapply agree_off_trans; [apply agree_off_delete | apply agree_off_insert]; in_list.
        * rewrite cell_insert_eq, cell_delete_ne by discriminate. reflexivity. }
  destruct H2 as [C2 R2]. destruct by_worker.
  - injection Hg as <-. split.
    + rewrite C2. reflexivity.
    + eapply Forall_impl; [exact R2|]. intros row (row0 & Hin & Ha & Hp).
      exists row0. split; [exact Hin|]. split; [|exact Hp].
      intros c Hc. apply Ha. unfold shaped_labels in Hc. now rewrite app_nil_r in Hc.
  - apply drop_Ok_inv in Hg as [_ ->]. split.
    + cbn [columns]. rewrite C2, filter_app.
      rewrite (HLf "rate") by (clear; intros H; labels).
      destruct by_task; reflexivity.
    + cbn [rows]. apply Forall_fmap. eapply Forall_impl; [exact R2|].
      intros row (row0 & Hin & Ha & Hp). cbn [compose].
      exists row0. split; [exact Hin|]. split.
      * intros c Hc. rewrite cell_delete_ne.
        -- apply Ha. intros H. apply Hc. unfold shaped_labels.
           apply elem_of_app. now left.
        -- intros <-. apply Hc. unfold shaped_labels. apply elem_of_app. right. left.
      * rewrite cell_delete_ne by discriminate. exact Hp.
Qed.


Lemma summarize_parts (TimeGrouper : string -> Z -> Z) (p : Project)
    (by_task by_worker : bool) (freq : option string) (g : DataFrame) :
  summarize TimeGrouper p by_task by_worker freq = Ok g ->
  exists f g0,
    grouping_frame TimeGrouper p freq = Ok f
    /\ columns g0
       = group_labels by_task by_worker freq ++ ["duration"; "rate"; "cost"; "task_budget"]
    /\ Forall (fun row =>
         let labels := group_labels by_task by_worker freq in
         exists d rt c tb,
           Series_sum (column_values (group_of f labels (row_key labels row)) "duration")
             = Ok d
           /\ iat0 (column_values (group_of f labels (row_key labels row)) "rate") = Ok rt
           /\ Series_sum (column_values (group_of f labels (row_key labels row)) "cost")
              = Ok c
           /\ iat0 (column_values (group_of f labels (row_key labels row)) "task_budget")
              = Ok tb
           /\ cell row "duration" = SFloat d /\ cell row "rate" = rt
           /\ cell row "cost" = SFloat c /\ cell row "task_budget" = tb) (rows g0)
    /\ columns g = summary_header by_task by_worker freq
    /\ Forall (fun row => exists row0,
                 row0 ∈ rows g0
                 /\ agree_off (shaped_labels by_worker) row0 row
                 /\ cell row "cost/project_budget"
                    = SFloat (fdiv (float_of (cell row0 "cost"))
                                (number_to_float (budget p)))) (rows g).
Proof.
  intros H. apply summarize_Ok in H as (f & g0 & g2 & Hf & Hg0 & Hg2 & Hg).
  destruct (group_labels_spec by_task by_worker freq) as [Hnd Hlab].
  apply summarize_groups in Hg0 as [-> | [Hc0 Hrows0]]; try assumption.
  { exfalso. destruct by_task.
    - bind_inv Hg2 as c Hc. apply getitem_Ok in Hc as [Hc _].
      cbn [columns] in Hc. clear -Hc. labels.
    - bind_inv Hg2 as g1 Hg1. apply drop_Ok_inv in Hg1 as [Hc _].
      cbn [columns] in Hc. clear -Hc. labels. }
  destruct (summarize_shaping _ _ _ _ _ _ _ Hc0 Hlab Hg2 Hg) as [Hc Hrows].
  exists f, g0. auto.
Qed.

(** X8: the header of every frame that [summarize] returns: the grouping
    labels (date, task, worker, as requested), then duration, then rate when
    grouping by worker, then cost, then task_budget and cost/task_budget when
    grouping by task, then cost/project_budget. *)
Theorem summarize_header (TimeGrouper : string -> Z -> Z) (p : Project)
    (by_task by_worker : bool) (freq : option string) (g : DataFrame) :
  summarize TimeGrouper p by_task by_worker freq = Ok g ->
  columns g = summary_header by_task by_worker freq.
Proof.
  intros H. apply summarize_parts in H as (f & g0 & _ & _ & _ & Hc & _).
  exact Hc.
Qed.

Lemma summarize_header_witness :
  summarize Sample.weekly Sample.project true false None = Ok Sample.summary_by_task
  /\ columns Sample.summary_by_task = summary_header true false None.
Proof.
  assert (H : summarize Sample.weekly Sample.project true false None
              = Ok Sample.summary_by_task) by (vm_compute; reflexivity).
  split; [exact H|].
  exact (summarize_header Sample.weekly Sample.project true false None
           Sample.summary_by_task H).
Defined.




(** ** The spreadsheet handler *)

Lemma parse_app a b h : parse (a ++ b) h = parse b (parse a h).
Proof. apply fold_left_app. Qed.

Lemma parse_cons e b h : parse (e :: b) h = parse b (handle h e).
Proof. reflexivity. Qed.

Lemma parse_inert evs h :
  forallb inert evs = true ->
  parse evs h = ExcelHandler.mk (ExcelHandler.chars h ++ texts evs) (ExcelHandler.cells h) (ExcelHandler.rows h) (ExcelHandler.tables h)
                  (ExcelHandler.cell_lists h) (ExcelHandler.row_lists h).
Proof.
  revert h. induction evs as [|e evs IH]; intros h H.
  - cbn. rewrite app_nil_r. now destruct h.
  - cbn [forallb] in H. apply andb_true_iff in H as [He H].
    rewrite parse_cons, (IH _ H). destruct e as [c|n|n]; cbn in He |- *.
    + now rewrite <- app_assoc.
    + unfold ExcelHandler.startElement.
      apply negb_true_iff, bool_decide_eq_false in He.
      repeat (destruct (decide _) as [->|_];
              [exfalso; apply He; solve [repeat (first [left | right])]|]).
      reflexivity.
    + unfold ExcelHandler.endElement.
      apply negb_true_iff, bool_decide_eq_false in He.
      repeat (destruct (decide _) as [->|_];
              [exfalso; apply He; solve [repeat (first [left | right])]|]).
      reflexivity.
Qed.

Lemma parse_cell c h :
  inert_cell c = true ->
  parse (cell_events c) h
  = ExcelHandler.mk (texts (in_cell c)) (ExcelHandler.cells h) (ExcelHandler.rows h) (ExcelHandler.tables h)
      (alter (fun l => l ++ [cell_text c]) (ExcelHandler.cells h) (ExcelHandler.cell_lists h)) (ExcelHandler.row_lists h).
Proof.
  intros H. apply andb_true_iff in H as [Hb Hi]. unfold cell_events. cbn [app].
  rewrite parse_app, (parse_inert _ _ Hb), parse_cons. cbn [handle].
  unfold ExcelHandler.startElement. rewrite decide_True by reflexivity.
  rewrite parse_app, (parse_inert _ _ Hi). cbn. reflexivity.
Qed.

Lemma alter_alter_app {A} (l : list (list A)) i (x y : list A) :
  alter (fun l => l ++ y) i (alter (fun l => l ++ x) i l) = alter (fun l => l ++ x ++ y) i l.
Proof.
  revert i. induction l as [|a l IH]; intros [|i]; cbn; try reflexivity.
  - now rewrite <- app_assoc.
  - f_equal. apply IH.
Qed.

Lemma alter_app_nil {A} (l : list (list A)) i :
  alter (fun l => l ++ []) i l = l.
Proof.
  revert i. induction l as [|a l IH]; intros [|i]; cbn; try reflexivity.
  - now rewrite app_nil_r.
  - f_equal. apply IH.
Qed.

Lemma alter_last {A} (g : A -> A) (l : list A) x :
  alter g (length l) (l ++ [x]) = l ++ [g x].
Proof. induction l as [|a l IH]; cbn; [reflexivity|]. f_equal. apply IH. Qed.

Lemma parse_cells cs h :
  forallb inert_cell cs = true ->
  exists ch,
    parse (concat (cell_events <$> cs)) h
    = ExcelHandler.mk ch (ExcelHandler.cells h) (ExcelHandler.rows h) (ExcelHandler.tables h)
        (alter (fun l => l ++ (cell_text <$> cs)) (ExcelHandler.cells h) (ExcelHandler.cell_lists h)) (ExcelHandler.row_lists h).
Proof.
  revert h. induction cs as [|c cs IH]; intros h H.
  - exists (ExcelHandler.chars h). cbn. rewrite alter_app_nil. now destruct h.
  - cbn [forallb] in H. apply andb_true_iff in H as [Hc H].
    rewrite fmap_cons. cbn [concat]. rewrite parse_app, (parse_cell _ _ Hc).
    destruct (IH (ExcelHandler.mk (texts (in_cell c)) (ExcelHandler.cells h) (ExcelHandler.rows h) (ExcelHandler.tables h)
      (alter (fun l => l ++ [cell_text c]) (ExcelHandler.cells h) (ExcelHandler.cell_lists h)) (ExcelHandler.row_lists h)) H)
      as [ch E].
    exists ch. rewrite E. cbn. now rewrite alter_alter_app.
Qed.

Lemma parse_stray_row rs h :
  inert_row rs.1 = true -> forallb inert_cell rs.2 = true ->
  exists ch,
    parse (stray_row_events rs) h
    = ExcelHandler.mk ch (length (ExcelHandler.cell_lists h)) (ExcelHandler.rows h) (ExcelHandler.tables h)
        (ExcelHandler.cell_lists h ++ [cell_text <$> (row_cells rs.1 ++ rs.2)])
        (alter (fun l => l ++ [length (ExcelHandler.cell_lists h)]) (ExcelHandler.rows h) (ExcelHandler.row_lists h)).
Proof.
  destruct rs as [r stray]. cbn [fst snd]. intros H Hs.
  apply andb_true_iff in H as [H He]. apply andb_true_iff in H as [Hb Hc].
  unfold stray_row_events, row_events. cbn [fst snd app].
  rewrite !parse_app, (parse_inert _ _ Hb), parse_cons. cbn [handle].
  unfold ExcelHandler.startElement. rewrite decide_False by discriminate.
  rewrite decide_True by reflexivity. cbn [ExcelHandler.chars ExcelHandler.cells ExcelHandler.rows ExcelHandler.tables ExcelHandler.cell_lists ExcelHandler.row_lists].
  rewrite !parse_app.
  match goal with |- context [parse (concat (cell_events <$> row_cells r)) ?h0] =>
    destruct (parse_cells _ h0 Hc) as [ch E]; rewrite E end.
  cbn [ExcelHandler.chars ExcelHandler.cells ExcelHandler.rows ExcelHandler.tables ExcelHandler.cell_lists ExcelHandler.row_lists].
  rewrite (parse_inert _ _ He), parse_cons. cbn [handle parse fold_left].
  unfold ExcelHandler.endElement. rewrite decide_False by discriminate.
  rewrite decide_True by reflexivity. cbn [ExcelHandler.chars ExcelHandler.cells ExcelHandler.rows ExcelHandler.tables ExcelHandler.cell_lists ExcelHandler.row_lists].
  match goal with |- context [parse (concat (cell_events <$> stray)) ?h0] =>
    destruct (parse_cells _ h0 Hs) as [ch' E']; rewrite E' end.
  cbn [ExcelHandler.chars ExcelHandler.cells ExcelHandler.rows ExcelHandler.tables ExcelHandler.cell_lists ExcelHandler.row_lists].
  exists ch'. f_equal.
  rewrite alter_alter_app, alter_last. cbn [app]. now rewrite fmap_app.
Qed.

Lemma parse_stray_rows rss h RL l :
  Forall (fun rs => inert_row rs.1 = true /\ forallb inert_cell rs.2 = true) rss ->
  ExcelHandler.row_lists h = RL ++ [l] -> ExcelHandler.rows h = length RL ->
  exists ch c,
    parse (concat (stray_row_events <$> rss)) h
    = ExcelHandler.mk ch c (ExcelHandler.rows h) (ExcelHandler.tables h)
        (ExcelHandler.cell_lists h ++ (stray_texts <$> rss))
        (RL ++ [l ++ seq (length (ExcelHandler.cell_lists h)) (length rss)]).
Proof.
  revert h l. induction rss as [|rs rss IH]; intros h l H HRL Hrows.
  - exists (ExcelHandler.chars h), (ExcelHandler.cells h). cbn. rewrite !app_nil_r, <- HRL. now destruct h.
  - apply Forall_cons in H as [[Hr Hs] H].
    rewrite fmap_cons. cbn [concat]. rewrite parse_app.
    destruct (parse_stray_row rs h Hr Hs) as [ch E]. rewrite E.
    rewrite HRL, Hrows, alter_last.
    match goal with |- context [parse _ ?h0] =>
      destruct (IH h0 (l ++ [length (ExcelHandler.cell_lists h)]) H eq_refl eq_refl) as (ch' & c' & E') end.
    rewrite E'. cbn [ExcelHandler.chars ExcelHandler.cells ExcelHandler.rows ExcelHandler.tables ExcelHandler.cell_lists ExcelHandler.row_lists].
    exists ch', c'. f_equal.
    + rewrite fmap_cons, <- app_assoc. reflexivity.
    + rewrite <- app_assoc. cbn [app length seq]. rewrite length_app. cbn [length].
      now rewrite Nat.add_1_r.
Qed.

Lemma parse_stray_table before rss tend h :
  forallb inert before = true ->
  Forall (fun rs => inert_row rs.1 = true /\ forallb inert_cell rs.2 = true) rss ->
  forallb inert tend = true ->
  exists ch c,
    parse (stray_table_events before rss tend) h
    = ExcelHandler.mk ch c (length (ExcelHandler.row_lists h)) (ExcelHandler.tables h ++ [length (ExcelHandler.row_lists h)])
        (ExcelHandler.cell_lists h ++ (stray_texts <$> rss))
        (ExcelHandler.row_lists h ++ [seq (length (ExcelHandler.cell_lists h)) (length rss)]).
Proof.
  intros Hb H He. unfold stray_table_events. cbn [app].
  rewrite !parse_app, (parse_inert _ _ Hb), parse_cons. cbn [handle].
  unfold ExcelHandler.startElement. rewrite !decide_False by discriminate.
  rewrite decide_True by reflexivity. cbn [ExcelHandler.chars ExcelHandler.cells ExcelHandler.rows ExcelHandler.tables ExcelHandler.cell_lists ExcelHandler.row_lists].
  rewrite !parse_app.
  match goal with |- context [parse (concat _) ?h0] =>
    destruct (parse_stray_rows rss h0 (ExcelHandler.row_lists h) [] H eq_refl eq_refl) as (ch & c & E) end.
  rewrite E. cbn [ExcelHandler.chars ExcelHandler.cells ExcelHandler.rows ExcelHandler.tables ExcelHandler.cell_lists ExcelHandler.row_lists].
  rewrite (parse_inert _ _ He), parse_cons. cbn [handle parse fold_left].
  unfold ExcelHandler.endElement. rewrite !decide_False by discriminate.
  rewrite decide_True by reflexivity. cbn [ExcelHandler.chars ExcelHandler.cells ExcelHandler.rows ExcelHandler.tables ExcelHandler.cell_lists ExcelHandler.row_lists app].
  eauto.
Qed.

Lemma lookup_seq_app {A} (d : A) (T CL : list A) :
  (fun i => default d ((CL ++ T) !! i)) <$> seq (length CL) (length T) = T.
Proof.
  revert CL. induction T as [|x T IH]; intros CL; [reflexivity|].
  cbn [length seq]. rewrite fmap_cons. f_equal.
  - now rewrite list_lookup_middle.
  - specialize (IH (CL ++ [x])). rewrite <- app_assoc, length_app in IH.
    cbn in IH. rewrite Nat.add_1_r in IH. exact IH.
Qed.

Lemma tables_of_extend h ch c r T CLx RLx :
  handler_wf h ->
  ExcelHandler.tables_of (ExcelHandler.mk ch c r (ExcelHandler.tables h ++ T) (ExcelHandler.cell_lists h ++ CLx) (ExcelHandler.row_lists h ++ RLx))
  = ExcelHandler.tables_of h
    ++ (ExcelHandler.rows_at (ExcelHandler.mk ch c r (ExcelHandler.tables h ++ T) (ExcelHandler.cell_lists h ++ CLx) (ExcelHandler.row_lists h ++ RLx)) <$> T).
Proof.
  intros [Ht Hr]. unfold ExcelHandler.tables_of. cbn [ExcelHandler.tables]. rewrite fmap_app. f_equal.
  apply Forall_fmap_ext. eapply Forall_impl; [exact Ht|].
  intros j Hj. unfold ExcelHandler.rows_at. cbn [ExcelHandler.row_lists].
  rewrite lookup_app_l by exact Hj.
  destruct (ExcelHandler.row_lists h !! j) as [refs|] eqn:E; [|reflexivity]. cbn [default].
  apply Forall_fmap_ext.
  eapply Forall_impl; [exact (proj1 (Forall_lookup _ _) Hr j refs E)|].
  intros i Hi. unfold ExcelHandler.cells_at. cbn [ExcelHandler.cell_lists]. now rewrite lookup_app_l.
Qed.

Lemma parse_stray_table_view before rss tend h :
  forallb inert before = true ->
  Forall (fun rs => inert_row rs.1 = true /\ forallb inert_cell rs.2 = true) rss ->
  forallb inert tend = true ->
  handler_wf h ->
  handler_wf (parse (stray_table_events before rss tend) h)
  /\ ExcelHandler.tables_of (parse (stray_table_events before rss tend) h)
     = ExcelHandler.tables_of h ++ [stray_texts <$> rss].
Proof.
  intros Hb H He Hwf.
  destruct (parse_stray_table before rss tend h Hb H He) as (ch & c & E).
  rewrite E. split.
  - destruct Hwf as [Ht Hr]. split; cbn [ExcelHandler.tables ExcelHandler.row_lists ExcelHandler.cell_lists].
    + rewrite length_app. cbn. apply Forall_app. split.
      * eapply Forall_impl; [exact Ht|]. cbn. lia.
      * repeat constructor. lia.
    + rewrite length_app, length_fmap. apply Forall_app. split.
      * eapply Forall_impl; [exact Hr|]. cbn. intros l Hl.
        eapply Forall_impl; [exact Hl|]. cbn. lia.
      * repeat constructor. apply Forall_forall. intros i Hi.
        apply elem_of_seq in Hi. lia.
  - rewrite (tables_of_extend h _ _ _ _ _ _ Hwf). f_equal. cbn [fmap list_fmap].
    f_equal. unfold ExcelHandler.rows_at. cbn [ExcelHandler.row_lists].
    rewrite list_lookup_middle by reflexivity. cbn [default].
    unfold ExcelHandler.cells_at. cbn [ExcelHandler.cell_lists].
    rewrite <- (length_fmap stray_texts rss). apply lookup_seq_app.
Qed.

Lemma stray_none rs :
  concat (stray_row_events <$> ((fun r => (r, [])) <$> rs)) = concat (row_events <$> rs).
Proof.
  induction rs as [|r rs IH]; [reflexivity|].
  rewrite !fmap_cons. cbn [concat]. rewrite IH. unfold stray_row_events. cbn.
  now rewrite app_nil_r.
Qed.

Lemma parse_table_view t h :
  inert_table t = true -> handler_wf h ->
  handler_wf (parse (table_events t) h)
  /\ ExcelHandler.tables_of (parse (table_events t) h) = ExcelHandler.tables_of h ++ [table_texts t].
Proof.
  intros H Hwf. apply andb_true_iff in H as [H He]. apply andb_true_iff in H as [Hb Hr].
  assert (Ev : table_events t
    = stray_table_events (before_table t) ((fun r => (r, [])) <$> table_rows t) (table_end t)).
  { unfold table_events, stray_table_events. now rewrite stray_none. }
  assert (Tx : table_texts t = stray_texts <$> ((fun r => (r, [])) <$> table_rows t)).
  { unfold table_texts. rewrite <- list_fmap_compose. apply list_fmap_ext.
    intros i r _. unfold stray_texts, row_texts. cbn. now rewrite app_nil_r. }
  rewrite Ev, Tx. apply parse_stray_table_view; try assumption.
  apply Forall_fmap. apply Forall_forall. intros r Hr'. cbn. split; [|reflexivity].
  rewrite forallb_forall in Hr. apply Hr. now apply list_elem_of_In.
Qed.

Lemma parse_tables_view d h :
  forallb inert_table d = true -> handler_wf h ->
  handler_wf (parse (concat (table_events <$> d)) h)
  /\ ExcelHandler.tables_of (parse (concat (table_events <$> d)) h) = ExcelHandler.tables_of h ++ (table_texts <$> d).
Proof.
  revert h. induction d as [|t d IH]; intros h H Hwf.
  - cbn. rewrite app_nil_r. now split.
  - cbn [forallb] in H. apply andb_true_iff in H as [Ht H].
    rewrite fmap_cons. cbn [concat]. rewrite parse_app.
    destruct (parse_table_view t h Ht Hwf) as [Hwf' E].
    destruct (IH _ H Hwf') as [Hwf'' E'']. split; [exact Hwf''|].
    rewrite E'', E, fmap_cons, <- app_assoc. reflexivity.
Qed.

Lemma init_wf : handler_wf ExcelHandler.init.
Proof. split; cbn; repeat constructor. Qed.

Lemma tables_of_chars h evs :
  forallb inert evs = true -> ExcelHandler.tables_of (parse evs h) = ExcelHandler.tables_of h.
Proof. intros H. rewrite (parse_inert _ _ H). reflexivity. Qed.

(** X10: a spreadsheet whose tables hold rows of cells, with any character
    data and any other elements around and inside them, is read back as its
    tables, in order, each the list of its rows, each row the list of the
    texts of its cells; the text of a cell is all the character data inside
    it, joined. *)
Theorem parse_spreadsheet (d : list table_doc) (trailing : list sax_event) :
  forallb inert_table d = true -> forallb inert trailing = true ->
  ExcelHandler.tables_of (parse (concat (table_events <$> d) ++ trailing) ExcelHandler.init) = table_texts <$> d.
Proof.
  intros H Ht. rewrite parse_app, (tables_of_chars _ _ Ht).
  destruct (parse_tables_view d ExcelHandler.init H init_wf) as [_ E]. exact E.
Qed.

Lemma parse_spreadsheet_witness :
  forallb inert_table Sample.replicon_sheet = true
  /\ forallb inert [EndElement "Worksheet"; EndElement "Workbook"] = true
  /\ ExcelHandler.tables_of (parse Sample.replicon_events ExcelHandler.init)
     = table_texts <$> Sample.replicon_sheet.
Proof.
  split; [reflexivity|]. split; [reflexivity|].
  exact (parse_spreadsheet Sample.replicon_sheet
           [EndElement "Worksheet"; EndElement "Workbook"] eq_refl eq_refl).
Defined.

(** X11: the handler appends to [rows] the list [cells] itself, not a copy:
    in a table, the cells that come after the end of a row and before the
    next row starts are added to the row that has ended. *)
Theorem parse_stray_cells (before : list sax_event)
    (rss : list (row_doc * list cell_doc)) (tend : list sax_event) :
  forallb inert before = true ->
  forallb (fun rs => inert_row rs.1 && forallb inert_cell rs.2) rss = true ->
  forallb inert tend = true ->
  ExcelHandler.tables_of (parse (stray_table_events before rss tend) ExcelHandler.init)
  = [(fun rs => row_texts rs.1 ++ (cell_text <$> rs.2)) <$> rss].
Proof.
  intros Hb H He.
  assert (H' : Forall (fun rs => inert_row rs.1 = true /\ forallb inert_cell rs.2 = true) rss).
  { apply Forall_forall. intros rs Hrs. rewrite forallb_forall in H.
    apply andb_true_iff, H. now apply list_elem_of_In. }
  destruct (parse_stray_table_view before rss tend ExcelHandler.init Hb H' He init_wf) as [_ E].
  rewrite E. cbn [ExcelHandler.tables_of ExcelHandler.tables ExcelHandler.init fmap list_fmap app]. f_equal.
  apply list_fmap_ext. intros i rs _. unfold stray_texts, row_texts. now rewrite fmap_app.
Qed.

Lemma parse_stray_cells_witness :
  forallb (fun rs => inert_row rs.1 && forallb inert_cell rs.2) Sample.stray_rows = true
  /\ ExcelHandler.tables_of
       (parse (stray_table_events [] Sample.stray_rows []) ExcelHandler.init)
     = [[["a"; "b"]; ["c"; "d"; "e"]]].
Proof.
  split; [reflexivity|].
  exact (parse_stray_cells [] Sample.stray_rows [] eq_refl eq_refl eq_refl).
Defined.

(** ** Strings *)

Lemma string_app_cons (a : ascii) (s t : string) :
  (String a s ++ t)%string = String a (s ++ t)%string.
Proof. reflexivity. Qed.

Lemma string_app_nil_r (s : string) : (s ++ EmptyString)%string = s.
Proof. induction s as [|a s IH]; [reflexivity|]. rewrite string_app_cons. now f_equal. Qed.

Lemma string_app_assoc (s t u : string) : ((s ++ t) ++ u = s ++ (t ++ u))%string.
Proof. induction s as [|a s IH]; [reflexivity|]. rewrite !string_app_cons. now f_equal. Qed.

Lemma list_ascii_of_string_app (s t : string) :
  list_ascii_of_string (s ++ t) = list_ascii_of_string s ++ list_ascii_of_string t.
Proof.
  induction s as [|a s IH]; [reflexivity|].
  rewrite string_app_cons. cbn [list_ascii_of_string app]. now f_equal.
Qed.

Lemma string_of_list_ascii_app (l k : list ascii) :
  string_of_list_ascii (l ++ k) = (string_of_list_ascii l ++ string_of_list_ascii k)%string.
Proof.
  induction l as [|a l IH]; [reflexivity|].
  cbn [string_of_list_ascii app]. rewrite string_app_cons. now f_equal.
Qed.

Lemma string_length_list (s : string) :
  length (list_ascii_of_string s) = String.length s.
Proof.
  induction s as [|a s IH]; [reflexivity|].
  cbn [String.length list_ascii_of_string length]. now f_equal.
Qed.

(** ** [clean_worker] *)

Lemma split_comma_space_cons (a b : ascii) (rest cur : string) :
  split_comma_space (String a (String b rest)) cur
  = if (Ascii.eqb a "," && Ascii.eqb b " ")%bool
    then cur :: split_comma_space rest EmptyString
    else split_comma_space (String b rest) (cur ++ String a EmptyString).
Proof. reflexivity. Qed.

Lemma contains_comma_space_cons (a b : ascii) (rest : string) :
  contains_comma_space (String a (String b rest))
  = ((Ascii.eqb a "," && Ascii.eqb b " ") || contains_comma_space (String b rest))%bool.
Proof. reflexivity. Qed.

Lemma split_comma_space_piece (p rest cur : string) :
  contains_comma_space p = false ->
  split_comma_space (p ++ ", " ++ rest) cur
  = (cur ++ p)%string :: split_comma_space rest EmptyString.
Proof.
  revert cur. induction p as [|a p IH]; intros cur H.
  - change ((EmptyString ++ ", " ++ rest)%string) with (String "," (String " " rest)).
    rewrite split_comma_space_cons, !Ascii.eqb_refl. cbn [andb].
    now rewrite string_app_nil_r.
  - destruct p as [|b p].
    + change ((String a EmptyString ++ ", " ++ rest)%string)
        with (String a (String "," (String " " rest))).
      rewrite split_comma_space_cons.
      replace (Ascii.eqb a "," && Ascii.eqb "," " ")%bool with false
        by (now rewrite andb_false_r).
      rewrite split_comma_space_cons, !Ascii.eqb_refl. reflexivity.
    + rewrite contains_comma_space_cons in H. apply orb_false_iff in H as [Hab H].
      change ((String a (String b p) ++ ", " ++ rest)%string)
        with (String a (String b (p ++ ", " ++ rest)%string)).
      rewrite split_comma_space_cons, Hab.
      change (String b (p ++ ", " ++ rest)%string)
        with ((String b p ++ ", " ++ rest)%string).
      rewrite (IH _ H), string_app_assoc. reflexivity.
Qed.

Lemma split_comma_space_last (p cur : string) :
  contains_comma_space p = false ->
  split_comma_space p cur = [(cur ++ p)%string].
Proof.
  revert cur. induction p as [|a p IH]; intros cur H.
  - cbn [split_comma_space]. now rewrite string_app_nil_r.
  - destruct p as [|b p].
    + reflexivity.
    + rewrite contains_comma_space_cons in H. apply orb_false_iff in H as [Hab H].
      rewrite split_comma_space_cons, Hab, (IH _ H), string_app_assoc. reflexivity.
Qed.

Lemma split_comma_space_concat (p : string) (ps : list string) (cur : string) :
  Forall (fun n => contains_comma_space n = false) (p :: ps) ->
  split_comma_space (String.concat ", " (p :: ps)) cur = (cur ++ p)%string :: ps.
Proof.
  revert p cur. induction ps as [|q ps IH]; intros p cur H.
  - apply Forall_cons in H as [H _]. cbn. now apply split_comma_space_last.
  - apply Forall_cons in H as [Hp H].
    change (String.concat ", " (p :: q :: ps))
      with ((p ++ ", " ++ String.concat ", " (q :: ps))%string).
    rewrite (split_comma_space_piece _ _ _ Hp), (IH _ _ H). reflexivity.
Qed.

(** X12: [clean_worker] on a name written as one or more pieces separated
    by [', '], none of which holds the separator, returns the pieces in the
    opposite order, separated by a space, with white space stripped from both
    ends: [Last, First] becomes [First Last], and a name without the
    separator is only stripped. *)
Theorem clean_worker_reverses (names : list string) :
  names <> [] ->
  Forall (fun n => contains_comma_space n = false) names ->
  clean_worker (String.concat ", " names)
  = strip (String.concat " " (reverse names)).
Proof.
  intros Hne H. destruct names as [|p ps]; [contradiction|].
  unfold clean_worker. rewrite (split_comma_space_concat _ _ _ H).
  change ((EmptyString ++ p)%string) with p. destruct ps as [|q ps].
  - rewrite decide_False by (cbn; lia). reflexivity.
  - rewrite decide_True by (cbn; lia). reflexivity.
Qed.

Lemma clean_worker_reverses_witness :
  Forall (fun n => contains_comma_space n = false) ["Ma"; "Dragon "]
  /\ clean_worker "Ma, Dragon " = "Dragon  Ma".
Proof.
  assert (H : Forall (fun n => contains_comma_space n = false) ["Ma"; "Dragon "])
    by (repeat constructor).
  split; [exact H|].
  exact (clean_worker_reverses ["Ma"; "Dragon "] ltac:(discriminate) H).
Defined.

(** ** [read_replicon] *)

Lemma py_index_0 {A} (x : A) (l : list A) : py_index (x :: l) 0 = Ok x.
Proof.
  unfold py_index. cbn [length]. 
  replace ((0 <=? 0) && (0 <? Z.of_nat (S (length l))))%Z with true; [reflexivity|].
  symmetry. apply andb_true_iff. split; [reflexivity|]. apply Z.ltb_lt. lia.
Qed.

Lemma py_index_nil {A} (i : Z) : py_index (@nil A) i = Err IndexError.
Proof.
  unfold py_index. cbn [length].
  destruct ((0 <=? _) && _)%Z eqn:E; [|reflexivity].
  apply andb_true_iff in E as [E1 E2]. apply Z.leb_le in E1. apply Z.ltb_lt in E2.
  destruct (i <? 0)%Z eqn:Ei; [apply Z.ltb_lt in Ei | apply Z.ltb_ge in Ei]; lia.
Qed.

Lemma py_index_out {A} (l : list A) (i : Z) :
  (i < - Z.of_nat (length l) \/ Z.of_nat (length l) <= i)%Z ->
  py_index l i = Err IndexError.
Proof.
  intros H. unfold py_index.
  destruct ((0 <=? _) && _)%Z eqn:E; [|reflexivity].
  apply andb_true_iff in E as [E1 E2]. apply Z.leb_le in E1. apply Z.ltb_lt in E2.
  destruct (i <? 0)%Z eqn:Ei; [apply Z.ltb_lt in Ei | apply Z.ltb_ge in Ei]; lia.
Qed.

(** X13: [read_replicon] raises [IndexError] when the file has no table, or
    when its first table has no row at [header_row], whatever the other
    arguments: the header is taken by index, the rows of data by a slice. *)
Theorem read_replicon_no_header_row (events : list sax_event) (header_row start_row : Z)
    (end_row : option Z) (start_column : Z) (end_column : option Z) :
  (forall table, head (ExcelHandler.tables_of (parse events ExcelHandler.init)) = Some table ->
     (header_row < - Z.of_nat (length table) \/ Z.of_nat (length table) <= header_row)%Z) ->
  read_replicon events header_row start_row end_row start_column end_column
  = Err IndexError.
Proof.
  intros H. unfold read_replicon.
  destruct (ExcelHandler.tables_of (parse events ExcelHandler.init)) as [|table others].
  - rewrite py_index_nil. reflexivity.
  - rewrite py_index_0. cbn [mbind result_bind].
    rewrite (py_index_out _ _ (H table eq_refl)). reflexivity.
Qed.

Lemma read_replicon_no_header_row_witness :
  (forall table,
     head (ExcelHandler.tables_of (parse Sample.replicon_events ExcelHandler.init))
     = Some table ->
     (11 < - Z.of_nat (length table) \/ Z.of_nat (length table) <= 11)%Z)
  /\ read_replicon Sample.replicon_events 11 13 None 1 None = Err IndexError.
Proof.
  assert (H : forall table,
     head (ExcelHandler.tables_of (parse Sample.replicon_events ExcelHandler.init))
     = Some table ->
     (11 < - Z.of_nat (length table) \/ Z.of_nat (length table) <= 11)%Z).
  { intros table E. vm_compute in E. injection E as <-. right. vm_compute. discriminate. }
  split; [exact H|].
  exact (read_replicon_no_header_row Sample.replicon_events 11 13 None 1 None H).
Defined.

Lemma max_list_const (l : list nat) (n : nat) :
  l <> [] -> Forall (fun x => x = n) l -> max_list l = n.
Proof.
  intros Hne H. induction H as [|x l -> H IH]; [contradiction|].
  cbn. destruct l as [|y l]; [cbn; lia|]. rewrite IH by discriminate. lia.
Qed.

Lemma list_find_NoDup (cols : list string) (j : nat) (c : string) :
  NoDup cols -> cols !! j = Some c ->
  list_find (fun c' => c' = c) cols = Some (j, c).
Proof.
  intros Hnd Hj. apply list_find_Some. split; [exact Hj|]. split; [reflexivity|].
  intros i y Hi Hlt ->. pose proof (NoDup_lookup _ _ _ _ Hnd Hi Hj). lia.
Qed.

Lemma DataFrame_new_rectangular (data : list (list string)) (cols : list string) :
  NoDup cols ->
  Forall (fun x => length x = length cols) data ->
  exists f, DataFrame_new data cols = Ok f
    /\ columns f = cols
    /\ Forall2 (fun r x => Forall2 (fun c y => cell r c = SStr y) cols x) (rows f) data.
Proof.
  intros Hnd H. unfold DataFrame_new. destruct data as [|x0 data0] eqn:Ed.
  - eexists. split; [reflexivity|]. split; [reflexivity|]. constructor.
  - rewrite <- Ed in *. rewrite decide_True.
    2:{ apply max_list_const; [subst; rewrite fmap_cons; discriminate|].
        now apply Forall_fmap. }
    eexists. split; [reflexivity|]. split; [reflexivity|]. cbn [rows].
    apply Forall2_fmap_l. apply Forall_Forall2_diag.
    eapply Forall_impl; [exact H|]. cbn. intros x Hx.
    apply Forall2_same_length_lookup. split; [now symmetry|].
    intros j c y Hc Hy. rewrite cell_new_row.
    rewrite decide_True by (eapply list_elem_of_lookup_2; eassumption).
    rewrite (list_find_NoDup _ _ _ Hnd Hc), Hy. reflexivity.
Qed.

(** X14: when the first table has a row at [header_row], the labels cut from
    it are distinct once stripped, and every row of the slice of data gives
    as many cells as the header, [read_replicon] returns a frame whose header
    is those labels and whose rows are the rows of the slice, in order, each
    cell the stripped text of the cell under its label. *)
Theorem read_replicon_rectangular (events : list sax_event) (header_row start_row : Z)
    (end_row : option Z) (start_column : Z) (end_column : option Z)
    (table : list (list string)) (others : list (list (list string)))
    (header : list string) :
  ExcelHandler.tables_of (parse events ExcelHandler.init) = table :: others ->
  py_index table header_row = Ok header ->
  NoDup (strip <$> py_slice header start_column end_column) ->
  Forall (fun x => length (py_slice x start_column end_column)
                   = length (py_slice header start_column end_column))
    (py_slice table start_row end_row) ->
  exists f,
    read_replicon events header_row start_row end_row start_column end_column = Ok f
    /\ columns f = strip <$> py_slice header start_column end_column
    /\ Forall2 (fun r x =>
         Forall2 (fun c y => cell r c = SStr (strip y))
           (columns f) (py_slice x start_column end_column))
         (rows f) (py_slice table start_row end_row).
Proof.
  intros Ht Hh Hnd Hrect. unfold read_replicon.
  rewrite Ht, py_index_0. cbn [mbind result_bind]. rewrite Hh. cbn [mbind result_bind].
  destruct (DataFrame_new_rectangular
              ((fun x => strip <$> py_slice x start_column end_column)
               <$> py_slice table start_row end_row)
              (strip <$> py_slice header start_column end_column) Hnd)
    as (f & E & Hc & Hr).
  { apply Forall_fmap. eapply Forall_impl; [exact Hrect|]. cbn. intros x Hx.
    now rewrite !length_fmap. }
  exists f. split; [exact E|]. split; [exact Hc|]. rewrite Hc.
  apply Forall2_fmap_r in Hr. eapply Forall2_impl; [exact Hr|]. cbn.
  intros r x Hx. now apply Forall2_fmap_r in Hx.
Qed.

Lemma read_replicon_rectangular_witness :
  exists f,
    read_replicon Sample.replicon_events 1 2 None 1 None = Ok f
    /\ columns f = ["Entry Date"; "Task Name"; "User Name"; "Billable Hrs"; "Client Name"]
    /\ Forall2 (fun r x =>
         Forall2 (fun c y => cell r c = SStr (strip y)) (columns f) (py_slice x 1 None))
         (rows f)
         [ ["1"; "2017-01-02"; "Solutions"; "Chi, Captain"; "3"; "Police"];
           ["2"; "2017-01-10"; " Inception"; "Ma, Dragon"; "2.5"; "Police"] ].
Proof.
  exact (read_replicon_rectangular Sample.replicon_events 1 2 None 1 None
           [ ["Timesheet"];
             [" # "; "Entry Date"; " Task Name "; "User Name"; "Billable Hrs";
              "Client Name"];
             ["1"; "2017-01-02"; "Solutions"; "Chi, Captain"; "3"; "Police"];
             ["2"; "2017-01-10"; " Inception"; "Ma, Dragon"; "2.5"; "Police"] ]
           []
           [" # "; "Entry Date"; " Task Name "; "User Name"; "Billable Hrs"; "Client Name"]
           eq_refl eq_refl
           ltac:(apply (bool_decide_unpack _); vm_compute; exact I)
           ltac:(repeat constructor)).
Defined.

(** ** [add_opacity] *)

Section UtilitiesFacts.
Variable str : number -> string.

Lemma py_slice_4_m1 {A} (pre body : list A) (c : A) :
  length pre = 4 -> py_slice (pre ++ body ++ [c]) 4 (Some (-1)%Z) = body.
Proof.
  intros Hp. unfold py_slice, slice_bound.
  rewrite !length_app, Hp. cbn [length].
  replace (4 <? 0)%Z with false by reflexivity.
  replace (-1 <? 0)%Z with true by reflexivity.
  rewrite Z.min_l by lia. rewrite Z.max_l by lia.
  replace (Z.to_nat 4) with (length pre) by (rewrite Hp; reflexivity).
  rewrite skipn_app, Nat.sub_diag, skipn_all. cbn [app skipn].
  replace (Z.to_nat _) with (length body) by lia.
  apply take_app_length.
Qed.

(** X18: on a string of at least five characters [add_opacity] drops the
    first four and the last, whatever they are, and puts what is left between
    [rgba(] and a comma, the opacity as [str] prints it, and a closing
    bracket: [rgb(r,g,b)] becomes [rgba(r,g,b,opacity)]. *)
Theorem add_opacity_rgb (pre body : string) (c : ascii) (opacity : number) :
  String.length pre = 4 ->
  add_opacity str (pre ++ body ++ String c EmptyString) opacity
  = ("rgba(" ++ body ++ "," ++ str opacity ++ ")")%string.
Proof.
  intros Hp. unfold add_opacity, string_slice.
  rewrite !list_ascii_of_string_app. cbn [list_ascii_of_string].
  rewrite py_slice_4_m1 by (now rewrite string_length_list).
  now rewrite string_of_list_ascii_of_string.
Qed.

End UtilitiesFacts.

Lemma add_opacity_rgb_witness :
  String.length "rgb(" = 4
  /\ add_opacity Sample.str "rgb(141,211,199)" (NFloat (fdiv (float_of_Z 1) (float_of_Z 2)))
     = "rgba(141,211,199,0.5)".
Proof.
  split; [reflexivity|].
  exact (add_opacity_rgb Sample.str "rgb(" "141,211,199" ")"
           (NFloat (fdiv (float_of_Z 1) (float_of_Z 2))) eq_refl).
Defined.

(** ** [reformat_replicon] *)

Lemma lookup_list_to_map_fmap {B : Type} (g : string -> B) (l : list string) (c : string) :
  (list_to_map ((fun c => (c, g c)) <$> l) : gmap string B) !! c
  = if decide (c ∈ l) then Some (g c) else None.
Proof.
  induction l as [|c0 l IH].
  - cbn. rewrite lookup_empty. destruct (decide (c ∈ [])) as [H|]; [|reflexivity].
    now apply elem_of_nil in H.
  - rewrite fmap_cons, list_to_map_cons, lookup_insert.
    destruct (decide (c0 = c)) as [->|Hne].
    + rewrite decide_True by left. reflexivity.
    + rewrite IH. destruct (decide (c ∈ l)) as [H|H].
      * rewrite decide_True by now right. reflexivity.
      * rewrite decide_False; [reflexivity|]. intros [?|?]%elem_of_cons; congruence.
Qed.

Lemma renamed_comprehension (g : string -> string) (l : list string) (c : string) :
  c ∈ l -> renamed (list_to_map ((fun c => (c, g c)) <$> l)) c = g c.
Proof.
  intros H. unfold renamed. rewrite lookup_list_to_map_fmap, decide_True by exact H.
  reflexivity.
Qed.

Lemma cell_drop_ignore (r : gmap string scalar) (L : list string) (c : string) :
  c ∉ L -> cell (foldr delete r L) c = cell r c.
Proof.
  induction L as [|c0 L IH]; intros H; [reflexivity|].
  cbn [foldr]. rewrite cell_delete, decide_False.
  - apply IH. intros ?. apply H. now right.
  - intros ->. apply H. left.
Qed.

Lemma list_find_fmap_NoDup (g : string -> string) (l : list string) (c : string) :
  NoDup (g <$> l) -> c ∈ l ->
  exists i, list_find (fun c0 => g c0 = g c) l = Some (i, c).
Proof.
  intros Hnd [i Hi]%list_elem_of_lookup_1. exists i.
  apply list_find_Some. split; [exact Hi|]. split; [reflexivity|].
  intros j y Hj Hlt Hy.
  assert (E1 : (g <$> l) !! j = Some (g c)) by (rewrite list_lookup_fmap, Hj; cbn; now f_equal).
  assert (E2 : (g <$> l) !! i = Some (g c)) by (rewrite list_lookup_fmap, Hi; reflexivity).
  pose proof (NoDup_lookup _ _ _ _ Hnd E1 E2). lia.
Qed.

Lemma rename_dict_row_cell (f : DataFrame) (d : gmap string string) (c : string)
    (r : gmap string scalar) :
  NoDup (renamed d <$> columns f) -> c ∈ columns f ->
  cell (rename_dict_row f d r) (renamed d c) = cell r c.
Proof.
  intros Hnd Hc. unfold rename_dict_row. rewrite cell_new_row.
  rewrite decide_True by (apply list_elem_of_fmap; eauto).
  destruct (list_find_fmap_NoDup (renamed d) _ _ Hnd Hc) as [i ->]. reflexivity.
Qed.

Lemma setitem_rows (f f' : DataFrame) (c : string) (vs : list scalar) :
  setitem f c vs = Ok f' -> c ∈ columns f ->
  columns f' = columns f
  /\ length vs = length (rows f)
  /\ column_values f' c = vs
  /\ Forall2 (fun r r' => forall c', c' <> c -> cell r' c' = cell r c') (rows f) (rows f').
Proof.
  unfold setitem. destruct (decide (length vs = _)) as [Hl|]; [|discriminate].
  intros [= <-] Hc. cbn [columns rows]. rewrite decide_True by exact Hc.
  split; [reflexivity|]. split; [exact Hl|]. unfold column_values. cbn [rows].
  revert vs Hl. induction (rows f) as [|r l IH]; intros [|v vs] Hl; try discriminate.
  - split; [reflexivity | constructor].
  - injection Hl as Hl. destruct (IH vs Hl) as [E F]. cbn [zip_with]. split.
    + rewrite fmap_cons, E, cell_insert_eq. reflexivity.
    + constructor; [|exact F]. intros c' Hne. now apply cell_insert_ne.
Qed.

Lemma Forall2_compose {A B C : Type} (P : A -> B -> Prop) (Q : B -> C -> Prop)
    (l : list A) (k : list B) (m : list C) :
  Forall2 P l k -> Forall2 Q k m -> Forall2 (fun x z => exists y, P x y /\ Q y z) l m.
Proof.
  intros H. revert m. induction H as [|x y l k Hxy _ IH]; intros m Hm.
  - inversion Hm. constructor.
  - inversion Hm as [|? z ? m' Hyz Hm']; subst. constructor; eauto.
Qed.

Lemma Forall2_and {A B : Type} (P Q : A -> B -> Prop) (l : list A) (k : list B) :
  Forall2 P l k -> Forall2 Q l k -> Forall2 (fun x y => P x y /\ Q x y) l k.
Proof.
  intros H. induction H as [|x y l k Hxy _ IH]; intros HQ; [constructor|].
  inversion HQ; subst. constructor; auto.
Qed.

Lemma Forall2_fmap_self {A B : Type} (g : A -> B) (l : list A) :
  Forall2 (fun x y => y = g x) l (g <$> l).
Proof. apply Forall2_fmap_r. apply Forall_Forall2_diag. now apply Forall_forall. Qed.

Lemma Forall2_column (P : scalar -> scalar -> Prop) (f g : DataFrame) (c c' : string) :
  Forall2 P (column_values f c) (column_values g c')
  <-> Forall2 (fun r r' => P (cell r c) (cell r' c')) (rows f) (rows g).
Proof. unfold column_values. now rewrite Forall2_fmap. Qed.

Lemma column_values_eq (f g : DataFrame) (c c' : string) :
  Forall2 (fun r r' => cell r' c' = cell r c) (rows f) (rows g) ->
  column_values g c' = column_values f c.
Proof.
  intros H. unfold column_values. induction H as [|r r' l k E _ IH]; [reflexivity|].
  rewrite !fmap_cons, E, IH. reflexivity.
Qed.

Lemma getitem_list_Ok (f g : DataFrame) (cols : list string) :
  getitem_list f cols = Ok g ->
  (forall c, c ∈ cols -> c ∈ columns f)
  /\ g = mkDataFrame cols ((fun r => new_row cols (cell r)) <$> rows f).
Proof.
  unfold getitem_list. destruct (filter _ cols) as [|c0 l] eqn:E; [|discriminate].
  intros [= <-]. split; [|reflexivity]. intros c Hc.
  destruct (decide (c ∈ columns f)) as [H|H]; [exact H|].
  assert (Hin : c ∈ filter (fun c => c ∉ columns f) cols) by now apply list_elem_of_filter.
  rewrite E in Hin. now apply elem_of_nil in Hin.
Qed.

Lemma for_each_Err_inv {A : Type} (body : A -> result unit) (l : list A) (e : exn) :
  for_each body l = Err e -> exists x, x ∈ l /\ body x = Err e.
Proof.
  induction l as [|x l IH]; cbn [for_each]; [discriminate|].
  destruct (body x) as [[]|e'] eqn:E; cbn [mbind result_bind].
  - intros (y & Hy & Ey)%IH. exists y. split; [now right | exact Ey].
  - intros [= <-]. exists x. split; [left | exact E].
Qed.

Lemma df_no_nans_Err (f : DataFrame) (e : exn) :
  df_no_nans f = Err e -> e = Invalid NaNsFound.
Proof.
  unfold df_no_nans.
  destruct (for_each _ (columns f)) as [[]|e'] eqn:En; cbn [mbind result_bind];
    [discriminate|].
  intros [= <-]. apply for_each_Err_inv in En as (c & Hc & E).
  rewrite (getitem_elem _ _ Hc) in E. cbn [mbind result_bind] in E.
  destruct (decide _); congruence.
Qed.

Section ReformatFacts.

Variable to_datetime : list scalar -> result (list scalar).
Variable float_of_string : string -> option float64.

Lemma astype_float_isinstance (v w : scalar) :
  astype_float float_of_string v = Ok w -> isinstance_float w = true.
Proof.
  destruct v as [s|x|z|d|]; cbn; try discriminate.
  - destruct (float_of_string s); [|discriminate]. now intros [= <-].
  - now intros [= <-].
  - now intros [= <-].
  - now intros [= <-].
Qed.

Lemma relabelled_columns (f : DataFrame) :
  columns (relabelled f) = replicon_label <$> kept_labels f.
Proof.
  unfold relabelled, rename_dict, drop_ignore, kept_labels, replicon_label.
  cbn [columns]. rewrite <- list_fmap_compose. apply list_fmap_ext.
  intros i c Hc. unfold compose. rewrite renamed_comprehension; [reflexivity|].
  eapply list_elem_of_lookup_2; eassumption.
Qed.

Lemma relabelled_cells (f : DataFrame) (c : string) :
  NoDup (replicon_label <$> kept_labels f) -> c ∈ kept_labels f ->
  Forall2 (fun r r' => cell r' (replicon_label c) = cell r c)
    (rows f) (rows (relabelled f)).
Proof.
  intros Hnd Hc. unfold relabelled.
  set (f1 := drop_ignore f drop_cols).
  set (d1 := list_to_map ((fun c => (c, replace_space (strip (lower c)))) <$> columns f1)
             : gmap string string).
  set (f2 := rename_dict f1 d1).
  assert (C1 : columns f1 = kept_labels f) by reflexivity.
  assert (C2 : columns f2 = (fun c => replace_space (strip (lower c))) <$> kept_labels f).
  { unfold f2, rename_dict. cbn [columns]. rewrite C1. apply list_fmap_ext.
    intros i c0 Hc0.
    apply (renamed_comprehension (fun c => replace_space (strip (lower c)))). rewrite C1.
    eapply list_elem_of_lookup_2; eassumption. }
  assert (N2 : NoDup (renamed new_names <$> columns f2)).
  { rewrite C2, <- list_fmap_compose. exact Hnd. }
  assert (N1 : NoDup (renamed d1 <$> columns f1)).
  { replace (renamed d1 <$> columns f1) with (columns f2) by reflexivity.
    eapply NoDup_fmap_1. exact N2. }
  assert (R1 : renamed d1 c = replace_space (strip (lower c))).
  { apply (renamed_comprehension (fun c => replace_space (strip (lower c)))).
    now rewrite C1. }
  change (rows (rename_dict f2 new_names))
    with (rename_dict_row f2 new_names
          <$> (rename_dict_row f1 d1
               <$> ((fun r => foldr delete r drop_cols) <$> rows f))).
  rewrite <- !list_fmap_compose.
  apply Forall2_fmap_r, Forall_Forall2_diag, Forall_forall. intros r _.
  unfold compose, replicon_label. rewrite <- R1.
  rewrite (rename_dict_row_cell f2 new_names (renamed d1 c) _ N2).
  2:{ unfold f2, rename_dict. cbn [columns]. apply list_elem_of_fmap.
      exists c. split; [reflexivity | now rewrite C1]. }
  rewrite (rename_dict_row_cell f1 d1 c _ N1) by now rewrite C1.
  apply cell_drop_ignore. unfold kept_labels in Hc.
  apply list_elem_of_filter in Hc as [Hc _]. exact Hc.
Qed.

(** The steps of a call that returns. *)
Lemma reformat_replicon_Ok (f g : DataFrame) :
  reformat_replicon to_datetime float_of_string f = Ok g ->
  columns g = ["date"; "task"; "worker"; "duration"]
  /\ (forall c, c ∈ ["date"; "task"; "worker"; "duration"] -> c ∈ columns (relabelled f))
  /\ to_datetime (column_values (relabelled f) "date") = Ok (column_values g "date")
  /\ Forall2 (fun r r' =>
       cell r' "task" = cell r "task"
       /\ astype_float float_of_string (cell r "duration") = Ok (cell r' "duration")
       /\ Series_map_str "split" clean_worker (cell r "worker") = Ok (cell r' "worker"))
       (rows (relabelled f)) (rows g).
Proof.
  unfold reformat_replicon. fold (relabelled f). set (f3 := relabelled f). intros H.
  bind_inv H as d0 Hd0. bind_inv H as dts Hdts. bind_inv H as f4 Hf4.
  bind_inv H as u0 Hu0. bind_inv H as drs Hdrs. bind_inv H as f5 Hf5.
  bind_inv H as w0 Hw0. bind_inv H as wks Hwks. bind_inv H as f6 Hf6.
  apply getitem_Ok in Hd0 as [Cd ->]. apply getitem_Ok in Hu0 as [Cu ->].
  apply getitem_Ok in Hw0 as [Cw ->].
  destruct (setitem_rows _ _ _ _ Hf4 Cd) as (C4 & L4 & V4 & F4).
  destruct (setitem_rows _ _ _ _ Hf5 Cu) as (C5 & L5 & V5 & F5).
  destruct (setitem_rows _ _ _ _ Hf6 Cw) as (C6 & L6 & V6 & F6).
  apply getitem_list_Ok in H as [Hall ->].
  apply mapM_result_Ok in Hdrs, Hwks.
  fold (column_values f4 "duration") in Hdrs. rewrite <- V5 in Hdrs.
  apply Forall2_column in Hdrs.
  fold (column_values f5 "worker") in Hwks. rewrite <- V6 in Hwks.
  apply Forall2_column in Hwks.
  fold (column_values f3 "date") in Hdts.
  assert (F7 := Forall2_fmap_self (fun r => new_row ["date"; "task"; "worker"; "duration"] (cell r))
                  (rows f6)).
  assert (S7 : forall r c, c ∈ ["date"; "task"; "worker"; "duration"] ->
            cell (new_row ["date"; "task"; "worker"; "duration"] (cell r)) c = cell r c).
  { intros r c Hc. rewrite cell_new_row. now rewrite decide_True. }
  split; [reflexivity|]. split.
  { intros c Hc. specialize (Hall c Hc). now rewrite C6, C5, C4 in Hall. }
  split.
  { rewrite Hdts. f_equal. rewrite <- V4. symmetry. apply column_values_eq. cbn [rows].
    assert (G := Forall2_compose _ _ _ _ _
                   (Forall2_and _ _ _ _ F5 Hdrs)
                   (Forall2_compose _ _ _ _ _ F6 F7)).
    eapply Forall2_impl; [exact G|]. cbv beta.
    intros r4 r' (r5 & [E5 _] & r6 & E6 & ->).
    rewrite S7 by in_list. rewrite E6 by discriminate. apply E5. discriminate. }
  cbn [rows].
  assert (G := Forall2_compose _ _ _ _ _ F4
                 (Forall2_compose _ _ _ _ _
                    (Forall2_and _ _ _ _ F5 Hdrs)
                    (Forall2_compose _ _ _ _ _
                       (Forall2_and _ _ _ _ F6 Hwks) F7))).
  eapply Forall2_impl; [exact G|]. cbv beta.
  intros r3 r' (r4 & E4 & r5 & [E5 A5] & r6 & [E6 A6] & ->).
  rewrite !S7 by in_list. split; [|split].
  - rewrite E6, E5, E4 by discriminate. reflexivity.
  - rewrite E6 by discriminate. rewrite <- (E4 "duration") by discriminate. exact A5.
  - rewrite <- (E4 "worker"), <- (E5 "worker") by discriminate. exact A6.
Qed.

(** X15: let the labels that [reformat_replicon] keeps end, once renamed,
    as distinct labels, four of them as date, task, worker and duration.
    Then a frame it returns has exactly these four labels, in this order, and
    one row for each row of the input, in order: the dates are [to_datetime]
    of the date column, the task is unchanged, the duration is the float of
    the input cell, and the worker is [clean_worker] of the input cell, which
    is a string. *)
Theorem reformat_replicon_cells (f g : DataFrame)
    (date_label task_label worker_label duration_label : string) :
  NoDup (replicon_label <$> kept_labels f) ->
  date_label ∈ kept_labels f -> replicon_label date_label = "date" ->
  task_label ∈ kept_labels f -> replicon_label task_label = "task" ->
  worker_label ∈ kept_labels f -> replicon_label worker_label = "worker" ->
  duration_label ∈ kept_labels f -> replicon_label duration_label = "duration" ->
  reformat_replicon to_datetime float_of_string f = Ok g ->
  columns g = ["date"; "task"; "worker"; "duration"]
  /\ to_datetime (column_values f date_label) = Ok (column_values g "date")
  /\ Forall2 (fun r r' =>
       cell r' "task" = cell r task_label
       /\ astype_float float_of_string (cell r duration_label) = Ok (cell r' "duration")
       /\ exists x, cell r worker_label = SStr x
                    /\ cell r' "worker" = SStr (clean_worker x))
       (rows f) (rows g).
Proof.
  intros Hnd Hd Ed Ht Et Hw Ew Hu Eu H.
  destruct (reformat_replicon_Ok _ _ H) as (Hc & _ & Hdate & Hrows).
  pose proof (relabelled_cells f _ Hnd Hd) as Rd. rewrite Ed in Rd.
  pose proof (relabelled_cells f _ Hnd Ht) as Rt. rewrite Et in Rt.
  pose proof (relabelled_cells f _ Hnd Hw) as Rw. rewrite Ew in Rw.
  pose proof (relabelled_cells f _ Hnd Hu) as Ru. rewrite Eu in Ru.
  split; [exact Hc|]. split.
  - rewrite <- Hdate. f_equal. symmetry. now apply column_values_eq.
  - assert (R := Forall2_and _ _ _ _ Rt (Forall2_and _ _ _ _ Rw Ru)).
    eapply Forall2_impl; [exact (Forall2_compose _ _ _ _ _ R Hrows)|]. cbv beta.
    intros r r' (r3 & (E1 & E2 & E3) & (A1 & A2 & A3)).
    rewrite <- E1, <- E2, <- E3. split; [exact A1|]. split; [exact A2|].
    destruct (cell r3 "worker") as [x| | | |]; try discriminate.
    exists x. split; [reflexivity|]. now injection A3 as <-.
Qed.

(** X16: a frame that [reformat_replicon] returns, under the same condition
    on the labels, has the header and the float durations that
    [check_timesheet_df] asks for: against task and worker tables that have
    their name columns the check returns the frame or raises
    [voluptuous.Invalid], for a missing value, unknown tasks or unknown
    workers; the failure on a non-float duration does not occur. *)
Theorem reformat_replicon_check (f g tasks workers : DataFrame) :
  NoDup (replicon_label <$> kept_labels f) ->
  "task" ∈ columns tasks -> "worker" ∈ columns workers ->
  reformat_replicon to_datetime float_of_string f = Ok g ->
  check_timesheet_df (VFrame g) (VFrame tasks) (VFrame workers) = Ok (Some g)
  \/ exists reason,
       reason ∈ [NaNsFound; UnknownTasks (unknown_names g tasks "task");
                 UnknownWorkers (unknown_names g workers "worker")]
       /\ check_timesheet_df (VFrame g) (VFrame tasks) (VFrame workers)
          = Err (Invalid reason).
Proof.
  intros _ Ht Hw H.
  destruct (reformat_replicon_Ok _ _ H) as (Hc & _ & _ & Hrows).
  unfold check_timesheet_df. cbn [py_copy mbind result_bind].
  unfold check_df. cbn [check_df_instance mbind result_bind].
  unfold check_df_header. rewrite Hc.
  rewrite decide_True by reflexivity. cbn [mbind result_bind].
  unfold check_df_no_nans.
  destruct (df_no_nans g) as [g'|e] eqn:En; cbn [mbind result_bind].
  2:{ right. exists NaNsFound. split; [left|]. now rewrite (df_no_nans_Err _ _ En). }
  apply df_no_nans_Ok in En as [-> _].
  rewrite (getitem_elem g "duration") by (rewrite Hc; in_list). cbn [mbind result_bind].
  replace (for_each _ _) with (Ok tt : result unit).
  2:{ symmetry. apply for_each_Ok. apply Forall_fmap.
      assert (Hfl : Forall (fun r' => isinstance_float (cell r' "duration") = true) (rows g)).
      { apply (Forall2_Forall_right _ _ _ _ Hrows).
        intros r r0 (_ & A & _). exact (astype_float_isinstance _ _ A). }
      eapply Forall_impl; [exact Hfl|]. intros r' Hr'. unfold compose. cbv beta.
      rewrite Hr'. reflexivity. }
  cbn [mbind result_bind].
  rewrite (getitem_elem g "task") by (rewrite Hc; in_list). cbn [mbind result_bind py_getitem].
  rewrite (getitem_elem tasks "task" Ht). cbn [mbind result_bind].
  fold (column_values g "task") (column_values tasks "task").
  fold (unknown_names g tasks "task").
  destruct (decide (unknown_names g tasks "task" = ∅)) as [_|_].
  2:{ right. eexists. split; [right; left|]. reflexivity. }
  rewrite (getitem_elem g "worker") by (rewrite Hc; in_list). cbn [mbind result_bind py_getitem].
  rewrite (getitem_elem workers "worker" Hw). cbn [mbind result_bind].
  fold (column_values g "worker") (column_values workers "worker").
  fold (unknown_names g workers "worker").
  destruct (decide (unknown_names g workers "worker" = ∅)) as [_|_].
  - now left.
  - right. eexists. split; [right; right; left|]. reflexivity.
Qed.

(** X17: when none of the labels that [reformat_replicon] keeps is renamed
    to date, the call raises [KeyError] for the label date, before any other
    column is looked at. *)
Theorem reformat_replicon_no_date (f : DataFrame) :
  (forall c, c ∈ kept_labels f -> replicon_label c <> "date") ->
  reformat_replicon to_datetime float_of_string f = Err (KeyError "date").
Proof.
  intros H. unfold reformat_replicon. fold (relabelled f).
  unfold getitem. rewrite decide_False; [reflexivity|].
  rewrite relabelled_columns. intros (c & E & Hc)%list_elem_of_fmap.
  exact (H c Hc (eq_sym E)).
Qed.

End ReformatFacts.

Lemma reformat_replicon_cells_witness :
  NoDup (replicon_label <$> kept_labels Sample.replicon_df)
  /\ reformat_replicon Sample.to_datetime Sample.float_of_string Sample.replicon_df
     = Ok Sample.replicon_timesheet
  /\ columns Sample.replicon_timesheet = ["date"; "task"; "worker"; "duration"]
  /\ Forall2 (fun r r' =>
       cell r' "task" = cell r "Task Name"
       /\ astype_float Sample.float_of_string (cell r "Billable Hrs")
          = Ok (cell r' "duration")
       /\ exists x, cell r "User Name" = SStr x
                    /\ cell r' "worker" = SStr (clean_worker x))
       (rows Sample.replicon_df) (rows Sample.replicon_timesheet).
Proof.
  assert (Hnd : NoDup (replicon_label <$> kept_labels Sample.replicon_df))
    by (apply (bool_decide_unpack _); vm_compute; exact I).
  assert (H : reformat_replicon Sample.to_datetime Sample.float_of_string
                Sample.replicon_df = Ok Sample.replicon_timesheet)
    by (vm_compute; reflexivity).
  split; [exact Hnd|]. split; [exact H|].
  destruct (reformat_replicon_cells Sample.to_datetime Sample.float_of_string
              Sample.replicon_df Sample.replicon_timesheet
              "Entry Date" "Task Name" "User Name" "Billable Hrs" Hnd
              ltac:(apply (bool_decide_unpack _); vm_compute; exact I) eq_refl
              ltac:(apply (bool_decide_unpack _); vm_compute; exact I) eq_refl
              ltac:(apply (bool_decide_unpack _); vm_compute; exact I) eq_refl
              ltac:(apply (bool_decide_unpack _); vm_compute; exact I) eq_refl
              H) as (H1 & _ & H3).
  split; [exact H1 | exact H3].
Defined.

Lemma reformat_replicon_check_witness :
  NoDup (replicon_label <$> kept_labels Sample.replicon_df)
  /\ reformat_replicon Sample.to_datetime Sample.float_of_string Sample.replicon_df
     = Ok Sample.replicon_timesheet
  /\ (check_timesheet_df (VFrame Sample.replicon_timesheet) (VFrame Sample.tasks)
        (VFrame Sample.workers) = Ok (Some Sample.replicon_timesheet)
      \/ exists reason,
           reason ∈ [NaNsFound;
                     UnknownTasks (unknown_names Sample.replicon_timesheet Sample.tasks "task");
                     UnknownWorkers
                       (unknown_names Sample.replicon_timesheet Sample.workers "worker")]
           /\ check_timesheet_df (VFrame Sample.replicon_timesheet) (VFrame Sample.tasks)
                (VFrame Sample.workers) = Err (Invalid reason)).
Proof.
  assert (Hnd : NoDup (replicon_label <$> kept_labels Sample.replicon_df))
    by (apply (bool_decide_unpack _); vm_compute; exact I).
  assert (H : reformat_replicon Sample.to_datetime Sample.float_of_string
                Sample.replicon_df = Ok Sample.replicon_timesheet)
    by (vm_compute; reflexivity).
  split; [exact Hnd|]. split; [exact H|].
  apply (reformat_replicon_check Sample.to_datetime Sample.float_of_string
           Sample.replicon_df Sample.replicon_timesheet Sample.tasks Sample.workers
           Hnd); [left | left | exact H].
Defined.

Lemma reformat_replicon_no_date_witness :
  (forall c, c ∈ kept_labels Sample.replicon_df_no_date -> replicon_label c <> "date")
  /\ reformat_replicon Sample.to_datetime Sample.float_of_string
       Sample.replicon_df_no_date = Err (KeyError "date").
Proof.
  assert (H : forall c, c ∈ kept_labels Sample.replicon_df_no_date ->
                        replicon_label c <> "date").
  { apply Forall_forall. apply (bool_decide_unpack _). vm_compute. exact I. }
  split; [exact H|].
  exact (reformat_replicon_no_date Sample.to_datetime Sample.float_of_string
           Sample.replicon_df_no_date H).
Defined.
